(** * miblab.data: dataset fetchers and uploader

    A shallow embedding of [src/miblab/data.py] (functions [zenodo_fetch],
    [osf_fetch], [osf_upload], [rat_fetch]) together with the properties of
    the dataset-fetch orchestration that the design document states.

    The Python code talks to three external collaborators: the local
    filesystem (module [os]), the HTTP layer (module [requests]) and the
    hierarchical storage client ([osfclient]).  Each of them is modelled by
    an explicit component of a [world] record that the code threads through
    a state-and-exception monad. *)

From stdpp Require Import gmap strings list fin_maps.
From Stdlib Require Import Ascii String ZArith Lia.

Local Open Scope string_scope.
Local Open Scope list_scope.

(** ** Python string primitives used by the module *)

Module Py.

(** [str.lower] on ASCII letters; other bytes are left alone. *)
Definition lower_char (c : ascii) : ascii :=
  let n := nat_of_ascii c in
  if (65 <=? n)%nat && (n <=? 90)%nat then ascii_of_nat (n + 32) else c.

Fixpoint lower (s : string) : string :=
  match s with
  | EmptyString => EmptyString
  | String c r => String (lower_char c) (lower r)
  end.

(** [s.startswith(p)] and [s.endswith(p)]: [p] is a prefix of [s]; some
    suffix of [s] is [p]. *)
Fixpoint startswith (s p : string) : bool :=
  match p, s with
  | EmptyString, _ => true
  | String a p', String b s' => Ascii.eqb b a && startswith s' p'
  | String _ _, EmptyString => false
  end.

Fixpoint endswith (s p : string) : bool :=
  String.eqb s p ||
  match s with
  | EmptyString => false
  | String _ r => endswith r p
  end.

(** [s.split(sep)] for a one-character separator: never returns the
    empty list, [''.split('/') == ['']]. *)
Fixpoint split (sep : ascii) (s : string) : list string :=
  match s with
  | EmptyString => [EmptyString]
  | String c r =>
      if Ascii.eqb c sep then EmptyString :: split sep r
      else match split sep r with
           | h :: t => String c h :: t
           | [] => [String c EmptyString]
           end
  end.

(** [s.lstrip(c)], [s.rstrip(c)] and [s.strip(c)] for a one-character
    set. *)
Fixpoint lstrip (c : ascii) (s : string) : string :=
  match s with
  | EmptyString => EmptyString
  | String d r => if Ascii.eqb d c then lstrip c r else s
  end.

Definition rstrip (c : ascii) (s : string) : string :=
  String.rev (lstrip c (String.rev s)).

Definition strip (c : ascii) (s : string) : string := rstrip c (lstrip c s).

(** [sep.join(l)]. *)
Fixpoint join_with (sep : string) (l : list string) : string :=
  match l with
  | [] => ""
  | [x] => x
  | x :: r => x +:+ sep +:+ join_with sep r
  end.

(** [s[:-n]]: everything but the last [n] characters. *)
Definition drop_last (n : nat) (s : string) : string :=
  String.substring 0 (String.length s - n) s.

(** Truthiness of an optional string: [None] and [''] are falsy. *)
Definition truthy (o : option string) : bool :=
  match o with
  | None => false
  | Some s => negb (String.eqb s "")
  end.

(** [os.path.join(a, b)] of [posixpath]. *)
Definition path_join (a b : string) : string :=
  if startswith b "/" then b
  else if String.eqb a "" || endswith a "/" then a +:+ b
  else a +:+ "/" +:+ b.

(** A name of a directory entry: not empty, not [.] or [..], and without
    a separator. *)
Fixpoint has_sep (s : string) : bool :=
  match s with
  | EmptyString => false
  | String c r => Ascii.eqb c "/" || has_sep r
  end.

Definition is_name (s : string) : bool :=
  negb (String.eqb s "" || String.eqb s "." || String.eqb s "..") && negb (has_sep s).

(** [os.path.basename(p)]: what follows the last separator. *)
Definition basename (p : string) : string :=
  List.last (split "/" p) "".

End Py.

(** ** Exceptions and results *)

(** The exception classes the module raises or lets through.  [ReqConnectionError]
    is [requests.exceptions.ConnectionError], [ReqHTTPError] is
    [requests.exceptions.HTTPError] (what [raise_for_status] raises),
    [ReqOther] any other exception of the HTTP layer (a timeout, an invalid
    URL); [ConnectionError] is the builtin class of that name. *)
Inductive exn_class :=
  | NotImplementedError
  | ValueError
  | KeyError
  | ReqConnectionError
  | ReqHTTPError
  | ReqOther
  | ConnectionError
  | FileNotFoundError
  | FileExistsError
  | NotADirectoryError
  | IsADirectoryError
  | BadZipFile
  | RuntimeError
  | OtherError.

Global Instance exn_class_eq_dec : EqDecision exn_class.
Proof. solve_decision. Defined.

(** An exception: its class and [str(e)]. *)
Record exn := Exn { exn_cls : exn_class; exn_msg : string }.

Global Instance exn_eq_dec : EqDecision exn.
Proof. solve_decision. Defined.

(** The outcome of running a piece of code: a value, a raised exception,
    or [OutOfFuel] when a bounded loop of the model ran out of steps
    (no Python [except] clause catches that one). *)
Inductive result (A : Type) :=
  | Ok (a : A)
  | Raise (e : exn)
  | OutOfFuel.
Arguments Ok {A} a.
Arguments Raise {A} e.
Arguments OutOfFuel {A}.

(** ** The local filesystem *)

Module FS.

(** A filesystem entry: a regular file with its bytes, or a directory. *)
Inductive node :=
  | File (data : string)
  | Dir.

Global Instance node_eq_dec : EqDecision node.
Proof. solve_decision. Defined.

(** The filesystem maps a resolved path, the list of its components from
    the root, to the entry there.  The root [[]] is always a directory
    and doubles as the current directory of the process, so that
    relative and absolute paths name the same tree. *)
Abbreviation t := (gmap (list string) node).

Definition lookup (fs : t) (p : list string) : option node :=
  match p with
  | [] => Some Dir
  | _ => fs !! p
  end.

(** Path resolution without symbolic links: empty and [.] components are
    skipped, [..] steps back. *)
Fixpoint normalize (acc : list string) (segs : list string) : list string :=
  match segs with
  | [] => rev acc
  | s :: r =>
      if String.eqb s "" || String.eqb s "." then normalize acc r
      else if String.eqb s ".." then normalize (tail acc) r
      else normalize (s :: acc) r
  end.

Definition components (p : string) : list string :=
  normalize [] (Py.split "/" p).

(** The empty string names nothing ([ENOENT]). *)
Definition resolve (p : string) : option (list string) :=
  if String.eqb p "" then None else Some (components p).

(** [os.path.exists], [os.path.isfile], [os.path.isdir]. *)
Definition exists_ (fs : t) (p : string) : bool :=
  match resolve p with
  | Some k => match lookup fs k with Some _ => true | None => false end
  | None => false
  end.

Definition isfile (fs : t) (p : string) : bool :=
  match resolve p with
  | Some k => match lookup fs k with Some (File _) => true | _ => false end
  | None => false
  end.

Definition isdir (fs : t) (p : string) : bool :=
  match resolve p with
  | Some k => match lookup fs k with Some Dir => true | _ => false end
  | None => false
  end.

(** [os.makedirs(p, exist_ok)]: create every missing directory on the way
    to [p].  [above] is the prefix already walked (reversed), [todo] what
    remains. *)
Fixpoint mkdir_p (exist_ok : bool) (p : string) (fs : t)
         (above : list string) (todo : list string) : result t :=
  match todo with
  | [] => Ok fs
  | s :: r =>
      let here := rev (s :: above) in
      match fs !! here with
      | Some (File _) =>
          match r with
          | [] => Raise (Exn FileExistsError p)
          | _ => Raise (Exn NotADirectoryError p)
          end
      | Some Dir =>
          match r with
          | [] => if exist_ok then Ok fs else Raise (Exn FileExistsError p)
          | _ => mkdir_p exist_ok p fs (s :: above) r
          end
      | None => mkdir_p exist_ok p (<[here := Dir]> fs) (s :: above) r
      end
  end.

Definition makedirs (exist_ok : bool) (p : string) (fs : t) : result t :=
  match resolve p with
  | None => Raise (Exn FileNotFoundError p)
  | Some [] => if exist_ok then Ok fs else Raise (Exn FileExistsError p)
  | Some k => mkdir_p exist_ok p fs [] k
  end.

(** [open(p, 'wb')] followed by writing [data] and closing: the parent
    must be a directory and [p] must not be one. *)
Definition write_file (p : string) (data : string) (fs : t) : result t :=
  if Py.endswith p "/" then Raise (Exn IsADirectoryError p) else
  match resolve p with
  | None => Raise (Exn FileNotFoundError p)
  | Some [] => Raise (Exn IsADirectoryError p)
  | Some k =>
      match lookup fs (removelast k) with
      | None => Raise (Exn FileNotFoundError p)
      | Some (File _) => Raise (Exn NotADirectoryError p)
      | Some Dir =>
          match fs !! k with
          | Some Dir => Raise (Exn IsADirectoryError p)
          | _ => Ok (<[k := File data]> fs)
          end
      end
  end.

(** [os.remove(p)]. *)
Definition remove (p : string) (fs : t) : result t :=
  match resolve p with
  | None => Raise (Exn FileNotFoundError p)
  | Some [] => Raise (Exn IsADirectoryError p)
  | Some k =>
      match fs !! k with
      | Some (File _) => Ok (delete k fs)
      | Some Dir => Raise (Exn IsADirectoryError p)
      | None => Raise (Exn FileNotFoundError p)
      end
  end.

(** [os.scandir(p)] as [os.walk] uses it: the names of the
    sub-directories and of the other entries of directory [p], in the
    order the map lists them. *)
Definition child_name (d : list string) (k : list string) : option string :=
  match List.last k "" , decide (k = d ++ [List.last k ""]) with
  | n, left _ => Some n
  | _, right _ => None
  end.

Definition scandir (fs : t) (p : string) : option (list string * list string) :=
  match resolve p with
  | None => None
  | Some d =>
      match lookup fs d with
      | Some Dir =>
          let entries := map_to_list fs in
          Some (omap (fun '(k, n) => match n with Dir => child_name d k | File _ => None end) entries,
                omap (fun '(k, n) => match n with File _ => child_name d k | Dir => None end) entries)
      | _ => None
      end
  end.

End FS.

(** ** The HTTP layer and the remote storage service *)

(** What [requests.get(url)] does: it raises, or it returns a response
    with a status code and a body. *)
Inductive get_outcome :=
  | GetRaises (e : exn)
  | GetResponse (status : Z) (content : string).

Record response := Response {
  resp_url : string;
  resp_status : Z;
  resp_content : string }.

(** What [file.write_to(f)] does for a remote file: it writes the whole
    body, or it raises after having written some prefix. *)
Inductive payload :=
  | Body (data : string)
  | Broken (e : exn) (partial : string).

(** A remote file: [name], [path], the behaviour of [write_to] and of
    [remove] (which may fail). *)
Record rfile := RFile {
  rf_name : string;
  rf_path : string;
  rf_payload : payload;
  rf_remove : option exn }.

(** A remote container (a storage or a folder) as the code sees it: its
    [name], what [.files] lists and what [.folders] lists.  The listings
    are taken as given: fetching them from the service does not fail
    here. *)
Inductive rfolder :=
  | RFolder (name : string) (files : list rfile) (folders : list rfolder).

Definition rfo_name (f : rfolder) : string :=
  match f with RFolder n _ _ => n end.
Definition rfo_files (f : rfolder) : list rfile :=
  match f with RFolder _ fs _ => fs end.
Definition rfo_folders (f : rfolder) : list rfolder :=
  match f with RFolder _ _ ds => ds end.

(** ** The world the code runs in *)

(** Observable actions, in the order they happen. *)
Inductive event :=
  | EGet (url : string)
  | EOpen (local_file : string)
  | EWriteTo (remote_name local_file : string)
  | ERemove (remote_path : string)
  | ECreateFile (remote_path : string) (data : string)
  | EPrint (msg : string).

Global Instance event_eq_dec : EqDecision event.
Proof. solve_decision. Defined.

Record world := World {
  (** the local filesystem *)
  w_fs : FS.t;
  (** the answer of the archive service to the [n]-th request of the run *)
  w_http : nat -> string -> get_outcome;
  (** connection set-up: [Some e] when [OSF(token).project(id)] or
      [.storage('osfstorage')] fails for this token and project *)
  w_osf_access : option string -> string -> option exn;
  (** the storage of each project *)
  w_osf : gmap string rfolder;
  (** [Some e] when [storage.create_file(path, f)] fails for this project
      and path *)
  w_osf_create : string -> string -> option exn;
  (** what has happened so far *)
  w_trace : list event }.

Definition set_fs (f : FS.t) (w : world) : world :=
  World f (w_http w) (w_osf_access w) (w_osf w) (w_osf_create w) (w_trace w).
Definition set_osf (o : gmap string rfolder) (w : world) : world :=
  World (w_fs w) (w_http w) (w_osf_access w) o (w_osf_create w) (w_trace w).
Definition log (e : event) (w : world) : world :=
  World (w_fs w) (w_http w) (w_osf_access w) (w_osf w) (w_osf_create w)
        (w_trace w ++ [e]).

(** The URLs requested so far, the local files opened for a download so
    far, and what was printed so far. *)
Definition requests (w : world) : list string :=
  omap (fun e => match e with EGet u => Some u | _ => None end) (w_trace w).
Definition opened (w : world) : list string :=
  omap (fun e => match e with EOpen l => Some l | _ => None end) (w_trace w).
Definition printed (w : world) : list string :=
  omap (fun e => match e with EPrint m => Some m | _ => None end) (w_trace w).

(** ** State and exception monad *)

Definition M (A : Type) : Type := world -> result A * world.

Definition ret {A} (a : A) : M A := fun w => (Ok a, w).
Definition raise {A} (e : exn) : M A := fun w => (Raise e, w).
Definition out_of_fuel {A} : M A := fun w => (OutOfFuel, w).

Definition bind {A B} (c : M A) (k : A -> M B) : M B :=
  fun w =>
    match c w with
    | (Ok a, w') => k a w'
    | (Raise e, w') => (Raise e, w')
    | (OutOfFuel, w') => (OutOfFuel, w')
    end.

(** [try: c except Exception as e: h e]. *)
Definition try_except {A} (c : M A) (h : exn -> M A) : M A :=
  fun w =>
    match c w with
    | (Raise e, w') => h e w'
    | r => r
    end.

Notation "'do' x <- c ; k" := (bind c (fun x => k))
  (at level 10, x pattern, c at level 100, k at level 200,
   format "'[v' 'do'  x  <-  c ; '/' k ']'").

(** [for x in l: body x], and the same loop collecting what the body
    yields. *)
Definition for_each {A} (l : list A) (body : A -> M unit) : M unit :=
  (fix loop (l : list A) : M unit :=
     match l with
     | [] => ret tt
     | x :: r => do _ <- body x; loop r
     end) l.

Definition for_collect {A B} (l : list A) (body : A -> M B) : M (list B) :=
  (fix loop (l : list A) : M (list B) :=
     match l with
     | [] => ret []
     | x :: r => do y <- body x; do ys <- loop r; ret (y :: ys)
     end) l.

Definition when (b : bool) (c : M unit) : M unit := if b then c else ret tt.

(** *** The primitives of [os], [requests] and [print] *)

Definition lift_fs (op : FS.t -> result FS.t) : M unit :=
  fun w =>
    match op (w_fs w) with
    | Ok f => (Ok tt, set_fs f w)
    | Raise e => (Raise e, w)
    | OutOfFuel => (OutOfFuel, w)
    end.

Definition os_path_exists (p : string) : M bool :=
  fun w => (Ok (FS.exists_ (w_fs w) p), w).
Definition os_path_isfile (p : string) : M bool :=
  fun w => (Ok (FS.isfile (w_fs w) p), w).
Definition os_makedirs (p : string) (exist_ok : bool) : M unit :=
  lift_fs (FS.makedirs exist_ok p).
Definition write_file (p : string) (data : string) : M unit :=
  lift_fs (FS.write_file p data).
Definition os_remove (p : string) : M unit :=
  lift_fs (FS.remove p).
Definition print (msg : string) : M unit :=
  fun w => (Ok tt, log (EPrint msg) w).

Definition requests_get (url : string) : M response :=
  fun w =>
    let w' := log (EGet url) w in
    match w_http w (List.length (requests w)) url with
    | GetRaises e => (Raise e, w')
    | GetResponse st body => (Ok (Response url st body), w')
    end.

(** [response.raise_for_status()]: statuses 400 to 599 raise. *)
Definition raise_for_status (r : response) : M unit :=
  if ((400 <=? resp_status r) && (resp_status r <? 600))%Z
  then raise (Exn ReqHTTPError ("HTTP error for url: " +:+ resp_url r))
  else ret tt.

(** ** The registries *)

Definition nl : string := String (ascii_of_nat 10) EmptyString.

(** A Python [dict] with string keys, in insertion order. *)
Definition dict_get {V} (d : list (string * V)) (k : string) : option V :=
  snd <$> List.find (fun kv => String.eqb (fst kv) k) d.
Definition dict_keys {V} (d : list (string * V)) : list string := map fst d.
Definition dict_mem {V} (d : list (string * V)) (k : string) : bool :=
  bool_decide (k ∈ dict_keys d).

(** Zenodo DOI of the repositories. *)
Definition DOI : list (string * string) :=
  [ ("MRR", "15285017"); ("TRISTAN", "15301607"); ("RAT", "10675642") ].

Definition DOI_MRR : string := "15285017".
Definition DOI_TRISTAN : string := "15301607".
Definition DOI_RAT : string := "10675642".

(** miblab datasets: [DATASETS[name]['doi']]. *)
Definition DATASETS : list (string * string) :=
  [ ("KRUK.dmr.zip", DOI_MRR);
    ("tristan_humans_healthy_controls.dmr.zip", DOI_TRISTAN);
    ("tristan_humans_healthy_ciclosporin.dmr.zip", DOI_TRISTAN);
    ("tristan_humans_healthy_metformin.dmr.zip", DOI_TRISTAN);
    ("tristan_humans_healthy_rifampicin.dmr.zip", DOI_TRISTAN);
    ("tristan_humans_patients_rifampicin.dmr.zip", DOI_TRISTAN);
    ("tristan_rats_healthy_multiple_dosing.dmr.zip", DOI_TRISTAN);
    ("tristan_rats_healthy_reproducibility.dmr.zip", DOI_TRISTAN);
    ("tristan_rats_healthy_six_drugs.dmr.zip", DOI_TRISTAN) ].

Section Fetchers.

(** The module-level flag set when an optional dependency is missing. *)
Variable import_error : bool.

(** [RAT_PROJECTS] of [rat.py]: group name to the filenames of the
    group.  The table itself is not part of the sources at hand; it is a
    [dict], so its keys are distinct. *)
Variable RAT_PROJECTS : list (string * list string).

(** *** [zenodo_fetch] *)

Definition zenodo_target (dataset folder : string) (filename : option string) : string :=
  match filename with
  | None => Py.path_join folder dataset
  | Some fn => Py.path_join folder fn
  end.

Definition zenodo_unknown_msg (dataset : string) : string :=
  dataset +:+ " does not exist in one of the miblab " +:+
  "repositories on Zenodo. If you want to fetch " +:+
  "a dataset in an external Zenodo repository, please " +:+
  "provide the doi of the repository.".

Definition zenodo_offline_msg (dataset : string) (err : exn) : string :=
  nl +:+ nl +:+
  "A connection error occurred trying to download " +:+ dataset +:+ " " +:+
  "from Zenodo. This usually happens if you are offline." +:+
  "The detailed error message is here: " +:+ exn_msg err.

Definition zenodo_url (doi dataset : string) : string :=
  "https://zenodo.org/records/" +:+ doi +:+ "/files/" +:+ dataset.

Definition zenodo_fetch (dataset folder : string) (doi filename : option string)
  : M string :=
  if import_error then
    raise (Exn NotImplementedError
             ("Please install miblab as pip install miblab[data]" +:+
              "to use this function."))
  else
    (* Create filename *)
    let file := zenodo_target dataset folder filename in
    (* If it is already downloaded, use that. *)
    do present <- os_path_exists file;
    if present then ret file else
    (* Get DOI *)
    do doi <- match doi with
              | Some d => ret d
              | None =>
                  match dict_get DATASETS dataset with
                  | Some d => ret d
                  | None => raise (Exn ValueError (zenodo_unknown_msg dataset))
                  end
              end;
    (* Dataset download link *)
    let file_url := zenodo_url doi dataset in
    (* Make the request and check for connection error *)
    do file_response <-
      try_except (requests_get file_url)
        (fun err =>
           match exn_cls err with
           | ReqConnectionError =>
               raise (Exn ReqConnectionError (zenodo_offline_msg dataset err))
           | _ => raise err
           end);
    (* Check for other errors *)
    do _ <- raise_for_status file_response;
    (* Create the folder if needed *)
    do folder_present <- os_path_exists folder;
    do _ <- (if negb folder_present then os_makedirs folder false else ret tt);
    do _ <- write_file file (resp_content file_response);
    ret file.

(** *** [rat_fetch] *)

Definition rat_unknown_msg (dataset : string) : string :=
  "'" +:+ dataset +:+ "' is not a valid project group in RAT_PROJECTS. " +:+
  "Available groups: " +:+ Py.join_with ", " (dict_keys RAT_PROJECTS).

Definition rat_failed_msg (fname : string) (e : exn) : string :=
  "Failed to fetch " +:+ fname +:+ " from Zenodo: " +:+ exn_msg e.

(** The group argument after defaulting, lines 322-324. *)
Definition rat_default (dataset : option string) : string :=
  match dataset with
  | Some d => if Py.truthy dataset then d else "bosentan_highdose"
  | None => "bosentan_highdose"
  end.

(** Which groups to download, lines 326-336. *)
Definition groups_to_download (dataset : string) : M (list string) :=
  if String.eqb (Py.lower dataset) "all" then ret (dict_keys RAT_PROJECTS)
  else if dict_mem RAT_PROJECTS dataset then ret [dataset]
  else raise (Exn ValueError (rat_unknown_msg dataset)).

(** [doi or DOI['RAT']]. *)
Definition rat_doi (doi : option string) : string :=
  match doi with
  | Some d => if Py.truthy doi then d else DOI_RAT
  | None => DOI_RAT
  end.

(** The body of the inner loop, lines 351-370; it yields the path that
    the loop appends to [paths]. *)
Definition rat_fetch_file (doi folder fname : string) : M string :=
  let url := "https://zenodo.org/records/" +:+ doi +:+ "/files/" +:+ fname in
  let out_path := Py.path_join folder fname in
  (* Skip file if already downloaded *)
  do present <- os_path_exists out_path;
  if present then ret out_path else
  (* Attempt to download the file *)
  do response <-
    try_except
      (do response <- requests_get url;
       do _ <- raise_for_status response;
       ret response)
      (fun e => raise (Exn ConnectionError (rat_failed_msg fname e)));
  (* Save the file to disk *)
  do _ <- write_file out_path (resp_content response);
  ret out_path.

Definition rat_fetch_group (doi folder group : string) : M (list string) :=
  match dict_get RAT_PROJECTS group with
  | None => raise (Exn KeyError group)
  | Some file_list => for_collect file_list (rat_fetch_file doi folder)
  end.

Definition rat_fetch (dataset : option string) (folder : string) (doi : option string)
  : M (list string) :=
  if import_error then
    raise (Exn NotImplementedError
             "Please install miblab as pip install miblab[data] to use this function.")
  else
    (* Default dataset group to 'bosentan_highdose' if not specified *)
    let dataset := rat_default dataset in
    (* Determine which groups to download based on the dataset argument *)
    do groups <- groups_to_download dataset;
    (* Use the provided DOI or fall back to the default RAT DOI *)
    let doi := rat_doi doi in
    (* Ensure the destination folder exists *)
    do _ <- os_makedirs folder true;
    (* Loop through each selected group *)
    do per_group <- for_collect groups (rat_fetch_group doi folder);
    ret (List.concat per_group).

(** *** [osf_fetch] *)

(** [OSF(token=token).project(project).storage('osfstorage')]. *)
Definition osf_connect (token : option string) (project : string) : M rfolder :=
  fun w =>
    match w_osf_access w token project with
    | Some e => (Raise e, w)
    | None =>
        match w_osf w !! project with
        | Some storage => (Ok storage, w)
        | None => (Raise (Exn RuntimeError ("No storage for project " +:+ project)), w)
        end
    end.

Definition osf_missing_msg (part dataset : string) : string :=
  "Folder '" +:+ part +:+ "' not found when navigating path '" +:+ dataset +:+ "'.".

(** The inner [for f in current.folders: ... break]. *)
Definition find_folder (part : string) (folders : list rfolder) : option rfolder :=
  List.find (fun f => String.eqb (rfo_name f) part) folders.

(** The loop over [parts], lines 158-164. *)
Fixpoint navigate (dataset : string) (current : rfolder) (parts : list string)
  : M rfolder :=
  match parts with
  | [] => ret current
  | part :: rest =>
      match find_folder part (rfo_folders current) with
      | Some f => navigate dataset f rest
      | None => raise (Exn FileNotFoundError (osf_missing_msg part dataset))
      end
  end.

(** [file.write_to(f)] on the file just opened at [local_file]. *)
Definition write_to (file : rfile) (local_file : string) : M unit :=
  do _ <- (fun w => (Ok tt, log (EWriteTo (rf_name file) local_file) w));
  match rf_payload file with
  | Body data => write_file local_file data
  | Broken e partial => do _ <- write_file local_file partial; raise e
  end.

(** [open(local_file, 'wb')]: the file is created empty, or emptied. *)
Definition open_wb (local_file : string) : M unit :=
  do _ <- (fun w => (Ok tt, log (EOpen local_file) w));
  write_file local_file "".

(** The body of the loop over the files of a folder, lines 172-178. *)
Definition download_file (verbose : bool) (local_folder : string) (file : rfile)
  : M unit :=
  let local_file := Py.path_join local_folder (rf_name file) in
  try_except
    (do _ <- open_wb local_file;
     write_to file local_file)
    (fun e =>
       when verbose
         (print ("Warning downloading " +:+ rf_name file +:+ ": " +:+ exn_msg e))).

(** The nested function [download], lines 167-181. *)
Fixpoint download (verbose : bool) (current_folder : rfolder) (local_folder : string)
  {struct current_folder} : M unit :=
  match current_folder with
  | RFolder _ files folders =>
      do _ <- os_makedirs local_folder true;
      do _ <- for_each files (download_file verbose local_folder);
      for_each folders
        (fun subfolder =>
           download verbose subfolder
             (Py.path_join local_folder (rfo_name subfolder)))
  end.

(** **** Archives *)

(** A member of a zip archive: its name, its bytes and whether its
    checksum matches. *)
Record zmember := ZMember {
  zm_name : string;
  zm_data : string;
  zm_crc_ok : bool }.

(** The decoder of [zipfile]: the members of the archive that a file's
    bytes encode, in archive order, or [None] when the bytes are not an
    archive. *)
Variable unzip : string -> option (list zmember).

(** [zipfile.ZipFile(zip_path, 'r')]. *)
Definition ZipFile (zip_path : string) : M (list zmember) :=
  fun w =>
    match FS.resolve zip_path with
    | None => (Raise (Exn FileNotFoundError zip_path), w)
    | Some k =>
        match FS.lookup (w_fs w) k with
        | None => (Raise (Exn FileNotFoundError zip_path), w)
        | Some FS.Dir => (Raise (Exn IsADirectoryError zip_path), w)
        | Some (FS.File data) =>
            match unzip data with
            | Some members => (Ok members, w)
            | None => (Raise (Exn BadZipFile "File is not a zip file"), w)
            end
        end
    end.

(** [zip_ref.testzip()]: the name of the first bad member. *)
Definition testzip (zip_ref : list zmember) : option string :=
  zm_name <$> List.find (fun m => negb (zm_crc_ok m)) zip_ref.

(** The path components [zipfile] keeps of a member name. *)
Definition arc_components (name : string) : list string :=
  List.filter
    (fun x => negb (String.eqb x "" || String.eqb x "." || String.eqb x ".."))
    (Py.split "/" name).

Definition member_target (path : string) (m : zmember) : string :=
  Py.path_join path (Py.join_with "/" (arc_components (zm_name m))).

(** Extraction of one member below [path]: the directories above the
    target are created, a directory member becomes a directory, a file
    member is written and its checksum verified at the end. *)
Definition extract_member (path : string) (m : zmember) : M unit :=
  let target := member_target path m in
  let upper := Py.path_join path (Py.join_with "/" (removelast (arc_components (zm_name m)))) in
  do upper_present <- os_path_exists upper;
  do _ <- (if negb upper_present then os_makedirs upper false else ret tt);
  if Py.endswith (zm_name m) "/" then
    do present <- (fun w => (Ok (FS.isdir (w_fs w) target), w));
    if present then ret tt else os_makedirs target false
  else
    do _ <- write_file target (zm_data m);
    if zm_crc_ok m then ret tt
    else raise (Exn BadZipFile ("Bad CRC-32 for file " +:+ zm_name m)).

(** [zip_ref.extractall(path)]. *)
Definition extractall (zip_ref : list zmember) (path : string) : M unit :=
  for_each zip_ref (extract_member path).

(** The [with zipfile.ZipFile(zip_path, 'r') as zip_ref] block, lines
    194-198: open the archive, test it, extract it. *)
Definition unzip_into (zip_path extract_to : string) : M unit :=
  do zip_ref <- ZipFile zip_path;
  do _ <- match testzip zip_ref with
          | Some bad_file =>
              if Py.truthy (Some bad_file) then
                raise (Exn BadZipFile
                         ("Corrupt file " +:+ bad_file +:+ " inside " +:+ zip_path))
              else ret tt
          | None => ret tt
          end;
  extractall zip_ref extract_to.

(** The body of the loop over [filenames], lines 189-204. *)
Definition extract_archive (verbose : bool) (dirpath filename : string) : M unit :=
  if Py.endswith (Py.lower filename) ".zip" then
    let zip_path := Py.path_join dirpath filename in
    let extract_to := Py.path_join dirpath (Py.drop_last 4 filename) in
    do _ <- os_makedirs extract_to true;
    try_except
      (do _ <- unzip_into zip_path extract_to;
       do _ <- os_remove zip_path;
       when verbose (print ("Unzipped and deleted " +:+ zip_path)))
      (fun e =>
         when verbose (print ("Warning unzipping " +:+ zip_path +:+ ": " +:+ exn_msg e)))
  else ret tt.

(** [for dirpath, _, filenames in os.walk(folder)]: top-down; a
    directory is listed when the walk reaches it, so it sees what the
    loop body has created there in the meantime, and a directory that did
    not exist when its parent was listed is not visited.  [fuel] bounds
    the depth of the descent. *)
Fixpoint walk_extract (fuel : nat) (verbose : bool) (dirpath : string) : M unit :=
  match fuel with
  | O => out_of_fuel
  | S fuel' =>
      do listing <- (fun w => (Ok (FS.scandir (w_fs w) dirpath), w));
      match listing with
      | None => ret tt
      | Some (dirnames, filenames) =>
          do _ <- for_each filenames (extract_archive verbose dirpath);
          for_each dirnames
            (fun d => walk_extract fuel' verbose (Py.path_join dirpath d))
      end
  end.

Definition osf_fetch (fuel : nat) (dataset folder project : string)
           (token : option string) (extract verbose : bool) : M string :=
  if import_error then
    raise (Exn NotImplementedError
             "Please install miblab as pip install miblab[data] to use this function.")
  else
    (* Prepare local folder *)
    do _ <- os_makedirs folder true;
    (* Connect to OSF and locate project storage *)
    do storage <- osf_connect token project;
    (* Navigate the dataset folder if provided *)
    do current <-
      (if Py.truthy (Some dataset)
       then navigate dataset storage (Py.split "/" (Py.strip "/" dataset))
       else ret storage);
    (* Recursive download of all files and folders *)
    do _ <- download verbose current folder;
    (* Extract all downloaded zip files if needed *)
    do _ <- (if extract then walk_extract fuel verbose folder else ret tt);
    ret folder.

(** *** [osf_upload] *)

(** [existing.remove()]. *)
Definition remote_remove (project : string) (existing : rfile) : M unit :=
  fun w =>
    let w' := log (ERemove (rf_path existing)) w in
    match rf_remove existing with
    | Some e => (Raise e, w')
    | None =>
        (Ok tt,
         set_osf
           (alter
              (fun st =>
                 RFolder (rfo_name st)
                   (List.filter
                      (fun f => negb (String.eqb (rf_path f) (rf_path existing)))
                      (rfo_files st))
                   (rfo_folders st))
              project (w_osf w'))
           w')
    end.

(** [storage.create_file(path, f)] with the bytes of [f]. *)
Definition create_file (project path data : string) : M unit :=
  fun w =>
    let w' := log (ECreateFile path data) w in
    match w_osf_create w project path with
    | Some e => (Raise e, w')
    | None =>
        (Ok tt,
         set_osf
           (alter
              (fun st =>
                 RFolder (rfo_name st)
                   (rfo_files st ++
                      [RFile (Py.basename path) ("/" +:+ path) (Body data) None])
                   (rfo_folders st))
              project (w_osf w'))
           w')
    end.

(** [open(folder, 'rb')] and reading it. *)
Definition read_file (p : string) : M string :=
  fun w =>
    match FS.resolve p with
    | None => (Raise (Exn FileNotFoundError p), w)
    | Some k =>
        match FS.lookup (w_fs w) k with
        | Some (FS.File data) => (Ok data, w)
        | Some FS.Dir => (Raise (Exn IsADirectoryError p), w)
        | None => (Raise (Exn FileNotFoundError p), w)
        end
    end.

(** The size in the progress message is left out of the text. *)
Definition osf_upload (folder dataset project : string) (token : option string)
           (verbose overwrite : bool) : M unit :=
  (* Check that optional dependencies are installed *)
  if import_error then
    raise (Exn NotImplementedError "Please install miblab[data] to use this function.")
  else
    (* Check that the specified local file exists *)
    do is_file <- os_path_isfile folder;
    if negb is_file then
      raise (Exn FileNotFoundError ("Local file not found: " +:+ folder))
    else
    (* Authenticate and connect to the OSF project *)
    do storage <- osf_connect token project;
    (* Clean and prepare the remote dataset path *)
    let full_path := Py.strip "/" dataset in
    (* Upload the file *)
    let upload : M unit :=
      do f <- read_file folder;
      do _ <- when verbose
                (print ("Uploading '" +:+ Py.basename folder +:+ "' to '" +:+
                        full_path +:+ "'..."));
      try_except
        (do _ <- create_file project full_path f;
         when verbose (print "Upload complete."))
        (fun e => raise (Exn RuntimeError ("Failed to upload file: " +:+ exn_msg e)))
    in
    (* Check if the file already exists on OSF *)
    let existing :=
      List.find (fun f => String.eqb (rf_path f) ("/" +:+ full_path))
                (rfo_files storage) in
    match existing with
    | Some existing =>
        if overwrite then
          do _ <- when verbose
                    (print ("File '" +:+ full_path +:+
                            "' already exists. Deleting before re-upload..."));
          do _ <- try_except (remote_remove project existing)
                    (fun e =>
                       raise (Exn RuntimeError
                                ("Failed to delete existing file before overwrite: "
                                 +:+ exn_msg e)));
          upload
        else
          do _ <- when verbose
                    (print ("File '" +:+ full_path +:+
                            "' already exists. Skipping (overwrite=False)."));
          ret tt
    | None => upload
    end.

End Fetchers.

(** The GET and its status check, as both fetchers perform them. *)
Definition checked_get (url : string) : M response :=
  do response <- requests_get url;
  do _ <- raise_for_status response;
  ret response.

(** The shape of an outcome: a value satisfying [P], or an exception; the
    code has come to an end either way. *)
Definition returns_or_raises {A} (P : A -> Prop) (r : result A) : Prop :=
  match r with
  | Ok a => P a
  | Raise _ => True
  | OutOfFuel => False
  end.

(** Two loop bodies that agree step by step, up to the exception raised,
    make loops that agree in the same way. *)
Definition agree_up_to_exn {A} (r1 r2 : result A * world) (I : world -> Prop) : Prop :=
  snd r2 = snd r1 /\
  match fst r1 with
  | Ok a => fst r2 = Ok a /\ I (snd r1)
  | Raise _ => exists e, fst r2 = Raise e
  | OutOfFuel => False
  end.

(** The files of a group that the registry knows. *)
Definition group_files (registry : list (string * list string)) (g : string)
  : list string :=
  default [] (dict_get registry g).

(** "Some segment of the path is not found among the children of the
    folder reached so far": [missing_segment cur parts part] holds when
    descending from [cur] along [parts], one folder level per segment,
    stops at [part] because no child folder of the current folder has
    that name. *)
Inductive missing_segment : rfolder -> list string -> string -> Prop :=
  | missing_here cur part rest :
      (forall f, f ∈ rfo_folders cur -> rfo_name f <> part) ->
      missing_segment cur (part :: rest) part
  | missing_below cur part rest f m :
      find_folder part (rfo_folders cur) = Some f ->
      missing_segment f rest m ->
      missing_segment cur (part :: rest) m.

(** The local file of every file of a remote tree mirrored at [local], in
    the order of the traversal: the files of the folder, then its
    sub-folders one after the other. *)
Fixpoint local_files (cur : rfolder) (local : string) : list string :=
  match cur with
  | RFolder _ files folders =>
      (map (fun f => Py.path_join local (rf_name f)) files ++
       flat_map (fun sub => local_files sub (Py.path_join local (rfo_name sub))) folders)%list
  end.

(** The local directory of every folder of the tree. *)
Fixpoint local_dirs (cur : rfolder) (local : string) : list string :=
  match cur with
  | RFolder _ _ folders =>
      local ::
      flat_map (fun sub => local_dirs sub (Py.path_join local (rfo_name sub))) folders
  end.

(** Effects that stay within a relation on worlds, whatever the outcome. *)
Definition respects (R : world -> world -> Prop) {A} (c : M A) : Prop :=
  forall w r w', c w = (r, w') -> R w w'.

(** Exceptions that come with a guarantee [P] on the exception and the
    world it is raised in. *)
Definition raises_only (P : exn -> world -> Prop) {A} (c : M A) : Prop :=
  forall w e w', c w = (Raise e, w') -> P e w'.

(** "[e] is the failure of creating a directory on the disk of [w]". *)
Definition makedirs_failure (e : exn) (w : world) : Prop :=
  exists d, FS.makedirs true d (w_fs w) = Raise e.

(** No local file is opened for a download between [w] and [w']. *)
Definition same_opened (w w' : world) : Prop := opened w' = opened w.

(** Every regular file of [w] is still a regular file in [w'], and every
    directory still a directory. *)
Definition kinds_kept (w w' : world) : Prop :=
  forall k,
    (forall d, w_fs w !! k = Some (FS.File d) -> exists d', w_fs w' !! k = Some (FS.File d')) /\
    (w_fs w !! k = Some FS.Dir -> w_fs w' !! k = Some FS.Dir).

(** The repository id a call of [zenodo_fetch] ends up with, lines 77-87:
    the one given, else the one registered for the dataset, else none. *)
Definition zenodo_doi (doi : option string) (dataset : string) : option string :=
  match doi with
  | Some d => Some d
  | None => dict_get DATASETS dataset
  end.

(** Every file of the tree has a proper name (not empty, not [.] or [..],
    no separator), as the entries of a remote folder have. *)
Fixpoint file_names_ok (cur : rfolder) : Prop :=
  match cur with
  | RFolder _ files folders =>
      Forall (fun f => Py.is_name (rf_name f) = true) files /\
      (fix all (l : list rfolder) : Prop :=
         match l with
         | [] => True
         | sub :: r => file_names_ok sub /\ all r
         end) folders
  end.

(** The calls made on the remote storage, in order. *)
Definition remote_calls (w : world) : list event :=
  List.filter
    (fun e => match e with ERemove _ | ECreateFile _ _ => true | _ => false end)
    (w_trace w).

(** The remote file, if any, that [osf_upload] finds at a path. *)
Definition remote_at (storage : rfolder) (full_path : string) : option rfile :=
  List.find (fun f => String.eqb (rf_path f) ("/" +:+ full_path)) (rfo_files storage).

(** ** [report.py]: the file helpers and the caption of a table *)

Definition os_path_isdir (p : string) : M bool :=
  fun w => (Ok (FS.isdir (w_fs w) p), w).

(** [str(e)] of an [OSError] that names two paths. *)
Definition rename_msg (src dst : string) : string := src +:+ " -> " +:+ dst.

(** Where the entry [k] is once the directory [ks] has become [kd]. *)
Definition moved_key (ks kd k : list string) : list string :=
  if bool_decide (ks `prefix_of` k) then (kd ++ drop (List.length ks) k)%list else k.

Definition move_tree (ks kd : list string) (fs : FS.t) : FS.t :=
  list_to_map (prod_map (moved_key ks kd) id <$> map_to_list fs).

Definition has_children (fs : FS.t) (kd : list string) : bool :=
  existsb (fun k => bool_decide (kd `prefix_of` k) && negb (bool_decide (k = kd)))
          ((map_to_list fs).*1).

(** [os.rename(src, dst)] of a POSIX system.  Both parents are looked up
    first, the source's before the destination's; then the source itself.
    A regular file replaces a regular file; it does not replace a
    directory, and a path with a trailing separator does not name it.  A
    directory moves with everything below it, onto nothing or onto an
    empty directory, and not into itself.  [OtherError] stands for the
    plain [OSError] of [EBUSY], [EINVAL] and [ENOTEMPTY]. *)
Definition fs_rename (src dst : string) (fs : FS.t) : result FS.t :=
  let err cls := Raise (Exn cls (rename_msg src dst)) in
  match FS.resolve src, FS.resolve dst with
  | Some ks, Some kd =>
      match FS.lookup fs (removelast ks), FS.lookup fs (removelast kd) with
      | None, _ => err FileNotFoundError
      | Some (FS.File _), _ => err NotADirectoryError
      | _, None => err FileNotFoundError
      | _, Some (FS.File _) => err NotADirectoryError
      | Some FS.Dir, Some FS.Dir =>
          match ks, fs !! ks with
          | [], _ => err OtherError
          | _, None => err FileNotFoundError
          | _, Some (FS.File data) =>
              if Py.endswith src "/" || Py.endswith dst "/" then err NotADirectoryError
              else
                match FS.lookup fs kd with
                | Some FS.Dir => err IsADirectoryError
                | _ => Ok (<[kd := FS.File data]> (delete ks fs))
                end
          | _, Some FS.Dir =>
              if bool_decide (ks = kd) then Ok fs
              else if bool_decide (ks `prefix_of` kd) then err OtherError
              else
                match FS.lookup fs kd with
                | Some (FS.File _) => err NotADirectoryError
                | Some FS.Dir =>
                    if has_children fs kd then err OtherError
                    else Ok (move_tree ks kd (delete kd fs))
                | None => Ok (move_tree ks kd fs)
                end
          end
      end
  | _, _ => err FileNotFoundError
  end.

Definition os_rename (src dst : string) : M unit := lift_fs (fs_rename src dst).

(** [os.path.samefile(a, b)] with its [OSError] taken as [False], as
    [shutil] does: both exist and are the same entry. *)
Definition samefile (fs : FS.t) (a b : string) : bool :=
  FS.exists_ fs a && FS.exists_ fs b && bool_decide (FS.resolve a = FS.resolve b).

(** [shutil.copy(src, dst)]: into [dst] when that is a directory, else
    onto it; the source is opened before the destination.  Permission
    bits are not part of this filesystem. *)
Definition shutil_copy (src dst : string) : M unit :=
  do into <- os_path_isdir dst;
  let dst := if into then Py.path_join dst (Py.basename src) else dst in
  do same <- (fun w => (Ok (samefile (w_fs w) src dst), w));
  if same then
    raise (Exn OtherError ("'" +:+ src +:+ "' and '" +:+ dst +:+ "' are the same file"))
  else
    do data <- read_file src;
    write_file dst data.

Definition force_move (src dst : string) : M unit :=
  do present <- os_path_exists dst;
  do _ <- when present (os_remove dst);
  os_rename src dst.

Definition force_copy (src dst : string) : M unit :=
  do present <- os_path_exists dst;
  do _ <- when present (os_remove dst);
  shutil_copy src dst.

(** [s.replace(old, new)] for an [old] of one character. *)
Fixpoint str_replace (old : ascii) (new : string) (s : string) : string :=
  match s with
  | EmptyString => EmptyString
  | String a r =>
      if Ascii.eqb a old then new +:+ str_replace old new r
      else String a (str_replace old new r)
  end.

Definition backslash : ascii := "092"%char.

(** The characters [table] escapes in a caption, in the order of its
    loop. *)
Definition caption_chars : list ascii :=
  ["_"%char; "#"%char; "$"%char; "%"%char; "&"%char; "{"%char; "}"%char; "^"%char].

(** The loop of [table] over these characters: one [replace] after the
    other. *)
Definition escape_caption (caption : string) : string :=
  fold_left (fun cap char => str_replace char (String backslash (String char "")) cap)
            caption_chars caption.

(** What [table] appends for a caption that is not [None]. *)
Definition table_caption (caption : string) : string :=
  String backslash "caption{" +:+ escape_caption caption +:+
  "} " +:+ String backslash (String backslash "").

(** Escaping in one pass: a backslash before each of the characters, the
    other characters as they are. *)
Definition escape_char (a : ascii) : string :=
  if bool_decide (a ∈ caption_chars) then String backslash (String a "") else String a "".

Fixpoint concat_map (f : ascii -> string) (s : string) : string :=
  match s with
  | EmptyString => EmptyString
  | String a r => f a +:+ concat_map f r
  end.

(** ** What the properties of the fetchers speak of *)

(** The Grouped Fetcher as the design document words it: after the
    selection of the groups and the creation of the destination folder,
    the Single-File Fetcher is invoked for each filename of each selected
    group, in order, with the repository id in use, and the returned paths
    are accumulated. *)
Definition rat_fetch_by_single_file (registry : list (string * list string))
           (dataset : option string) (folder : string) (doi : option string)
  : M (list string) :=
  do groups <- groups_to_download registry (rat_default dataset);
  do _ <- os_makedirs folder true;
  do per_group <-
    for_collect groups
      (fun group =>
         for_collect (group_files registry group)
           (fun fname => zenodo_fetch false fname folder (Some (rat_doi doi)) None));
  ret (List.concat per_group).


(** The filenames of the selected groups, group after group. *)
Definition selected_files (registry : list (string * list string))
           (dataset : option string) : list string :=
  let name := rat_default dataset in
  List.concat
    (map (group_files registry)
       (if String.eqb (Py.lower name) "all" then dict_keys registry
        else if dict_mem registry name then [name] else [])).


(** How the outcome of the Grouped Fetcher relates to an exception [e']
    of the Single-File Fetcher: it is the same exception, or [e'] comes
    from the failed request [e] for a file of the selected groups, the
    last thing the call did, and the Grouped Fetcher raises the builtin
    [ConnectionError] that names the file and carries the text of [e]. *)
Definition raised_as_connection_error {A} (doi : string) (files : list string)
           (e' : exn) (grouped : result A * world) : Prop :=
  fst grouped = Raise e' \/
  exists fname e w0,
    fname ∈ files /\
    checked_get (zenodo_url doi fname) w0 = (Raise e, snd grouped) /\
    exn_cls e' = exn_cls e /\
    fst grouped = Raise (Exn ConnectionError (rat_failed_msg fname e)).


(** A path of proper names. *)
Definition proper_key (k : list string) : Prop :=
  Forall (fun s => Py.is_name s = true) k.


(** Every path on the disk is made of proper names, as the entries of a
    directory are. *)
Definition proper_disk (fs : FS.t) : Prop :=
  map_Forall (fun k (_ : FS.node) => proper_key k) fs.


(** How far below its own directory the bytes of a file can put
    entries when they are extracted, archives within archives included;
    [n] bounds the nesting. *)
Fixpoint reach (unzip : string -> option (list zmember)) (n : nat) (data : string)
  : nat :=
  match n with
  | O => 0
  | S n' =>
      match unzip data with
      | None => 0
      | Some members =>
          max_list_with
            (fun m => List.length (arc_components (zm_name m)) + reach unzip n' (zm_data m))
            members
      end
  end.


Definition node_reach (unzip : string -> option (list zmember)) (rank : string -> nat)
           (n : FS.node) : nat :=
  match n with
  | FS.File data => reach unzip (S (rank data)) data
  | FS.Dir => 0
  end.


(** Every entry is made of proper names and, with what its bytes can
    reach, stays within depth [B]. *)
Definition within (unzip : string -> option (list zmember)) (rank : string -> nat)
           (B : nat) (fs : FS.t) : Prop :=
  forall k n, fs !! k = Some n ->
    proper_key k /\ List.length k + node_reach unzip rank n <= B.


(** A piece of code that ends, and keeps a property of the disk, when it
    starts on a disk with that property. *)
Definition safe (J : FS.t -> Prop) {A} (c : M A) : Prop :=
  forall w, J (w_fs w) -> fst (c w) <> OutOfFuel /\ J (w_fs (snd (c w))).


Definition proper_kept (w w' : world) : Prop :=
  proper_disk (w_fs w) -> proper_disk (w_fs w').


(** The failure to create the local directory of a folder of the tree,
    with the local files opened until then: those of the folders before
    it, in traversal order. *)
Definition tree_directory_failure (cur : rfolder) (local : string)
           (w : world) (e : exn) (w' : world) : Prop :=
  exists d attempted rest,
    d ∈ local_dirs cur local /\
    FS.makedirs true d (w_fs w') = Raise e /\
    local_files cur local = (attempted ++ rest)%list /\
    opened w' = (opened w ++ attempted)%list.


(** The name of an archive, as line 190 tests it. *)
Definition zip_name (x : string) : bool := Py.endswith (Py.lower x) ".zip".


(** Two runs of a piece of code on disks that agree on the entries [S]
    it can read: they end in the same way; where the disks agreed before
    they agree after; only entries in [F] change; and the property [G] of
    the disk is kept. *)
Definition confined (S F : list string -> Prop) (G : FS.t -> Prop) {A} (c : M A) : Prop :=
  forall w1 w2,
    G (w_fs w1) -> G (w_fs w2) ->
    (forall k, S k -> w_fs w1 !! k = w_fs w2 !! k) ->
    fst (c w1) = fst (c w2) /\
    fst (c w1) <> OutOfFuel /\
    (forall k, w_fs w1 !! k = w_fs w2 !! k ->
               w_fs (snd (c w1)) !! k = w_fs (snd (c w2)) !! k) /\
    (forall k, ~ F k -> w_fs (snd (c w1)) !! k = w_fs w1 !! k) /\
    G (w_fs (snd (c w1))).


(** What the extraction of the archive [x] of the directory at [P] into
    the directory [s] reads: the directories above, the archive, and what
    is at or below the extraction directory; what it writes: the archive
    and what is at or below the extraction directory; and what it relies
    on: that the directories down to [P] exist. *)
Definition archive_reads (P : list string) (x s : string) (k : list string) : Prop :=
  k `prefix_of` P \/ k = (P ++ [x])%list \/ (P ++ [s])%list `prefix_of` k.

Definition archive_writes (P : list string) (x s : string) (k : list string) : Prop :=
  k = (P ++ [x])%list \/ (P ++ [s])%list `prefix_of` k.

Definition above_are_dirs (P : list string) (fs : FS.t) : Prop :=
  forall k, k <> [] -> k `prefix_of` P -> fs !! k = Some FS.Dir.

(** Every entry of the disk lies in a directory. *)
Definition tree_shaped (fs : FS.t) : Prop :=
  map_Forall (fun k (_ : FS.node) => FS.lookup fs (removelast k) = Some FS.Dir) fs.


(** The entry is a regular file with the name of an archive. *)
Definition is_archive (k : list string) (n : FS.node) : bool :=
  match n with
  | FS.File _ => zip_name (List.last k "")
  | FS.Dir => false
  end.


(** The directory that line 191 names for the archive [x] of the directory
    at [P] is a proper name that nothing on the disk has, and that no
    other archive of that directory shares. *)
Definition extraction_dir_free (fs : FS.t) (P : list string) (x : string) : Prop :=
  Py.is_name (Py.drop_last 4 x) = true /\
  fs !! (P ++ [Py.drop_last 4 x])%list = None /\
  map_Forall
    (fun k' n' =>
       is_archive k' n' = true -> removelast k' = P ->
       Py.drop_last 4 (List.last k' "") = Py.drop_last 4 x -> List.last k' "" = x)
    fs.


(** So it is for every archive at or below the directory at [K]. *)
Definition extraction_dirs_free (K : list string) (fs : FS.t) : Prop :=
  map_Forall
    (fun k n =>
       is_archive k n = true -> K `prefix_of` removelast k ->
       extraction_dir_free fs (removelast k) (List.last k ""))
    fs.


(** Lines 193-198 succeed for the archive [filename] of [dirpath] on the
    disk of [w]: the directory is made, the archive opens, passes its test
    and is extracted. *)
Definition extraction_succeeds (unzip : string -> option (list zmember))
           (dirpath filename : string) (w : world) : Prop :=
  let zip_path := Py.path_join dirpath filename in
  let extract_to := Py.path_join dirpath (Py.drop_last 4 filename) in
  fst ((do _ <- os_makedirs extract_to true; unzip_into unzip zip_path extract_to) w)
  = Ok tt.


(** The failure to create the directory an archive of the destination
    tree is to be extracted into: [filename] is a regular file of the
    sub-directory [rel] of [folder], it has the name of an archive, and the
    directory named after it cannot be made on the disk of [w']. *)
Definition extraction_directory_failure (folder : string) (e : exn) (w' : world) : Prop :=
  exists rel filename,
    let dirpath := fold_left Py.path_join rel folder in
    zip_name filename = true /\
    FS.isfile (w_fs w') (Py.path_join dirpath filename) = true /\
    FS.makedirs true (Py.path_join dirpath (Py.drop_last 4 filename)) (w_fs w') = Raise e.


(** Regular files stay regular files, but for the one at [kz]. *)
Definition files_kept_but (kz : list string) (w w' : world) : Prop :=
  forall k d, k <> kz -> w_fs w !! k = Some (FS.File d) ->
    exists d', w_fs w' !! k = Some (FS.File d').


(** ** Sample data for the concrete runs *)

(** A registry with the two groups the documentation of [rat_fetch]
    names. *)
Definition sample_registry : list (string * list string) :=
  [ ("bosentan_highdose", ["S01.zip"; "S02.zip"]); ("relaxivity", ["S03.zip"]) ].

(** A decoder that knows two archives. *)
Definition sample_unzip (data : string) : option (list zmember) :=
  if String.eqb data "PK:inner.csv" then Some [ZMember "inner.csv" "1,2,3" true]
  else if String.eqb data "PK:bad" then Some [ZMember "x.txt" "xx" false]
  else None.

(** A world with an empty disk, an archive service that serves every URL
    and no storage project. *)
Definition online : world :=
  World ∅ (fun _ _ => GetResponse 200 "data") (fun _ _ => None) ∅ (fun _ _ => None) [].

(** The same with a service that answers 404. *)
Definition not_found : world :=
  World ∅ (fun _ _ => GetResponse 404 "") (fun _ _ => None) ∅ (fun _ _ => None) [].

(** The same with no network at all. *)
Definition offline : world :=
  World ∅ (fun _ _ => GetRaises (Exn ReqConnectionError "Max retries exceeded"))
        (fun _ _ => None) ∅ (fun _ _ => None) [].

(** A disk that already holds [dl/KRUK.dmr.zip]. *)
Definition downloaded : world :=
  World (<[ ["dl"; "KRUK.dmr.zip"] := FS.File "old" ]> (<[ ["dl"] := FS.Dir ]> ∅))
        (fun _ _ => GetResponse 200 "data") (fun _ _ => None) ∅ (fun _ _ => None) [].

(** A disk that holds [dl/mine.zip], a name the registry does not know. *)
Definition downloaded_unknown : world :=
  World (<[ ["dl"; "mine.zip"] := FS.File "old" ]> (<[ ["dl"] := FS.Dir ]> ∅))
        (fun _ _ => GetResponse 200 "data") (fun _ _ => None) ∅ (fun _ _ => None) [].

(** A disk with the folder [dl] and a service that answers 404. *)
Definition ready_not_found : world :=
  World (<[ ["dl"] := FS.Dir ]> ∅) (fun _ _ => GetResponse 404 "")
        (fun _ _ => None) ∅ (fun _ _ => None) [].

(** A disk with the folder [dl] and a service that serves every URL. *)
Definition ready_online : world :=
  World (<[ ["dl"] := FS.Dir ]> ∅) (fun _ _ => GetResponse 200 "data")
        (fun _ _ => None) ∅ (fun _ _ => None) [].

(** A storage with a file whose download breaks, an archive, and a
    sub-folder with a file and a corrupt archive. *)
Definition sample_storage : rfolder :=
  RFolder "osfstorage"
    [ RFile "a.txt" "/a.txt" (Broken (Exn OtherError "boom") "") None;
      RFile "data.zip" "/data.zip" (Body "PK:inner.csv") None ]
    [ RFolder "sub"
        [ RFile "b.txt" "/sub/b.txt" (Body "bbb") None;
          RFile "bad.zip" "/sub/bad.zip" (Body "PK:bad") None ]
        [] ].

(** A world with an empty disk and that storage as project [un5ct]. *)
Definition osf_world : world :=
  World ∅ (fun _ _ => GetResponse 200 "data") (fun _ _ => None)
        (<[ "un5ct" := sample_storage ]> ∅) (fun _ _ => None) [].

(** The same, with a regular file where the folder [sub] is to go. *)
Definition osf_world_clash : world :=
  World (<[ ["dir"; "sub"] := FS.File "mine" ]> (<[ ["dir"] := FS.Dir ]> ∅))
        (fun _ _ => GetResponse 200 "data") (fun _ _ => None)
        (<[ "un5ct" := sample_storage ]> ∅) (fun _ _ => None) [].

(** A local file to upload and a storage that already lists its remote
    path. *)
Definition upload_world : world :=
  World (<[ ["results.csv"] := FS.File "new" ]> ∅)
        (fun _ _ => GetResponse 200 "data") (fun _ _ => None)
        (<[ "un5ct" :=
              RFolder "osfstorage"
                [RFile "results.csv" "/Testing/results.csv" (Body "old") None] [] ]> ∅)
        (fun _ _ => None) [].

(** A disk with the archive [dir/data.zip], which holds [inner.csv]. *)
Definition archive_world : world :=
  World (<[ ["dir"; "data.zip"] := FS.File "PK:inner.csv" ]> (<[ ["dir"] := FS.Dir ]> ∅))
        (fun _ _ => GetResponse 200 "data") (fun _ _ => None) ∅ (fun _ _ => None) [].

(** A disk with the archive [dir/bad.zip], whose member fails its
    checksum. *)
Definition corrupt_world : world :=
  World (<[ ["dir"; "bad.zip"] := FS.File "PK:bad" ]> (<[ ["dir"] := FS.Dir ]> ∅))
        (fun _ _ => GetResponse 200 "data") (fun _ _ => None) ∅ (fun _ _ => None) [].

(** An empty disk and a service that serves every request but the second
    of the run, which it answers with 404. *)
Definition flaky : world :=
  World ∅ (fun n _ => if Nat.eqb n 1 then GetResponse 404 "" else GetResponse 200 "data")
        (fun _ _ => None) ∅ (fun _ _ => None) [].

(** A decoder that knows an archive of an archive and two archives with a
    member of the same name. *)
Definition nested_unzip (data : string) : option (list zmember) :=
  if String.eqb data "PK:outer" then Some [ZMember "inner.zip" "PK:1" true]
  else if String.eqb data "PK:1" then Some [ZMember "inner.csv" "1" true]
  else if String.eqb data "PK:2" then Some [ZMember "inner.csv" "2" true]
  else None.


(** A world with an empty disk and the storage [st] as project [un5ct]. *)
Definition storing (st : rfolder) : world :=
  World ∅ (fun _ _ => GetResponse 200 "data") (fun _ _ => None)
        (<[ "un5ct" := st ]> ∅) (fun _ _ => None) [].


(** An archive whose name without its last four characters is [..]. *)
Definition dots_storage : rfolder :=
  RFolder "osfstorage" [ RFile "...zip" "/...zip" (Body "PK:1") None ] [].


(** A file whose download breaks, a file [data] next to the archive
    [data.zip], and an archive in a sub-folder. *)
Definition clash_storage : rfolder :=
  RFolder "osfstorage"
    [ RFile "a.txt" "/a.txt" (Broken (Exn OtherError "boom") "") None;
      RFile "data" "/data" (Body "x") None;
      RFile "data.zip" "/data.zip" (Body "PK:1") None ]
    [ RFolder "sub" [ RFile "a.zip" "/sub/a.zip" (Body "PK:1") None ] [] ].


(** Two archives whose names differ in the case of the extension only. *)
Definition twin_storage : rfolder :=
  RFolder "osfstorage"
    [ RFile "a.zip" "/a.zip" (Body "PK:1") None;
      RFile "a.ZIP" "/a.ZIP" (Body "PK:2") None ] [].


(** An archive of an archive next to a folder of its name. *)
Definition nested_storage : rfolder :=
  RFolder "osfstorage"
    [ RFile "data.zip" "/data.zip" (Body "PK:outer") None ]
    [ RFolder "data" [ RFile "keep.txt" "/data/keep.txt" (Body "k") None ] [] ].


(** The world that the fetch without extraction leaves. *)
Definition downloaded_tree (unzip : string -> option (list zmember)) (w : world) : world :=
  snd (osf_fetch false unzip 0 "" "dir" "un5ct" None false true w).


(** A decoder with an archive that holds a directory [x] and itself, as
    [x.zip]. *)
Definition quine_unzip (data : string) : option (list zmember) :=
  if String.eqb data "PK:quine"
  then Some [ZMember "x/" "" true; ZMember "x.zip" "PK:quine" true]
  else None.


(** That archive as [x.zip], next to a folder [x]. *)
Definition quine_storage : rfolder :=
  RFolder "osfstorage"
    [ RFile "x.zip" "/x.zip" (Body "PK:quine") None ]
    [ RFolder "x" [] [] ].


(** The directory [dirpath] holds the directory [x] and the archive
    [x.zip], and nothing else is below it. *)
Definition quine_at (dirpath : string) (fs : FS.t) : Prop :=
  let P := FS.components dirpath in
  P <> [] /\
  (forall k, k <> [] -> k `prefix_of` P -> fs !! k = Some FS.Dir) /\
  fs !! (P ++ ["x"])%list = Some FS.Dir /\
  fs !! (P ++ ["x.zip"])%list = Some (FS.File "PK:quine") /\
  (forall k, P `prefix_of` k -> k <> P -> k <> (P ++ ["x"])%list ->
             k <> (P ++ ["x.zip"])%list -> fs !! k = None).


(** * Properties *)

(** ** Running monadic code *)

(** Decidable side conditions of the concrete runs are computed. *)
Ltac by_compute := refine (bool_decide_unpack _ _); vm_compute; exact I.

Lemma for_each_nil {A} (body : A -> M unit) : for_each [] body = ret tt.
Proof. reflexivity. Qed.

Lemma for_each_cons {A} (x : A) l (body : A -> M unit) :
  for_each (x :: l) body = (do _ <- body x; for_each l body).
Proof. reflexivity. Qed.

Lemma for_collect_nil {A B} (body : A -> M B) : for_collect [] body = ret [].
Proof. reflexivity. Qed.

Lemma for_collect_cons {A B} (x : A) l (body : A -> M B) :
  for_collect (x :: l) body =
  (do y <- body x; do ys <- for_collect l body; ret (y :: ys)).
Proof. reflexivity. Qed.

Lemma bind_ok_inv {A B} (c : M A) (k : A -> M B) w b w' :
  bind c k w = (Ok b, w') -> exists a w1, c w = (Ok a, w1) /\ k a w1 = (Ok b, w').
Proof.
  unfold bind. destruct (c w) as [[a| |] w1]; [eauto | discriminate | discriminate].
Qed.

Lemma bind_run {A B} (c : M A) (k : A -> M B) w a w1 :
  c w = (Ok a, w1) -> bind c k w = k a w1.
Proof. unfold bind. by intros ->. Qed.

Lemma bind_raise {A B} (c : M A) (k : A -> M B) w e w1 :
  c w = (Raise e, w1) -> bind c k w = (Raise e, w1).
Proof. unfold bind. by intros ->. Qed.

Lemma try_except_ok_inv {A} (c : M A) (h : exn -> M A) w a w' :
  try_except c h w = (Ok a, w') ->
  c w = (Ok a, w') \/ exists e w1, c w = (Raise e, w1) /\ h e w1 = (Ok a, w').
Proof.
  unfold try_except. destruct (c w) as [[x| |] w1]; [by left | | discriminate].
  intros H. right. eauto.
Qed.

Lemma lift_fs_ok_inv op w u w' :
  lift_fs op w = (Ok u, w') ->
  exists f, op (w_fs w) = Ok f /\ w' = set_fs f w.
Proof.
  unfold lift_fs. destruct (op (w_fs w)) as [f| |]; [|discriminate..].
  intros H. inversion H. eauto.
Qed.

(** ** The filesystem operations *)

Lemma mkdir_p_keeps ok p todo : forall fs above fs' k n,
  FS.mkdir_p ok p fs above todo = Ok fs' -> fs !! k = Some n -> fs' !! k = Some n.
Proof.
  induction todo as [|s r IH]; intros fs above fs' k n H Hk; cbn [FS.mkdir_p] in H.
  - congruence.
  - destruct (fs !! rev (s :: above)) as [[d|]|] eqn:E.
    + destruct r; discriminate.
    + destruct r as [|s' r'].
      * destruct ok; [congruence | discriminate].
      * eapply IH; eauto.
    + eapply IH; [exact H|].
      destruct (decide (rev (s :: above) = k)) as [<-|Hne]; [congruence|].
      by rewrite lookup_insert_ne.
Qed.

Lemma mkdir_p_makes ok p todo : forall fs above fs',
  todo <> [] ->
  FS.mkdir_p ok p fs above todo = Ok fs' -> fs' !! (rev above ++ todo) = Some FS.Dir.
Proof.
  induction todo as [|s r IH]; intros fs above fs' Hne H; [done|]. cbn [FS.mkdir_p] in H.
  assert (Hpath : rev above ++ s :: r = rev (s :: above) ++ r).
  { simpl. by rewrite <- app_assoc. }
  destruct (fs !! rev (s :: above)) as [[d|]|] eqn:E.
  - destruct r; discriminate.
  - destruct r as [|s' r'].
    + destruct ok; [|discriminate]. inversion H; subst.
      rewrite Hpath, app_nil_r. exact E.
    + rewrite Hpath. eapply IH; [discriminate | exact H].
  - destruct r as [|s' r'].
    + simpl in H. inversion H; subst. rewrite Hpath, app_nil_r.
      apply lookup_insert_eq.
    + rewrite Hpath. eapply IH; [discriminate | exact H].
Qed.

Lemma makedirs_keeps ok p fs fs' k n :
  FS.makedirs ok p fs = Ok fs' -> fs !! k = Some n -> fs' !! k = Some n.
Proof.
  unfold FS.makedirs. destruct (FS.resolve p) as [[|s r]|]; [|  |discriminate].
  - destruct ok; [congruence | discriminate].
  - intros H Hk. eapply mkdir_p_keeps; eauto.
Qed.

Lemma makedirs_isdir ok p fs fs' :
  FS.makedirs ok p fs = Ok fs' -> FS.isdir fs' p = true.
Proof.
  unfold FS.makedirs, FS.isdir.
  destruct (FS.resolve p) as [[|s r]|]; [done| |discriminate].
  intros H. apply mkdir_p_makes in H; [|discriminate]. simpl in H.
  unfold FS.lookup. by rewrite H.
Qed.

Lemma isdir_exists fs p : FS.isdir fs p = true -> FS.exists_ fs p = true.
Proof.
  unfold FS.isdir, FS.exists_. destruct (FS.resolve p); [|done].
  by destruct (FS.lookup fs l) as [[]|].
Qed.

Lemma isfile_exists fs p : FS.isfile fs p = true -> FS.exists_ fs p = true.
Proof.
  unfold FS.isfile, FS.exists_. destruct (FS.resolve p); [|done].
  by destruct (FS.lookup fs l) as [[]|].
Qed.

Lemma write_file_isfile p data fs fs' :
  FS.write_file p data fs = Ok fs' -> FS.isfile fs' p = true.
Proof.
  unfold FS.write_file, FS.isfile.
  destruct (Py.endswith p "/"); [discriminate|].
  destruct (FS.resolve p) as [[|s r]|]; [discriminate| |discriminate].
  destruct (FS.lookup fs (removelast (s :: r))) as [[]|]; try discriminate.
  destruct (fs !! (s :: r)) as [[]|]; intros H; inversion H; subst;
    unfold FS.lookup; by rewrite lookup_insert_eq.
Qed.

(** ** The Single-File Fetcher *)

(** An already-present target is returned at once: the world, and with it
    the request log and the disk, is left as it was. *)
Lemma zenodo_fetch_present dataset folder doi filename w :
  FS.exists_ (w_fs w) (zenodo_target dataset folder filename) = true ->
  zenodo_fetch false dataset folder doi filename w
  = (Ok (zenodo_target dataset folder filename), w).
Proof.
  intros H. unfold zenodo_fetch, bind, os_path_exists. by rewrite H.
Qed.

Lemma requests_log_get url w : requests (log (EGet url) w) = (requests w ++ [url])%list.
Proof. unfold requests, log. simpl. by rewrite omap_app. Qed.

Lemma requests_set_fs f w : requests (set_fs f w) = requests w.
Proof. reflexivity. Qed.

(** What a successful call leaves behind: the target exists, and the call
    made one request exactly when the target was not there before. *)
Lemma zenodo_fetch_ok dataset folder doi filename w p w1 :
  zenodo_fetch false dataset folder doi filename w = (Ok p, w1) ->
  p = zenodo_target dataset folder filename /\
  FS.exists_ (w_fs w1) (zenodo_target dataset folder filename) = true /\
  List.length (requests w1) =
    List.length (requests w) +
    (if FS.exists_ (w_fs w) (zenodo_target dataset folder filename) then 0 else 1).
Proof.
  unfold zenodo_fetch. set (file := zenodo_target dataset folder filename).
  intros H.
  apply bind_ok_inv in H as (present & w2 & Hp & H).
  unfold os_path_exists in Hp. inversion Hp; subst present w2; clear Hp.
  destruct (FS.exists_ (w_fs w) file) eqn:E.
  { inversion H; subst. rewrite E. repeat split. lia. }
  apply bind_ok_inv in H as (d & w2 & Hd & H).
  assert (w2 = w) as ->.
  { destruct doi; [by inversion Hd|].
    destruct (dict_get DATASETS dataset); by inversion Hd. }
  clear Hd.
  apply bind_ok_inv in H as (resp & w3 & Hget & H).
  apply try_except_ok_inv in Hget as [Hget | (e & w4 & _ & Hh)];
    [| destruct (exn_cls e); discriminate Hh].
  assert (requests w3 = (requests w ++ [zenodo_url d dataset])%list) as Hreq.
  { unfold requests_get in Hget.
    destruct (w_http w _ _); inversion Hget. apply requests_log_get. }
  clear Hget.
  apply bind_ok_inv in H as ([] & w4 & Hst & H).
  assert (w4 = w3) as ->.
  { unfold raise_for_status in Hst.
    destruct (_ && _); [discriminate Hst | by inversion Hst]. }
  clear Hst.
  apply bind_ok_inv in H as (folder_present & w4 & Hfp & H).
  inversion Hfp; subst folder_present w4; clear Hfp.
  apply bind_ok_inv in H as ([] & w4 & Hmk & H).
  assert (requests w4 = requests w3) as Hreq4.
  { destruct (negb _); [|by inversion Hmk].
    apply lift_fs_ok_inv in Hmk as (f & _ & ->). apply requests_set_fs. }
  clear Hmk.
  apply bind_ok_inv in H as ([] & w5 & Hwr & H).
  inversion H; subst p w5; clear H.
  apply lift_fs_ok_inv in Hwr as (f & Hwr & ->).
  split; [done|]. split.
  - apply isfile_exists. cbn. eapply write_file_isfile; eauto.
  - rewrite requests_set_fs, Hreq4, Hreq, length_app. simpl. lia.
Qed.

(** C1 (as amended).  If the target file already exists, the Single-File
    Fetcher returns its path at once, without a request and without
    touching anything.  A call that returns made one request if the target
    was absent before it and none if it was present; calling again with
    the same arguments then returns the same path without any request. *)
Theorem zenodo_fetch_at_most_once dataset folder doi filename w :
  (FS.exists_ (w_fs w) (zenodo_target dataset folder filename) = true ->
   zenodo_fetch false dataset folder doi filename w
   = (Ok (zenodo_target dataset folder filename), w)) /\
  (forall p w1,
     zenodo_fetch false dataset folder doi filename w = (Ok p, w1) ->
     p = zenodo_target dataset folder filename /\
     List.length (requests w1) =
       List.length (requests w) +
       (if FS.exists_ (w_fs w) (zenodo_target dataset folder filename) then 0 else 1) /\
     zenodo_fetch false dataset folder doi filename w1 = (Ok p, w1)).
Proof.
  split; [apply zenodo_fetch_present|].
  intros p w1 H. apply zenodo_fetch_ok in H as (-> & Hex & Hreq).
  repeat split; [exact Hreq|]. by apply zenodo_fetch_present.
Qed.

Lemma zenodo_fetch_at_most_once_witness :
  let w1 := snd (zenodo_fetch false "KRUK.dmr.zip" "dl" None None online) in
  zenodo_fetch false "KRUK.dmr.zip" "dl" None None downloaded
    = (Ok "dl/KRUK.dmr.zip", downloaded) /\
  List.length (requests w1) = 1 /\
  zenodo_fetch false "KRUK.dmr.zip" "dl" None None w1 = (Ok "dl/KRUK.dmr.zip", w1).
Proof.
  intros w1.
  destruct (zenodo_fetch_at_most_once "KRUK.dmr.zip" "dl" None None downloaded)
    as [Hpresent _].
  destruct (zenodo_fetch_at_most_once "KRUK.dmr.zip" "dl" None None online)
    as [_ Hagain].
  split; [apply Hpresent; vm_compute; reflexivity|].
  destruct (Hagain "dl/KRUK.dmr.zip" w1) as (_ & Hreq & Hsecond);
    [vm_compute; reflexivity|].
  split; [exact Hreq | exact Hsecond].
Defined.

(** C1 (as stated) fails when the file is there before the first call:
    neither of the two calls makes a request. *)
Lemma zenodo_fetch_twice_present_no_request :
  let run1 := zenodo_fetch false "KRUK.dmr.zip" "dl" None None downloaded in
  let run2 := zenodo_fetch false "KRUK.dmr.zip" "dl" None None (snd run1) in
  fst run1 = Ok "dl/KRUK.dmr.zip" /\ fst run2 = Ok "dl/KRUK.dmr.zip" /\
  requests (snd run2) = [] /\
  List.length (requests (snd run2)) <> List.length (requests downloaded) + 1.
Proof. vm_compute. repeat split; congruence. Qed.

(** It also fails when the first call fails: with no network both calls
    make a request and neither returns a path. *)
Lemma zenodo_fetch_twice_offline_two_requests :
  let run1 := zenodo_fetch false "KRUK.dmr.zip" "dl" None None offline in
  let run2 := zenodo_fetch false "KRUK.dmr.zip" "dl" None None (snd run1) in
  exn_cls <$> (match fst run1 with Raise e => Some e | _ => None end)
    = Some ReqConnectionError /\
  exn_cls <$> (match fst run2 with Raise e => Some e | _ => None end)
    = Some ReqConnectionError /\
  List.length (requests (snd run2)) = 2.
Proof. vm_compute. repeat split. Qed.

(** C9.  The existence check comes before the look-up of the dataset: with
    no repository id given and whatever the dataset name, in the registry
    or not, a call whose target file exists returns the target path; the
    world is unchanged, so no URL was requested, and nothing is raised. *)
Theorem zenodo_fetch_present_before_validation dataset folder filename w :
  FS.exists_ (w_fs w) (zenodo_target dataset folder filename) = true ->
  zenodo_fetch false dataset folder None filename w
    = (Ok (zenodo_target dataset folder filename), w) /\
  (forall e w', zenodo_fetch false dataset folder None filename w <> (Raise e, w')) /\
  requests (snd (zenodo_fetch false dataset folder None filename w)) = requests w.
Proof.
  intros H. rewrite (zenodo_fetch_present _ _ None _ _ H). by repeat split.
Qed.

Lemma zenodo_fetch_present_before_validation_witness :
  dict_get DATASETS "mine.zip" = None /\
  exn_cls <$> (match fst (zenodo_fetch false "mine.zip" "dl" None None online) with
               | Raise e => Some e | _ => None end) = Some ValueError /\
  zenodo_fetch false "mine.zip" "dl" None None downloaded_unknown
    = (Ok "dl/mine.zip", downloaded_unknown).
Proof.
  split; [reflexivity|]. split; [vm_compute; reflexivity|].
  apply (zenodo_fetch_present_before_validation "mine.zip" "dl" None downloaded_unknown).
  vm_compute; reflexivity.
Defined.

(** ** The Grouped Fetcher *)

Lemma write_file_run p data w :
  write_file p data w =
  match FS.write_file p data (w_fs w) with
  | Ok f => (Ok tt, set_fs f w)
  | Raise e => (Raise e, w)
  | OutOfFuel => (OutOfFuel, w)
  end.
Proof. reflexivity. Qed.

Lemma fs_write_file_total p data fs : FS.write_file p data fs <> OutOfFuel.
Proof.
  unfold FS.write_file. repeat case_match; discriminate.
Qed.

Lemma mkdir_p_total ok p todo : forall fs above, FS.mkdir_p ok p fs above todo <> OutOfFuel.
Proof.
  induction todo as [|s r IH]; intros fs above; cbn [FS.mkdir_p]; [discriminate|].
  repeat case_match; try discriminate; apply IH.
Qed.

Lemma fs_makedirs_total ok p fs : FS.makedirs ok p fs <> OutOfFuel.
Proof.
  unfold FS.makedirs. repeat case_match; try discriminate; apply mkdir_p_total.
Qed.

Lemma checked_get_total url w : fst (checked_get url w) <> OutOfFuel.
Proof.
  unfold checked_get, bind, requests_get, raise_for_status, raise, ret.
  destruct (w_http w _ url); simpl; [discriminate|].
  destruct (_ && _); discriminate.
Qed.

(** The loop body in closed form. *)
Lemma rat_fetch_file_run doi folder fname w :
  rat_fetch_file doi folder fname w =
  let out_path := Py.path_join folder fname in
  if FS.exists_ (w_fs w) out_path then (Ok out_path, w)
  else
    match checked_get (zenodo_url doi fname) w with
    | (Ok response, w1) =>
        match FS.write_file out_path (resp_content response) (w_fs w1) with
        | Ok f => (Ok out_path, set_fs f w1)
        | Raise e => (Raise e, w1)
        | OutOfFuel => (OutOfFuel, w1)
        end
    | (Raise e, w1) => (Raise (Exn ConnectionError (rat_failed_msg fname e)), w1)
    | (OutOfFuel, w1) => (OutOfFuel, w1)
    end.
Proof.
  unfold rat_fetch_file, bind at 1, os_path_exists. cbn zeta.
  destruct (FS.exists_ (w_fs w) (Py.path_join folder fname)); [reflexivity|].
  unfold bind at 1, try_except.
  change (do response <- requests_get _; do _ <- raise_for_status response; ret response)
    with (checked_get (zenodo_url doi fname)).
  destruct (checked_get (zenodo_url doi fname) w) as [[resp|e|] w1]; try reflexivity.
  unfold bind. rewrite write_file_run.
  destruct (FS.write_file _ _ _); reflexivity.
Qed.

Lemma checked_get_fs url w : w_fs (snd (checked_get url w)) = w_fs w.
Proof.
  unfold checked_get, bind, requests_get, raise_for_status, raise, ret.
  destruct (w_http w _ url); simpl; [reflexivity|].
  destruct (_ && _); reflexivity.
Qed.

(** The Single-File Fetcher in closed form, for an explicit repository id
    and a destination folder that exists. *)
Lemma zenodo_fetch_run doi folder fname w :
  FS.exists_ (w_fs w) folder = true ->
  zenodo_fetch false fname folder (Some doi) None w =
  let file := Py.path_join folder fname in
  if FS.exists_ (w_fs w) file then (Ok file, w)
  else
    match checked_get (zenodo_url doi fname) w with
    | (Ok response, w1) =>
        match FS.write_file file (resp_content response) (w_fs w1) with
        | Ok f => (Ok file, set_fs f w1)
        | Raise e => (Raise e, w1)
        | OutOfFuel => (OutOfFuel, w1)
        end
    | (Raise e, w1) =>
        (Raise (match exn_cls e with
                | ReqConnectionError =>
                    Exn ReqConnectionError (zenodo_offline_msg fname e)
                | _ => e
                end), w1)
    | (OutOfFuel, w1) => (OutOfFuel, w1)
    end.
Proof.
  intros Hfolder.
  unfold zenodo_fetch, zenodo_target, bind at 1, os_path_exists. cbn zeta.
  destruct (FS.exists_ (w_fs w) (Py.path_join folder fname)); [reflexivity|].
  unfold checked_get, bind, try_except, requests_get, raise_for_status, raise, ret,
    os_path_exists.
  destruct (w_http w _ _) as [e|st body].
  { by destruct e as [[] msg]. }
  cbn [resp_status resp_content resp_url].
  destruct (_ && _); [reflexivity|].
  cbn [w_fs log]. rewrite Hfolder. cbn [negb].
  rewrite write_file_run. cbn [w_fs log].
  destruct (FS.write_file _ _ _); reflexivity.
Qed.

(** In a destination folder that exists the loop body for a filename does
    what the Single-File Fetcher does for that name and the repository id
    in use: the same check for an existing file, the same GET to the same
    URL, the same write, the same returned path and the same effects on
    the world.  It differs in the errors: whatever makes the request fail
    is raised as one builtin [ConnectionError], where the Single-File
    Fetcher keeps the class of the failure. *)
Lemma rat_fetch_file_refines doi folder fname w :
  FS.exists_ (w_fs w) folder = true ->
  let single := zenodo_fetch false fname folder (Some doi) None w in
  let grouped := rat_fetch_file doi folder fname w in
  snd grouped = snd single /\
  match fst single with
  | Ok p => fst grouped = Ok p /\ p = Py.path_join folder fname
  | Raise e' =>
      FS.exists_ (w_fs w) (Py.path_join folder fname) = false /\
      match checked_get (zenodo_url doi fname) w with
      | (Raise e, _) =>
          exn_cls e' = exn_cls e /\
          fst grouped = Raise (Exn ConnectionError (rat_failed_msg fname e))
      | _ => fst grouped = Raise e'
      end
  | OutOfFuel => False
  end.
Proof.
  intros Hfolder single grouped. subst single grouped.
  rewrite zenodo_fetch_run by exact Hfolder. rewrite rat_fetch_file_run. cbn zeta.
  destruct (FS.exists_ (w_fs w) (Py.path_join folder fname)); [by repeat split|].
  pose proof (checked_get_total (zenodo_url doi fname) w) as Htot.
  destruct (checked_get (zenodo_url doi fname) w) as [[resp|e|] w1]; simpl in *.
  - pose proof (fs_write_file_total (Py.path_join folder fname)
                  (resp_content resp) (w_fs w1)) as Hw.
    destruct (FS.write_file _ _ _); simpl; by repeat split.
  - repeat split. by destruct e as [[] msg].
  - done.
Qed.

(** *** What the loops collect *)

Lemma for_collect_outcome {A B} (f : A -> B) (body : A -> M B) (l : list A) :
  (forall x w, x ∈ l -> returns_or_raises (fun y => y = f x) (fst (body x w))) ->
  forall w, returns_or_raises (fun ys => ys = map f l) (fst (for_collect l body w)).
Proof.
  induction l as [|x l IH]; intros Hbody w; [reflexivity|].
  rewrite for_collect_cons. unfold bind at 1.
  pose proof (Hbody x w ltac:(left)) as Hx.
  destruct (body x w) as [[y|e|] w1]; simpl in Hx; [subst y | done | done].
  unfold bind at 1.
  pose proof (IH (fun x' w' Hin => Hbody x' w' ltac:(by right)) w1) as Hl.
  destruct (for_collect l body w1) as [[ys|e|] w2]; simpl in Hl; [subst ys | done | done].
  reflexivity.
Qed.

Lemma rat_fetch_file_outcome doi folder fname w :
  returns_or_raises (fun p => p = Py.path_join folder fname)
    (fst (rat_fetch_file doi folder fname w)).
Proof.
  rewrite rat_fetch_file_run. cbn zeta.
  destruct (FS.exists_ _ _); [reflexivity|].
  pose proof (checked_get_total (zenodo_url doi fname) w) as Htot.
  destruct (checked_get _ w) as [[resp|e|] w1]; simpl in *; [|done|done].
  pose proof (fs_write_file_total (Py.path_join folder fname)
                (resp_content resp) (w_fs w1)) as Hw.
  by destruct (FS.write_file _ _ _).
Qed.

Lemma dict_get_mem {V} (d : list (string * V)) k :
  k ∈ dict_keys d -> exists v, dict_get d k = Some v.
Proof.
  unfold dict_keys, dict_get. induction d as [|[k' v'] d IH]; intros Hin.
  - by apply elem_of_nil in Hin.
  - simpl. destruct (String.eqb k' k) eqn:E; [eauto|].
    apply elem_of_cons in Hin as [->|Hin]; [|by apply IH].
    simpl in E. by rewrite String.eqb_refl in E.
Qed.

Lemma dict_get_keys {V} (d : list (string * V)) :
  NoDup (dict_keys d) -> map (dict_get d) (dict_keys d) = map (fun kv => Some (snd kv)) d.
Proof.
  unfold dict_keys, dict_get. induction d as [|[k v] d IH]; intros Hnd; [reflexivity|].
  simpl in *. apply NoDup_cons in Hnd as [Hk Hnd].
  rewrite String.eqb_refl. simpl. f_equal.
  rewrite <- IH by exact Hnd. apply map_ext_in. intros g Hg.
  destruct (String.eqb k g) eqn:E; [|reflexivity].
  apply String.eqb_eq in E. subst g. exfalso. apply Hk. by apply list_elem_of_In.
Qed.

Section GroupedFetcher.

Variable registry : list (string * list string).

Lemma rat_fetch_group_outcome doi folder g w :
  g ∈ dict_keys registry ->
  returns_or_raises (fun ps => ps = map (Py.path_join folder) (group_files registry g))
    (fst (rat_fetch_group registry doi folder g w)).
Proof.
  intros Hg. unfold rat_fetch_group, group_files.
  destruct (dict_get_mem registry g Hg) as [files ->]. simpl.
  apply for_collect_outcome. intros x w' _. apply rat_fetch_file_outcome.
Qed.

Lemma groups_to_download_run dataset w :
  groups_to_download registry dataset w =
  if String.eqb (Py.lower dataset) "all" then (Ok (dict_keys registry), w)
  else if dict_mem registry dataset then (Ok [dataset], w)
  else (Raise (Exn ValueError (rat_unknown_msg registry dataset)), w).
Proof. unfold groups_to_download. by repeat case_match. Qed.

Lemma groups_to_download_known dataset w groups w' :
  groups_to_download registry dataset w = (Ok groups, w') ->
  w' = w /\ forall g, g ∈ groups -> g ∈ dict_keys registry.
Proof.
  rewrite groups_to_download_run.
  destruct (String.eqb _ _); [intros H; by inversion H|].
  destruct (dict_mem registry dataset) eqn:E; [|discriminate].
  intros H; inversion H; subst. split; [done|].
  intros g Hg. apply list_elem_of_singleton in Hg as ->.
  unfold dict_mem in E. by apply bool_decide_eq_true in E.
Qed.

(** A call that returns yields, for the selected groups in order, the
    local path of each of their files in order. *)
Lemma rat_fetch_outcome dataset folder doi w :
  returns_or_raises
    (fun paths =>
       exists groups,
         groups_to_download registry (rat_default dataset) w = (Ok groups, w) /\
         paths = map (Py.path_join folder) (List.concat (map (group_files registry) groups)))
    (fst (rat_fetch false registry dataset folder doi w)).
Proof.
  unfold rat_fetch. unfold bind at 1.
  destruct (groups_to_download registry (rat_default dataset) w)
    as [[groups|e|] w1] eqn:Eg; [|done|].
  2:{ rewrite groups_to_download_run in Eg. by repeat case_match. }
  apply groups_to_download_known in Eg as Hk. destruct Hk as [-> Hk].
  unfold bind at 1, os_makedirs, lift_fs.
  pose proof (fs_makedirs_total true folder (w_fs w)) as Hmk.
  destruct (FS.makedirs true folder (w_fs w)) as [f|e|]; [|done|done].
  unfold bind at 1.
  pose proof (for_collect_outcome
                (fun g => map (Py.path_join folder) (group_files registry g))
                (rat_fetch_group registry (rat_doi doi) folder) groups
                (fun g w' Hg => rat_fetch_group_outcome _ _ g w' (Hk g Hg))
                (set_fs f w)) as Hc.
  destruct (for_collect groups _ (set_fs f w)) as [[pss|e|] w2]; simpl in Hc;
    [subst pss | done | done].
  simpl. exists groups. split; [done|].
  clear. induction groups as [|g groups IH]; [reflexivity|].
  simpl. by rewrite map_app, IH.
Qed.

End GroupedFetcher.

(** C2.  A group name that reads "all" in any letter case selects every
    group of the registry, in the registry's order; the call then comes to
    an end, and when it returns it returns the local paths of the files of
    all groups in that order, as many as the group sizes add up to. *)
Theorem rat_fetch_all_groups registry d folder doi w :
  NoDup (dict_keys registry) ->
  Py.lower d = "all" ->
  groups_to_download registry (rat_default (Some d)) w = (Ok (dict_keys registry), w) /\
  returns_or_raises
    (fun paths =>
       paths = map (Py.path_join folder) (List.concat (map snd registry)) /\
       List.length paths = sum_list (map (fun g => List.length (snd g)) registry))
    (fst (rat_fetch false registry (Some d) folder doi w)).
Proof.
  intros Hnd Hall.
  assert (rat_default (Some d) = d) as Hd.
  { unfold rat_default, Py.truthy. destruct d; [discriminate Hall | reflexivity]. }
  assert (groups_to_download registry d w = (Ok (dict_keys registry), w)) as Hg.
  { rewrite groups_to_download_run, Hall. reflexivity. }
  rewrite Hd. split; [exact Hg|].
  pose proof (rat_fetch_outcome registry (Some d) folder doi w) as H.
  destruct (fst (rat_fetch false registry (Some d) folder doi w)); simpl in *; [|done..].
  destruct H as (groups & Hg' & ->). rewrite Hd, Hg in Hg'. inversion Hg'; subst groups.
  assert (map (group_files registry) (dict_keys registry) = map snd registry) as ->.
  { unfold group_files. rewrite <- (map_map (dict_get registry) (default [])).
    rewrite dict_get_keys by exact Hnd. rewrite map_map. reflexivity. }
  split; [reflexivity|].
  rewrite length_map. clear. induction registry as [|[g fl] r IH]; [reflexivity|].
  simpl. rewrite length_app, IH. reflexivity.
Qed.

Lemma rat_fetch_all_groups_witness :
  rat_fetch false sample_registry (Some "ALL") "dl" None online
  = (Ok ["dl/S01.zip"; "dl/S02.zip"; "dl/S03.zip"],
     snd (rat_fetch false sample_registry (Some "ALL") "dl" None online)) /\
  groups_to_download sample_registry "ALL" online
  = (Ok ["bosentan_highdose"; "relaxivity"], online) /\
  returns_or_raises
    (fun paths =>
       paths = ["dl/S01.zip"; "dl/S02.zip"; "dl/S03.zip"] /\ List.length paths = 3)
    (fst (rat_fetch false sample_registry (Some "ALL") "dl" None online)).
Proof.
  split; [vm_compute; reflexivity|].
  apply (rat_fetch_all_groups sample_registry "ALL" "dl" None online).
  - by_compute.
  - reflexivity.
Defined.

(** C4 (as amended).  A non-empty group name that is neither "all" in any
    letter case nor a key of the registry makes the Grouped Fetcher raise
    [ValueError] with a message that ends in the list of the valid group
    names; the world is left as it was: no directory, no file, no
    request. *)
Theorem rat_fetch_unknown_group registry g folder doi w :
  g <> "" ->
  Py.lower g <> "all" ->
  g ∉ dict_keys registry ->
  rat_fetch false registry (Some g) folder doi w
    = (Raise (Exn ValueError (rat_unknown_msg registry g)), w) /\
  rat_unknown_msg registry g
    = "'" +:+ g +:+ "' is not a valid project group in RAT_PROJECTS. " +:+
      "Available groups: " +:+ Py.join_with ", " (dict_keys registry).
Proof.
  intros Hne Hall Hkey. split; [|reflexivity].
  unfold rat_fetch.
  assert (rat_default (Some g) = g) as ->.
  { unfold rat_default, Py.truthy. destruct g; [done | reflexivity]. }
  unfold bind at 1. rewrite groups_to_download_run.
  destruct (String.eqb (Py.lower g) "all") eqn:E;
    [by apply String.eqb_eq in E|].
  unfold dict_mem. rewrite bool_decide_eq_false_2 by exact Hkey. reflexivity.
Qed.

Lemma rat_fetch_unknown_group_witness :
  rat_fetch false sample_registry (Some "not_a_group") "dl" None online
  = (Raise (Exn ValueError "'not_a_group' is not a valid project group in RAT_PROJECTS. Available groups: bosentan_highdose, relaxivity"),
     online).
Proof.
  refine (proj1 (rat_fetch_unknown_group sample_registry "not_a_group" "dl" None online
                   _ _ _)).
  - discriminate.
  - vm_compute. discriminate.
  - by_compute.
Defined.

(** C4 (as stated) fails for the empty group name: it is neither "all" nor
    a key, yet the call falls back to the default group, creates the
    folder and downloads. *)
Lemma rat_fetch_empty_name_downloads :
  let run := rat_fetch false sample_registry (Some "") "dl" None online in
  Py.lower "" <> "all" /\ ("" ∉ dict_keys sample_registry) /\
  fst run = Ok ["dl/S01.zip"; "dl/S02.zip"] /\
  List.length (requests (snd run)) = 2 /\
  FS.isdir (w_fs (snd run)) "dl" = true /\
  FS.isfile (w_fs (snd run)) "dl/S01.zip" = true.
Proof.
  split; [discriminate|]. split; [by_compute|].
  vm_compute. repeat split.
Qed.

(** *** The loop of the Grouped Fetcher against the Single-File Fetcher *)

Lemma write_file_keeps_exists p data fs fs' q :
  FS.write_file p data fs = Ok fs' -> FS.exists_ fs q = true -> FS.exists_ fs' q = true.
Proof.
  unfold FS.write_file, FS.exists_. intros H.
  destruct (FS.resolve q) as [k|]; [|done].
  destruct (Py.endswith p "/"); [discriminate|].
  destruct (FS.resolve p) as [[|s r]|]; [discriminate| |discriminate].
  destruct (FS.lookup fs (removelast (s :: r))) as [[]|]; try discriminate.
  assert (fs' = <[s :: r := FS.File data]> fs) as ->.
  { destruct (fs !! (s :: r)) as [[]|]; by inversion H. }
  destruct k as [|s' r']; [done|]. unfold FS.lookup.
  destruct (decide (s :: r = s' :: r')) as [<-|Hne].
  - by rewrite lookup_insert_eq.
  - by rewrite lookup_insert_ne.
Qed.

Lemma rat_fetch_file_keeps_exists doi folder fname w p w1 q :
  rat_fetch_file doi folder fname w = (Ok p, w1) ->
  FS.exists_ (w_fs w) q = true -> FS.exists_ (w_fs w1) q = true.
Proof.
  rewrite rat_fetch_file_run. cbn zeta.
  destruct (FS.exists_ (w_fs w) (Py.path_join folder fname)).
  { intros H; by inversion H. }
  pose proof (checked_get_fs (zenodo_url doi fname) w) as Hfs.
  destruct (checked_get _ w) as [[resp|e|] w2]; [|discriminate..].
  simpl in Hfs.
  destruct (FS.write_file _ _ (w_fs w2)) as [f| |] eqn:Ew; [|discriminate..].
  intros H Hq. inversion H; subst. cbn. rewrite Hfs in Ew.
  eapply write_file_keeps_exists; eauto.
Qed.

Lemma for_collect_agree {A B} (body1 body2 : A -> M B) (I : world -> Prop) l :
  (forall x w, I w -> agree_up_to_exn (body1 x w) (body2 x w) I) ->
  forall w, I w ->
    agree_up_to_exn (for_collect l body1 w) (for_collect l body2 w) I.
Proof.
  intros Hbody. induction l as [|x l IH]; intros w Hw; [by repeat split|].
  rewrite !for_collect_cons. unfold bind at 1 3.
  destruct (Hbody x w Hw) as [Hs Hr].
  destruct (body1 x w) as [[y|e|] w1]; destruct (body2 x w) as [r2 w2];
    cbn [fst snd] in Hs, Hr; subst w2.
  - destruct Hr as [-> Hw1]. unfold bind.
    destruct (IH w1 Hw1) as [Hs' Hr'].
    destruct (for_collect l body1 w1) as [[ys|e|] w2];
      destruct (for_collect l body2 w1) as [r2' w2'];
      cbn [fst snd] in Hs', Hr'; subst w2'.
    + destruct Hr' as [-> Hw2]. by repeat split.
    + destruct Hr' as [e' ->]. split; [reflexivity|]. by exists e'.
    + done.
  - destruct Hr as [e' ->]. split; [reflexivity|]. by exists e'.
  - done.
Qed.

(** The loop over the files of a group, against the same loop calling the
    Single-File Fetcher: same world afterwards; the same paths when the
    latter returns; an exception when the latter raises. *)
Lemma rat_fetch_loop_refines doi folder files w :
  FS.exists_ (w_fs w) folder = true ->
  agree_up_to_exn
    (for_collect files (fun fname => zenodo_fetch false fname folder (Some doi) None) w)
    (for_collect files (rat_fetch_file doi folder) w)
    (fun w' => FS.exists_ (w_fs w') folder = true).
Proof.
  revert w.
  apply (for_collect_agree _ _ (fun w' => FS.exists_ (w_fs w') folder = true)).
  intros fname w Hfolder.
  destruct (rat_fetch_file_refines doi folder fname w Hfolder) as [Hw Hr].
  split; [exact Hw|].
  destruct (zenodo_fetch false fname folder (Some doi) None w) as [[p|e|] w1] eqn:Es;
    destruct (rat_fetch_file doi folder fname w) as [rg wg] eqn:Eg;
    cbn [fst snd] in Hw, Hr |- *; subst wg.
  - destruct Hr as [-> _]. split; [reflexivity|].
    eapply rat_fetch_file_keeps_exists; eauto.
  - destruct Hr as [_ Hr].
    destruct (checked_get _ w) as [[?|e0|] ?]; [| destruct Hr as [_ Hr] |];
      subst rg; eauto.
  - done.
Qed.

Lemma os_makedirs_exists folder ok w u w1 :
  os_makedirs folder ok w = (Ok u, w1) -> FS.exists_ (w_fs w1) folder = true.
Proof.
  intros H. apply lift_fs_ok_inv in H as (f & Hf & ->).
  apply isdir_exists. cbn. eapply makedirs_isdir; eauto.
Qed.


(** ** The Remote-Tree Fetcher: resolving the remote path *)

Lemma find_folder_none part folders :
  (forall f, f ∈ folders -> rfo_name f <> part) -> find_folder part folders = None.
Proof.
  unfold find_folder. induction folders as [|f l IH]; intros H; [reflexivity|].
  simpl. destruct (String.eqb (rfo_name f) part) eqn:E.
  - apply String.eqb_eq in E. exfalso. eapply H; [left | exact E].
  - apply IH. intros g Hg. apply H. by right.
Qed.

Lemma navigate_missing dataset cur parts part w :
  missing_segment cur parts part ->
  navigate dataset cur parts w
  = (Raise (Exn FileNotFoundError (osf_missing_msg part dataset)), w).
Proof.
  induction 1 as [cur part rest Hnone | cur part rest f m Hfind _ IH]; simpl.
  - by rewrite find_folder_none.
  - by rewrite Hfind.
Qed.

Lemma osf_connect_run token project w storage :
  w_osf_access w token project = None ->
  w_osf w !! project = Some storage ->
  osf_connect token project w = (Ok storage, w).
Proof. unfold osf_connect. by intros -> ->. Qed.

(** C6.  For a non-empty remote path, split at the separators and followed
    one folder level at a time from the storage root: when a segment is
    not found among the children of the folder reached so far, the
    Remote-Tree Fetcher raises [FileNotFoundError] with a message that
    names that segment and the whole path.  The destination folder has
    been created by then and nothing else has happened: no local file was
    opened, no download was started. *)
Theorem osf_fetch_missing_path unzip fuel dataset folder project token extract verbose
        w f storage part :
  dataset <> "" ->
  FS.makedirs true folder (w_fs w) = Ok f ->
  w_osf_access w token project = None ->
  w_osf w !! project = Some storage ->
  missing_segment storage (Py.split "/" (Py.strip "/" dataset)) part ->
  osf_fetch false unzip fuel dataset folder project token extract verbose w
    = (Raise (Exn FileNotFoundError
                ("Folder '" +:+ part +:+ "' not found when navigating path '" +:+
                 dataset +:+ "'.")),
       set_fs f w) /\
  w_trace (set_fs f w) = w_trace w /\
  opened (set_fs f w) = opened w.
Proof.
  intros Hne Hmk Hacc Hst Hmiss. split; [|by split].
  unfold osf_fetch.
  erewrite bind_run; [|unfold os_makedirs, lift_fs; rewrite Hmk; reflexivity].
  erewrite bind_run; [|by apply osf_connect_run].
  assert (Py.truthy (Some dataset) = true) as ->.
  { unfold Py.truthy. destruct dataset; [done | reflexivity]. }
  erewrite bind_raise; [reflexivity|]. by apply navigate_missing.
Qed.

Lemma osf_fetch_missing_path_witness :
  osf_fetch false sample_unzip 5 "sub/x" "dir" "un5ct" None true true osf_world
  = (Raise (Exn FileNotFoundError "Folder 'x' not found when navigating path 'sub/x'."),
     set_fs (<[ ["dir"] := FS.Dir ]> ∅) osf_world).
Proof.
  refine (proj1 (osf_fetch_missing_path sample_unzip 5 "sub/x" "dir" "un5ct" None
                   true true osf_world (<[ ["dir"] := FS.Dir ]> ∅) sample_storage "x"
                   _ _ _ _ _)).
  - discriminate.
  - vm_compute; reflexivity.
  - reflexivity.
  - vm_compute; reflexivity.
  - eapply missing_below; [vm_compute; reflexivity|].
    apply missing_here. intros g Hg. by apply elem_of_nil in Hg.
Defined.

(** ** The Remote Uploader *)

Lemma find_some_of_elem {A} (p : A -> bool) (l : list A) x :
  x ∈ l -> p x = true -> exists y, List.find p l = Some y /\ p y = true.
Proof.
  induction l as [|a l IH]; intros Hin Hp; [by apply elem_of_nil in Hin|].
  simpl. destruct (p a) eqn:E; [eauto|].
  apply elem_of_cons in Hin as [->|Hin]; [congruence | by apply IH].
Qed.

(** C8.  When the local file exists, the connection is made and the
    storage lists a file at the normalized remote path, an upload with
    [overwrite=False] returns without an error; the storage, the disk and
    the record of remote deletions and creations are as before: at most a
    message has been printed. *)
Theorem osf_upload_no_overwrite folder dataset project token verbose w storage existing :
  FS.isfile (w_fs w) folder = true ->
  w_osf_access w token project = None ->
  w_osf w !! project = Some storage ->
  existing ∈ rfo_files storage ->
  rf_path existing = "/" +:+ Py.strip "/" dataset ->
  exists w',
    osf_upload false folder dataset project token verbose false w = (Ok tt, w') /\
    w_osf w' = w_osf w /\
    w_fs w' = w_fs w /\
    (forall e, e ∈ w_trace w' -> e ∈ w_trace w \/ exists msg, e = EPrint msg) /\
    w' = if verbose
         then log (EPrint ("File '" +:+ Py.strip "/" dataset +:+
                           "' already exists. Skipping (overwrite=False).")) w
         else w.
Proof.
  intros Hfile Hacc Hst Hin Hpath. unfold osf_upload.
  erewrite bind_run; [|unfold os_path_isfile; rewrite Hfile; reflexivity].
  cbn [negb]. erewrite bind_run; [|by apply osf_connect_run]. cbn zeta.
  destruct (find_some_of_elem
              (fun f => String.eqb (rf_path f) ("/" +:+ Py.strip "/" dataset))
              (rfo_files storage) existing Hin) as (y & -> & _).
  { by apply String.eqb_eq. }
  destruct verbose; cbn [when].
  - eexists. split; [reflexivity|]. repeat split.
    intros e He. cbn in He. apply elem_of_app in He as [He|He]; [by left|].
    right. apply list_elem_of_singleton in He. eauto.
  - exists w. repeat split. intros e He. by left.
Qed.

Lemma osf_upload_no_overwrite_witness :
  exists w',
    osf_upload false "results.csv" "/Testing/results.csv" "un5ct" None false false
      upload_world = (Ok tt, w') /\
    w_osf w' = w_osf upload_world /\ w_fs w' = w_fs upload_world /\
    w_trace w' = [].
Proof.
  destruct (osf_upload_no_overwrite "results.csv" "/Testing/results.csv" "un5ct" None
              false upload_world
              (RFolder "osfstorage"
                 [RFile "results.csv" "/Testing/results.csv" (Body "old") None] [])
              (RFile "results.csv" "/Testing/results.csv" (Body "old") None))
    as (w' & Hrun & Hosf & Hfs & _ & Hw').
  - vm_compute; reflexivity.
  - reflexivity.
  - vm_compute; reflexivity.
  - left.
  - vm_compute; reflexivity.
  - exists w'. repeat split; [exact Hrun | exact Hosf | exact Hfs |].
    rewrite Hw'. reflexivity.
Defined.

(** ** Reasoning about effects *)

Section Respects.

Variable R : world -> world -> Prop.
Hypothesis R_refl : forall w, R w w.
Hypothesis R_trans : forall w1 w2 w3, R w1 w2 -> R w2 w3 -> R w1 w3.

Lemma respects_ret {A} (a : A) : respects R (ret a).
Proof. intros w r w' H. inversion H. apply R_refl. Qed.

Lemma respects_raise {A} e : respects R (@raise A e).
Proof. intros w r w' H. inversion H. apply R_refl. Qed.

Lemma respects_out_of_fuel {A} : respects R (@out_of_fuel A).
Proof. intros w r w' H. inversion H. apply R_refl. Qed.

Lemma respects_bind {A B} (c : M A) (k : A -> M B) :
  respects R c -> (forall a, respects R (k a)) -> respects R (bind c k).
Proof.
  intros Hc Hk w r w'. unfold bind.
  destruct (c w) as [[a|e|] w1] eqn:E; intros H.
  - eapply R_trans; [eapply Hc; eauto | eapply Hk; eauto].
  - inversion H; subst. eapply Hc; eauto.
  - inversion H; subst. eapply Hc; eauto.
Qed.

Lemma respects_try_except {A} (c : M A) (h : exn -> M A) :
  respects R c -> (forall e, respects R (h e)) -> respects R (try_except c h).
Proof.
  intros Hc Hh w r w'. unfold try_except.
  destruct (c w) as [[a|e|] w1] eqn:E; intros H.
  - inversion H; subst. eapply Hc; eauto.
  - eapply R_trans; [eapply Hc; eauto | eapply Hh; eauto].
  - inversion H; subst. eapply Hc; eauto.
Qed.

Lemma respects_for_each {A} (l : list A) (body : A -> M unit) :
  (forall x, x ∈ l -> respects R (body x)) -> respects R (for_each l body).
Proof.
  induction l as [|x l IH]; intros Hbody.
  - apply respects_ret.
  - rewrite for_each_cons. apply respects_bind; [apply Hbody; left|].
    intros _. apply IH. intros y Hy. apply Hbody. by right.
Qed.

Lemma respects_when b (c : M unit) : respects R c -> respects R (when b c).
Proof. destruct b; [done|]. intros _. apply respects_ret. Qed.

End Respects.

Section RaisesOnly.

Variable P : exn -> world -> Prop.

Lemma raises_only_ret {A} (a : A) : raises_only P (ret a).
Proof. intros w e w' H. inversion H. Qed.

Lemma raises_only_bind {A B} (c : M A) (k : A -> M B) :
  raises_only P c -> (forall a, raises_only P (k a)) -> raises_only P (bind c k).
Proof.
  intros Hc Hk w e w'. unfold bind.
  destruct (c w) as [[a|e0|] w1] eqn:E; intros H.
  - eapply Hk; eauto.
  - inversion H; subst. eapply Hc; eauto.
  - discriminate.
Qed.

Lemma raises_only_try_except {A} (c : M A) (h : exn -> M A) :
  (forall e, raises_only P (h e)) -> raises_only P (try_except c h).
Proof.
  intros Hh w e w'. unfold try_except.
  destruct (c w) as [[a|e0|] w1] eqn:E; intros H; [discriminate| |discriminate].
  eapply Hh; eauto.
Qed.

Lemma raises_only_for_each {A} (l : list A) (body : A -> M unit) :
  (forall x, x ∈ l -> raises_only P (body x)) -> raises_only P (for_each l body).
Proof.
  induction l as [|x l IH]; intros Hbody.
  - apply raises_only_ret.
  - rewrite for_each_cons. apply raises_only_bind; [apply Hbody; left|].
    intros _. apply IH. intros y Hy. apply Hbody. by right.
Qed.

Lemma raises_only_when b (c : M unit) : raises_only P c -> raises_only P (when b c).
Proof. destruct b; [done|]. intros _. apply raises_only_ret. Qed.

Lemma raises_only_print msg : raises_only P (print msg).
Proof. intros w e w' H. inversion H. Qed.

End RaisesOnly.

(** ** The Remote-Tree Fetcher: mirroring the tree *)

Lemma opened_log e w :
  opened (log e w) =
  (opened w ++ match e with EOpen l => [l] | _ => [] end)%list.
Proof. unfold opened, log. cbn [w_trace]. rewrite omap_app. by destruct e. Qed.

Lemma opened_set_fs f w : opened (set_fs f w) = opened w.
Proof. reflexivity. Qed.

(** Whatever happens to a file, its loop body ends normally, having
    opened the local file once. *)
Lemma download_file_ok verbose local file w :
  exists w',
    download_file verbose local file w = (Ok tt, w') /\
    opened w' = (opened w ++ [Py.path_join local (rf_name file)])%list.
Proof.
  unfold download_file, try_except, open_wb, write_to, bind, write_file, lift_fs,
    when, print, raise, ret.
  cbn [w_fs log set_fs].
  repeat (case_match; cbn [w_fs log set_fs] in *; simplify_eq);
    try (by exfalso; eapply fs_write_file_total);
    (eexists; split; [reflexivity|]);
    unfold opened; cbn [w_trace log set_fs];
    rewrite ?omap_app; cbn [omap]; by rewrite ?app_nil_r.
Qed.

(** A failed download is answered by a warning, when [verbose] is set. *)
Lemma download_file_warns local file w e partial :
  rf_payload file = Broken e partial ->
  exists e',
    last (w_trace (snd (download_file true local file w)))
    = Some (EPrint ("Warning downloading " +:+ rf_name file +:+ ": " +:+ exn_msg e')).
Proof.
  intros Hp.
  unfold download_file, try_except, open_wb, write_to, bind, write_file, lift_fs,
    when, print, raise, ret.
  rewrite Hp. cbn [w_fs log set_fs].
  repeat (case_match; cbn [w_fs log set_fs] in *; simplify_eq);
    try (by exfalso; eapply fs_write_file_total);
    cbn [snd log w_trace]; rewrite last_snoc; eauto.
Qed.

Lemma download_files_ok verbose local files : forall w,
  exists w',
    for_each files (download_file verbose local) w = (Ok tt, w') /\
    opened w' = (opened w ++ map (fun f => Py.path_join local (rf_name f)) files)%list.
Proof.
  induction files as [|file files IH]; intros w.
  - exists w. split; [reflexivity|]. by rewrite app_nil_r.
  - destruct (download_file_ok verbose local file w) as (w1 & H1 & Ho1).
    destruct (IH w1) as (w2 & H2 & Ho2).
    exists w2. rewrite for_each_cons. erewrite bind_run by exact H1.
    split; [exact H2|]. rewrite Ho2, Ho1. simpl. by rewrite <- app_assoc.
Qed.

(** Induction on a remote tree: the sub-folders come with the property. *)
Lemma rfolder_tree_ind (P : rfolder -> Prop) :
  (forall name files folders, Forall P folders -> P (RFolder name files folders)) ->
  forall cur, P cur.
Proof.
  intros Hstep. fix IH 1. intros [name files folders]. apply Hstep.
  induction folders as [|sub folders IHf]; constructor; [apply IH | exact IHf].
Qed.

Lemma makedirs_failure_intro d e w :
  FS.makedirs true d (w_fs w) = Raise e -> makedirs_failure e w.
Proof. intros H. by exists d. Qed.

(** The traversal ends.  When it returns it has opened the local file of
    every file of the tree, once, in traversal order; when it raises, the
    exception is the failure to create a local directory. *)
Lemma download_outcome verbose cur : forall local w,
  match download verbose cur local w with
  | (Ok _, w') => opened w' = (opened w ++ local_files cur local)%list
  | (Raise e, w') => makedirs_failure e w'
  | (OutOfFuel, _) => False
  end.
Proof.
  induction cur as [name files folders IH] using rfolder_tree_ind. intros local w.
  cbn [download local_files]. unfold bind at 1, os_makedirs, lift_fs.
  pose proof (fs_makedirs_total true local (w_fs w)) as Htot.
  destruct (FS.makedirs true local (w_fs w)) as [f|e|] eqn:Emk; [| by exists local | done].
  destruct (download_files_ok verbose local files (set_fs f w)) as (w1 & Hfiles & Ho1).
  erewrite bind_run by exact Hfiles.
  rewrite opened_set_fs in Ho1.
  assert (forall w1 pre, opened w1 = (opened w ++ pre)%list ->
          match for_each folders
                  (fun sub => download verbose sub (Py.path_join local (rfo_name sub))) w1
          with
          | (Ok _, w') =>
              opened w' =
              (opened w ++ pre ++
               flat_map (fun sub => local_files sub (Py.path_join local (rfo_name sub)))
                 folders)%list
          | (Raise e, w') => makedirs_failure e w'
          | (OutOfFuel, _) => False
          end) as Hsub.
  { clear w1 Hfiles Ho1. induction IH as [|sub folders Hsub _ IHf]; intros w1 pre Ho.
    - rewrite for_each_nil. cbn. by rewrite app_nil_r.
    - rewrite for_each_cons. unfold bind.
      specialize (Hsub (Py.path_join local (rfo_name sub)) w1).
      destruct (download verbose sub _ w1) as [[[]|e|] w2]; [|done|done].
      specialize (IHf w2 (pre ++ local_files sub (Py.path_join local (rfo_name sub)))%list).
      rewrite Hsub, Ho, <- !app_assoc in IHf. specialize (IHf eq_refl).
      destruct (for_each folders _ w2) as [[[]|e|] w3]; [|done|done].
      cbn [flat_map]. exact IHf. }
  specialize (Hsub w1 _ Ho1).
  by destruct (for_each folders _ w1) as [[[]|e|] w2].
Qed.

(** ** The Remote-Tree Fetcher: what the extraction step can do *)

Lemma respects_lift_fs (R : world -> world -> Prop) op :
  (forall w, R w w) ->
  (forall w f, op (w_fs w) = Ok f -> R w (set_fs f w)) ->
  respects R (lift_fs op).
Proof.
  intros Hrefl Hop w r w'. unfold lift_fs.
  destruct (op (w_fs w)) as [f|e|] eqn:E; intros H; inversion H; subst; eauto.
Qed.

Lemma respects_pure (R : world -> world -> Prop) {A} (g : world -> A) :
  (forall w, R w w) -> respects R (fun w => (Ok (g w), w)).
Proof. intros Hrefl w r w' H. inversion H. apply Hrefl. Qed.

Lemma respects_ZipFile (R : world -> world -> Prop) unzip zip_path :
  (forall w, R w w) -> respects R (ZipFile unzip zip_path).
Proof.
  intros Hrefl w r w'. unfold ZipFile.
  repeat case_match; intros Hrun; inversion Hrun; apply Hrefl.
Qed.

(** Extraction steps stay within any relation on worlds that is a
    preorder, that every change of the disk made by [os.makedirs],
    [open(.., 'wb')] and [os.remove] satisfies, and that printing
    satisfies. *)
Section ExtractionRespects.

Variable R : world -> world -> Prop.
Hypothesis R_refl : forall w, R w w.
Hypothesis R_trans : forall w1 w2 w3, R w1 w2 -> R w2 w3 -> R w1 w3.
Hypothesis R_makedirs : forall ok p w f, FS.makedirs ok p (w_fs w) = Ok f -> R w (set_fs f w).
Hypothesis R_write : forall p d w f, FS.write_file p d (w_fs w) = Ok f -> R w (set_fs f w).
Hypothesis R_print : forall msg w, R w (log (EPrint msg) w).
Variable unzip : string -> option (list zmember).

Lemma respects_print msg : respects R (print msg).
Proof. intros w r w' H. inversion H. apply R_print. Qed.

Lemma respects_extract_member path m : respects R (extract_member path m).
Proof.
  unfold extract_member.
  apply respects_bind; [done | by apply respects_pure |]. intros upper_present.
  apply respects_bind; [done | |].
  { destruct (negb upper_present); [|by apply respects_ret].
    apply respects_lift_fs; [done|]. intros w f. apply R_makedirs. }
  intros _. destruct (Py.endswith (zm_name m) "/").
  - apply respects_bind; [done | by apply respects_pure |]. intros present.
    destruct present; [by apply respects_ret|].
    apply respects_lift_fs; [done|]. intros w f. apply R_makedirs.
  - apply respects_bind; [done | |].
    { apply respects_lift_fs; [done|]. intros w f. apply R_write. }
    intros _. destruct (zm_crc_ok m); [by apply respects_ret | by apply respects_raise].
Qed.

Lemma respects_unzip_into zip_path extract_to :
  respects R (unzip_into unzip zip_path extract_to).
Proof.
  unfold unzip_into.
  apply respects_bind; [done | by apply respects_ZipFile |]. intros zip_ref.
  apply respects_bind; [done | |].
  { repeat case_match; by first [apply respects_ret | apply respects_raise]. }
  intros _. apply respects_for_each; [done..|]. intros m _. apply respects_extract_member.
Qed.

End ExtractionRespects.

Section WalkRespects.

Variable R : world -> world -> Prop.
Hypothesis R_refl : forall w, R w w.
Hypothesis R_trans : forall w1 w2 w3, R w1 w2 -> R w2 w3 -> R w1 w3.
Hypothesis R_disk : forall w f, R w (set_fs f w).
Hypothesis R_print : forall msg w, R w (log (EPrint msg) w).
Variable unzip : string -> option (list zmember).

Lemma respects_extract_archive verbose dirpath filename :
  respects R (extract_archive unzip verbose dirpath filename).
Proof.
  unfold extract_archive. destruct (Py.endswith _ _); [|by apply respects_ret].
  apply respects_bind; [done | |].
  { apply respects_lift_fs; [done|]. intros w f _. apply R_disk. }
  intros _. apply respects_try_except; [done | |].
  - apply respects_bind; [done | |].
    { apply respects_unzip_into; try done; intros; apply R_disk. }
    intros _. apply respects_bind; [done | |].
    { apply respects_lift_fs; [done|]. intros w f _. apply R_disk. }
    intros _. apply respects_when; [done|]. by apply respects_print.
  - intros e. apply respects_when; [done|]. by apply respects_print.
Qed.

Lemma respects_walk_extract fuel verbose : forall dirpath,
  respects R (walk_extract unzip fuel verbose dirpath).
Proof.
  induction fuel as [|fuel IH]; intros dirpath; cbn [walk_extract].
  - by apply respects_out_of_fuel.
  - apply respects_bind; [done | by apply respects_pure |].
    intros [[dirnames filenames]|]; [|by apply respects_ret].
    apply respects_bind; [done | |].
    + apply respects_for_each; [done..|]. intros x _. apply respects_extract_archive.
    + intros _. apply respects_for_each; [done..|]. intros d _. apply IH.
Qed.

End WalkRespects.

Lemma walk_extract_same_opened unzip fuel verbose dirpath :
  respects same_opened (walk_extract unzip fuel verbose dirpath).
Proof.
  apply respects_walk_extract; unfold same_opened.
  - done.
  - intros w1 w2 w3 H12 H23. by rewrite H23.
  - intros w f. apply opened_set_fs.
  - intros msg w. by rewrite opened_log, app_nil_r.
Qed.

(** The extraction step raises only when a directory cannot be created:
    everything else is caught. *)
Lemma extract_archive_raises unzip verbose dirpath filename :
  raises_only makedirs_failure (extract_archive unzip verbose dirpath filename).
Proof.
  unfold extract_archive. destruct (Py.endswith _ _); [|apply raises_only_ret].
  apply raises_only_bind.
  - intros w e w' H. unfold os_makedirs, lift_fs in H.
    destruct (FS.makedirs true _ (w_fs w)) eqn:E; inversion H; subst.
    eapply makedirs_failure_intro; eauto.
  - intros _. apply raises_only_try_except. intros e.
    apply raises_only_when, raises_only_print.
Qed.

Lemma walk_extract_raises unzip fuel verbose : forall dirpath,
  raises_only makedirs_failure (walk_extract unzip fuel verbose dirpath).
Proof.
  induction fuel as [|fuel IH]; intros dirpath; cbn [walk_extract].
  - intros w e w' H. inversion H.
  - apply raises_only_bind; [intros w e w' H; inversion H|].
    intros [[dirnames filenames]|]; [|apply raises_only_ret].
    apply raises_only_bind.
    + apply raises_only_for_each. intros x _. apply extract_archive_raises.
    + intros _. apply raises_only_for_each. intros d _. apply IH.
Qed.

(** ** The Remote-Tree Fetcher: one archive *)

Lemma kinds_kept_refl w : kinds_kept w w.
Proof. intros k. split; eauto. Qed.

Lemma kinds_kept_trans w1 w2 w3 : kinds_kept w1 w2 -> kinds_kept w2 w3 -> kinds_kept w1 w3.
Proof.
  intros H12 H23 k. destruct (H12 k) as [Hf Hd]. destruct (H23 k) as [Hf' Hd']. split.
  - intros d Hk. destruct (Hf d Hk) as [d' Hk']. eauto.
  - eauto.
Qed.

Lemma kinds_kept_makedirs ok p w f :
  FS.makedirs ok p (w_fs w) = Ok f -> kinds_kept w (set_fs f w).
Proof.
  intros H k. cbn. split.
  - intros d Hk. exists d. eapply makedirs_keeps; eauto.
  - intros Hk. eapply makedirs_keeps; eauto.
Qed.

Lemma fs_write_file_inv p data fs fs' :
  FS.write_file p data fs = Ok fs' ->
  exists k, FS.resolve p = Some k /\ k <> [] /\ fs !! k <> Some FS.Dir /\
            FS.lookup fs (removelast k) = Some FS.Dir /\
            fs' = <[k := FS.File data]> fs.
Proof.
  unfold FS.write_file. destruct (Py.endswith p "/"); [discriminate|].
  destruct (FS.resolve p) as [[|s r]|]; [discriminate| |discriminate].
  destruct (FS.lookup fs (removelast (s :: r))) as [[]|] eqn:Ep; try discriminate.
  destruct (fs !! (s :: r)) as [[]|] eqn:E; intros H; inversion H; subst;
    exists (s :: r); repeat split; congruence.
Qed.

Lemma kinds_kept_write p data w f :
  FS.write_file p data (w_fs w) = Ok f -> kinds_kept w (set_fs f w).
Proof.
  intros H. apply fs_write_file_inv in H as (k0 & _ & _ & Hnd & _ & ->).
  intros k. cbn. destruct (decide (k0 = k)) as [<-|Hne].
  - rewrite lookup_insert_eq. split; [eauto | congruence].
  - rewrite lookup_insert_ne by exact Hne. split; eauto.
Qed.

Lemma kinds_kept_print msg w : kinds_kept w (log (EPrint msg) w).
Proof. intros k. cbn. split; eauto. Qed.

Lemma kinds_kept_isfile w w' p :
  kinds_kept w w' -> FS.isfile (w_fs w) p = true -> FS.isfile (w_fs w') p = true.
Proof.
  unfold FS.isfile. intros Hk. destruct (FS.resolve p) as [[|s r]|]; [done| |done].
  unfold FS.lookup. destruct (w_fs w !! (s :: r)) as [[d|]|] eqn:E; [|done|done].
  destruct (Hk (s :: r)) as [Hf _]. destruct (Hf d E) as [d' ->]. done.
Qed.

Lemma kinds_kept_isdir w w' p :
  kinds_kept w w' -> FS.isdir (w_fs w) p = true -> FS.isdir (w_fs w') p = true.
Proof.
  unfold FS.isdir. intros Hk. destruct (FS.resolve p) as [[|s r]|]; [done| |done].
  unfold FS.lookup. destruct (w_fs w !! (s :: r)) as [[d|]|] eqn:E; [done| |done].
  destruct (Hk (s :: r)) as [_ Hd]. by rewrite (Hd E).
Qed.

Lemma unzip_into_kinds_kept unzip zip_path extract_to :
  respects kinds_kept (unzip_into unzip zip_path extract_to).
Proof.
  apply respects_unzip_into.
  - apply kinds_kept_refl.
  - apply kinds_kept_trans.
  - apply kinds_kept_makedirs.
  - apply kinds_kept_write.
Qed.


(** ** Paths and their components *)

Lemma append_nil (t : string) : "" +:+ t = t.
Proof. reflexivity. Qed.

Lemma append_cons c (s t : string) : String c s +:+ t = String c (s +:+ t).
Proof. reflexivity. Qed.

Lemma append_assoc (a b c : string) : (a +:+ b) +:+ c = a +:+ (b +:+ c).
Proof.
  induction a as [|x a IH]; [reflexivity|]. by rewrite !append_cons, IH.
Qed.

Lemma endswith_inv s p : Py.endswith s p = true -> exists pre, s = pre +:+ p.
Proof.
  induction s as [|c r IH]; cbn [Py.endswith]; intros H;
    apply orb_true_iff in H as [H|H].
  - apply String.eqb_eq in H. exists "". by subst.
  - done.
  - apply String.eqb_eq in H. exists "". by subst.
  - destruct (IH H) as [pre ->]. by exists (String c pre).
Qed.

Lemma split_nonempty sep s : Py.split sep s <> [].
Proof.
  destruct s as [|c r]; cbn [Py.split]; [done|].
  destruct (Ascii.eqb c sep); [done|]. by destruct (Py.split sep r).
Qed.

Lemma split_app_sep a b :
  Py.split "/" (a +:+ String "/" b) = (Py.split "/" a ++ Py.split "/" b)%list.
Proof.
  induction a as [|c r IH]; [reflexivity|].
  rewrite append_cons. cbn [Py.split]. destruct (Ascii.eqb c "/").
  - by rewrite IH.
  - rewrite IH. pose proof (split_nonempty "/" r) as Hne.
    by destruct (Py.split "/" r).
Qed.

Lemma split_no_sep x : Py.has_sep x = false -> Py.split "/" x = [x].
Proof.
  induction x as [|c r IH]; [reflexivity|]. cbn [Py.has_sep Py.split].
  intros H. apply orb_false_iff in H as [-> H]. by rewrite (IH H).
Qed.

Lemma split_parts_no_sep s : Forall (fun x => Py.has_sep x = false) (Py.split "/" s).
Proof.
  induction s as [|c r IH]; cbn [Py.split]; [by constructor|].
  destruct (Ascii.eqb c "/") eqn:E; [by constructor|].
  destruct (Py.split "/" r) as [|h t]; [constructor; [|done]; cbn; by rewrite E|].
  inversion IH; subst. constructor; [|done]. cbn. by rewrite E.
Qed.

Lemma split_join segs :
  segs <> [] -> Forall (fun x => Py.has_sep x = false) segs ->
  Py.split "/" (Py.join_with "/" segs) = segs.
Proof.
  induction segs as [|x [|y r] IH]; intros Hne Hall; [done| |].
  - cbn. apply split_no_sep. by inversion Hall.
  - inversion Hall; subst.
    change (Py.join_with "/" (x :: y :: r))
      with (x +:+ String "/" (Py.join_with "/" (y :: r))).
    rewrite split_app_sep, IH by done. by rewrite split_no_sep.
Qed.

Lemma is_name_inv x :
  Py.is_name x = true ->
  String.eqb x "" = false /\ String.eqb x "." = false /\ String.eqb x ".." = false /\
  Py.has_sep x = false.
Proof.
  unfold Py.is_name. intros H. apply andb_true_iff in H as [H1 H2].
  apply negb_true_iff in H1, H2.
  apply orb_false_iff in H1 as [H1 H3]. apply orb_false_iff in H1 as [H1 H4].
  done.
Qed.

Lemma normalize_app acc l1 l2 :
  FS.normalize acc (l1 ++ l2) = FS.normalize (rev (FS.normalize acc l1)) l2.
Proof.
  revert acc. induction l1 as [|s r IH]; intros acc; cbn [FS.normalize app].
  - by rewrite rev_involutive.
  - by repeat case_match.
Qed.

Lemma normalize_names acc l :
  Forall (fun x => Py.is_name x = true) l -> FS.normalize acc l = (rev acc ++ l)%list.
Proof.
  revert acc. induction l as [|s r IH]; intros acc Hall; cbn [FS.normalize].
  - by rewrite app_nil_r.
  - inversion Hall as [|? ? Hs Hr]; subst.
    apply is_name_inv in Hs as (-> & -> & -> & _). cbn [orb].
    rewrite IH by done. cbn [rev]. by rewrite <- app_assoc.
Qed.

Lemma arc_components_names name :
  Forall (fun x => Py.is_name x = true) (arc_components name).
Proof.
  unfold arc_components. apply Forall_forall. intros x Hx.
  apply list_elem_of_In, filter_In in Hx as [Hin Hx].
  unfold Py.is_name. rewrite Hx. cbn [andb]. apply negb_true_iff.
  pose proof (split_parts_no_sep name) as Hall.
  rewrite Forall_forall in Hall. apply Hall. by apply list_elem_of_In.
Qed.

(** The components of a join with a relative path made of names are the
    components of the directory followed by those names. *)
Lemma components_join d segs :
  Forall (fun x => Py.is_name x = true) segs ->
  FS.components (Py.path_join d (Py.join_with "/" segs)) = (FS.components d ++ segs)%list.
Proof.
  intros Hall. set (a := Py.join_with "/" segs).
  assert (forall acc, FS.normalize acc (Py.split "/" a) = (rev acc ++ segs)%list) as Ha.
  { intros acc. destruct segs as [|x r] eqn:Es.
    - cbn. by rewrite app_nil_r.
    - subst a. rewrite split_join; [by apply normalize_names | done |].
      eapply Forall_impl; [exact Hall|]. intros y Hy.
      by apply is_name_inv in Hy as (_ & _ & _ & Hy). }
  assert (Py.startswith a "/" = false) as Hstart.
  { subst a. destruct segs as [|x r]; [reflexivity|].
    inversion Hall as [|? ? Hx _]; subst. apply is_name_inv in Hx as (Hx & _ & _ & Hs).
    destruct x as [|c x]; [done|]. cbn in Hs. apply orb_false_iff in Hs as [Hc _].
    assert (exists t, Py.join_with "/" (String c x :: r) = String c t) as [t ->].
    { destruct r; cbn [Py.join_with]; rewrite ?append_cons; eauto. }
    cbn [Py.startswith]. by rewrite Hc. }
  unfold Py.path_join. rewrite Hstart. unfold FS.components.
  destruct (String.eqb d "") eqn:Ed.
  - apply String.eqb_eq in Ed. subst d. cbn [orb]. by rewrite append_nil, Ha.
  - cbn [orb]. destruct (Py.endswith d "/") eqn:Ee.
    + apply endswith_inv in Ee as [d' ->].
      rewrite append_assoc. change ("/" +:+ a) with (String "/" a).
      rewrite !split_app_sep, !normalize_app. cbn [Py.split FS.normalize].
      cbn. rewrite Ha. by rewrite !rev_involutive.
    + change (d +:+ "/" +:+ a) with (d +:+ String "/" a).
      rewrite split_app_sep, normalize_app, Ha. by rewrite rev_involutive.
Qed.

Lemma substring_length_le n : forall s, String.length (String.substring 0 n s) <= n.
Proof.
  induction n as [|n IH]; intros [|c s]; cbn; try lia.
  specialize (IH s). lia.
Qed.

Lemma drop_last_shorter s : s <> "" -> Py.drop_last 4 s <> s.
Proof.
  intros Hne Heq. unfold Py.drop_last in Heq.
  pose proof (substring_length_le (String.length s - 4) s) as Hle.
  rewrite Heq in Hle. destruct s; [done|]. cbn in Hle. lia.
Qed.

(** ** The Remote-Tree Fetcher: what extraction leaves on disk *)

Lemma os_makedirs_keeps p ok w u w' k n :
  os_makedirs p ok w = (Ok u, w') -> w_fs w !! k = Some n -> w_fs w' !! k = Some n.
Proof.
  intros H Hk. apply lift_fs_ok_inv in H as (f & Hf & ->). cbn.
  eapply makedirs_keeps; eauto.
Qed.

(** A member that is extracted leaves the other entries of the disk as
    they are. *)
Lemma extract_member_keeps path m w w' k n :
  extract_member path m w = (Ok tt, w') ->
  w_fs w !! k = Some n ->
  (Py.endswith (zm_name m) "/" = false -> FS.resolve (member_target path m) <> Some k) ->
  w_fs w' !! k = Some n.
Proof.
  unfold extract_member. intros H Hk Hother.
  apply bind_ok_inv in H as (upper_present & w1 & Hup & H).
  inversion Hup; subst upper_present w1; clear Hup.
  apply bind_ok_inv in H as ([] & w1 & Hmk & H).
  assert (w_fs w1 !! k = Some n) as Hk1.
  { match type of Hmk with (if ?b then _ else _) _ = _ => destruct b end;
      [eapply os_makedirs_keeps; eauto | inversion Hmk; by subst]. }
  clear Hmk. destruct (Py.endswith (zm_name m) "/").
  - apply bind_ok_inv in H as (present & w2 & Hp & H).
    inversion Hp; subst present w2; clear Hp.
    destruct (FS.isdir _ _); [inversion H; by subst | eapply os_makedirs_keeps; eauto].
  - apply bind_ok_inv in H as ([] & w2 & Hwr & H).
    assert (w' = w2) as -> by (destruct (zm_crc_ok m); inversion H; by subst).
    apply lift_fs_ok_inv in Hwr as (f & Hwr & ->).
    apply fs_write_file_inv in Hwr as (k0 & Hres & _ & _ & _ & ->). cbn.
    rewrite lookup_insert_ne; [done|]. intros ->. by apply Hother.
Qed.

(** A file member that is extracted is on disk with its bytes. *)
Lemma extract_member_written path m w w' :
  extract_member path m w = (Ok tt, w') ->
  Py.endswith (zm_name m) "/" = false ->
  exists k, FS.resolve (member_target path m) = Some k /\ k <> [] /\
            w_fs w' !! k = Some (FS.File (zm_data m)).
Proof.
  unfold extract_member. intros H Hfile. rewrite Hfile in H.
  apply bind_ok_inv in H as (upper_present & w1 & _ & H).
  apply bind_ok_inv in H as ([] & w2 & _ & H).
  apply bind_ok_inv in H as ([] & w3 & Hwr & H).
  assert (w' = w3) as -> by (destruct (zm_crc_ok m); inversion H; by subst).
  apply lift_fs_ok_inv in Hwr as (f & Hwr & ->).
  apply fs_write_file_inv in Hwr as (k0 & Hres & Hne & _ & _ & ->).
  exists k0. repeat split; [done..|]. cbn. apply lookup_insert_eq.
Qed.

(** A directory member that is extracted is a directory on disk. *)
Lemma extract_member_made path m w w' :
  extract_member path m w = (Ok tt, w') ->
  Py.endswith (zm_name m) "/" = true ->
  FS.isdir (w_fs w') (member_target path m) = true.
Proof.
  unfold extract_member. intros H Hdir. rewrite Hdir in H.
  apply bind_ok_inv in H as (upper_present & w1 & _ & H).
  apply bind_ok_inv in H as ([] & w2 & _ & H).
  apply bind_ok_inv in H as (present & w3 & Hp & H).
  inversion Hp; subst present w3; clear Hp.
  destruct (FS.isdir (w_fs w2) (member_target path m)) eqn:E; [inversion H; by subst|].
  apply lift_fs_ok_inv in H as (f & Hmk & ->). cbn. eapply makedirs_isdir; eauto.
Qed.

Lemma extract_member_kinds_kept path m : respects kinds_kept (extract_member path m).
Proof.
  apply respects_extract_member.
  - apply kinds_kept_refl.
  - apply kinds_kept_trans.
  - apply kinds_kept_makedirs.
  - apply kinds_kept_write.
Qed.

Lemma extractall_keeps path ms : forall w w' k n,
  extractall ms path w = (Ok tt, w') ->
  w_fs w !! k = Some n ->
  (forall m, m ∈ ms -> Py.endswith (zm_name m) "/" = false ->
             FS.resolve (member_target path m) <> Some k) ->
  w_fs w' !! k = Some n.
Proof.
  unfold extractall. induction ms as [|m ms IH]; intros w w' k n H Hk Hother.
  - inversion H; by subst.
  - rewrite for_each_cons in H. apply bind_ok_inv in H as ([] & w1 & Hm & H).
    eapply IH; [exact H | | intros m' Hm'; apply Hother; by right].
    eapply extract_member_keeps; [exact Hm | exact Hk |]. apply Hother. by left.
Qed.

(** After [extractall] every file member is on disk, with the bytes of a
    member of the same target (its own, unless a later member has the same
    target), and every directory member is a directory. *)
Lemma extractall_contents path ms : forall w w',
  extractall ms path w = (Ok tt, w') ->
  forall m, m ∈ ms ->
    if Py.endswith (zm_name m) "/"
    then FS.isdir (w_fs w') (member_target path m) = true
    else exists m' k,
           m' ∈ ms /\ Py.endswith (zm_name m') "/" = false /\
           FS.resolve (member_target path m) = Some k /\ k <> [] /\
           FS.resolve (member_target path m') = Some k /\
           w_fs w' !! k = Some (FS.File (zm_data m')).
Proof.
  unfold extractall. induction ms as [|m0 ms IH]; intros w w' H m Hin.
  - by apply elem_of_nil in Hin.
  - rewrite for_each_cons in H. apply bind_ok_inv in H as ([] & w1 & Hm0 & H).
    assert (Hlater : m ∈ ms ->
      if Py.endswith (zm_name m) "/"
      then FS.isdir (w_fs w') (member_target path m) = true
      else exists m' k,
             m' ∈ m0 :: ms /\ Py.endswith (zm_name m') "/" = false /\
             FS.resolve (member_target path m) = Some k /\ k <> [] /\
             FS.resolve (member_target path m') = Some k /\
             w_fs w' !! k = Some (FS.File (zm_data m'))).
    { intros Hms. specialize (IH w1 w' H m Hms).
      destruct (Py.endswith (zm_name m) "/"); [exact IH|].
      destruct IH as (m' & k & Hm' & ?). exists m', k. split; [by right | done]. }
    apply elem_of_cons in Hin as [->|Hin]; [|by apply Hlater].
    destruct (Py.endswith (zm_name m0) "/") eqn:Ekind.
    + eapply kinds_kept_isdir; [|eapply extract_member_made; eauto].
      eapply (respects_for_each kinds_kept kinds_kept_refl kinds_kept_trans);
        [|exact H].
      intros x _. apply extract_member_kinds_kept.
    + destruct (extract_member_written path m0 w w1 Hm0 Ekind) as (k & Hres & Hne & Hk).
      destruct (decide (Exists (fun m' => Py.endswith (zm_name m') "/" = false /\
                                          FS.resolve (member_target path m') = Some k) ms))
        as [Hex|Hnone].
      * apply Exists_exists in Hex as (m' & Hm' & Hkind' & Hres').
        specialize (IH w1 w' H m' Hm'). rewrite Hkind' in IH.
        destruct IH as (m'' & k' & Hm'' & Hkind'' & Hr1 & Hne' & Hr2 & Hk').
        assert (k' = k) as -> by congruence.
        exists m'', k. split; [by right | done].
      * exists m0, k. split; [by left|]. repeat split; [done..|].
        eapply (extractall_keeps path ms w1 w'); [exact H | exact Hk |].
        intros m' Hm' Hkind' Hres'. apply Hnone. apply Exists_exists. eauto.
Qed.

Lemma isdir_delete_file fs p kz d :
  FS.isdir fs p = true -> fs !! kz = Some (FS.File d) ->
  FS.isdir (delete kz fs) p = true.
Proof.
  unfold FS.isdir. destruct (FS.resolve p) as [[|s r]|]; [done| |done].
  unfold FS.lookup. intros H Hz.
  destruct (fs !! (s :: r)) as [[]|] eqn:E; try done.
  rewrite lookup_delete_ne; [by rewrite E | congruence].
Qed.

Lemma read_file_inv p w data w' :
  read_file p w = (Ok data, w') ->
  exists k, FS.resolve p = Some k /\ k <> [] /\ w_fs w !! k = Some (FS.File data) /\ w' = w.
Proof.
  unfold read_file. destruct (FS.resolve p) as [k|]; [|discriminate].
  destruct k as [|s r]; cbn [FS.lookup]; [discriminate|].
  destruct (w_fs w !! (s :: r)) as [[d|]|] eqn:E; intros H; inversion H; subst.
  exists (s :: r). by repeat split.
Qed.

Lemma resolve_components p k : FS.resolve p = Some k -> k = FS.components p.
Proof. unfold FS.resolve. destruct (String.eqb p ""); congruence. Qed.

(** The archive is no member's target: members go below the extraction
    directory, whose name differs from the archive's. *)
Lemma member_target_not_archive dirpath filename m :
  Py.is_name filename = true ->
  Py.is_name (Py.drop_last 4 filename) = true ->
  FS.components (member_target (Py.path_join dirpath (Py.drop_last 4 filename)) m)
  <> FS.components (Py.path_join dirpath filename).
Proof.
  intros Hname Hstem. unfold member_target.
  rewrite components_join by apply arc_components_names.
  change (Py.drop_last 4 filename) with (Py.join_with "/" [Py.drop_last 4 filename]).
  change filename with (Py.join_with "/" [filename]) at 2.
  rewrite !components_join by (by repeat constructor).
  rewrite <- app_assoc. intros Heq. apply app_inv_head in Heq.
  cbn [app] in Heq. injection Heq as Hstem' _.
  apply (drop_last_shorter filename); [|exact Hstem'].
  apply is_name_inv in Hname as (Hne & _). intros ->. done.
Qed.

(** One run of the loop body, for a file whose name ends in [.zip], in
    any letter case, and whose name without the last four characters is a
    proper directory name: when the extraction directory was created and
    opening, testing and extracting the archive succeeded, the loop body
    ends normally and leaves the archive file gone and, next to where it
    was, the directory named after it, holding the contents of the
    archive: every directory member as a directory and every file member
    as a file with the bytes of the member (of the last member of that
    name, should the archive hold several). *)
Lemma extract_archive_alone unzip verbose dirpath filename w data members
        w1 w2 :
  let zip_path := Py.path_join dirpath filename in
  let extract_to := Py.path_join dirpath (Py.drop_last 4 filename) in
  Py.endswith (Py.lower filename) ".zip" = true ->
  Py.is_name filename = true ->
  Py.is_name (Py.drop_last 4 filename) = true ->
  read_file zip_path w = (Ok data, w) ->
  unzip data = Some members ->
  os_makedirs extract_to true w = (Ok tt, w1) ->
  unzip_into unzip zip_path extract_to w1 = (Ok tt, w2) ->
  exists w',
    extract_archive unzip verbose dirpath filename w = (Ok tt, w') /\
    FS.exists_ (w_fs w') zip_path = false /\
    FS.isdir (w_fs w') extract_to = true /\
    forall m, m ∈ members ->
      if Py.endswith (zm_name m) "/"
      then FS.isdir (w_fs w') (member_target extract_to m) = true
      else exists m',
             m' ∈ members /\
             FS.components (member_target extract_to m')
               = FS.components (member_target extract_to m) /\
             read_file (member_target extract_to m) w' = (Ok (zm_data m'), w').
Proof.
  intros zip_path extract_to Hzip Hname Hstem Hread Hdec Hmk Hun.
  apply read_file_inv in Hread as (kz & Hkz & Hkz_ne & Harch & _).
  assert (w_fs w1 !! kz = Some (FS.File data)) as Harch1.
  { eapply os_makedirs_keeps; eauto. }
  assert (FS.isdir (w_fs w1) extract_to = true) as Hdir1.
  { apply lift_fs_ok_inv in Hmk as (f & Hf & ->). cbn. eapply makedirs_isdir; eauto. }
  pose proof (unzip_into_kinds_kept unzip zip_path extract_to w1 _ _ Hun) as Hkept.
  destruct (Hkept kz) as [Hfile2 _]. destruct (Hfile2 data Harch1) as [data2 Harch2].
  assert (extractall members extract_to w1 = (Ok tt, w2)) as Hall.
  { unfold unzip_into in Hun. apply bind_ok_inv in Hun as (zip_ref & w1' & Hopen & Hun).
    unfold ZipFile in Hopen. rewrite Hkz in Hopen.
    destruct kz as [|s r]; [done|]. cbn [FS.lookup] in Hopen.
    rewrite Harch1, Hdec in Hopen. inversion Hopen; subst zip_ref w1'.
    apply bind_ok_inv in Hun as ([] & w1' & Hcheck & Hun).
    assert (w1' = w1) as ->; [|exact Hun].
    repeat case_match; inversion Hcheck; by subst. }
  set (fs3 := delete kz (w_fs w2)).
  assert (os_remove zip_path w2 = (Ok tt, set_fs fs3 w2)) as Hrm.
  { unfold os_remove, lift_fs, FS.remove. rewrite Hkz.
    destruct kz as [|s r]; [done|]. by rewrite Harch2. }
  exists (if verbose then log (EPrint ("Unzipped and deleted " +:+ zip_path)) (set_fs fs3 w2)
          else set_fs fs3 w2).
  assert (w_fs (if verbose
                then log (EPrint ("Unzipped and deleted " +:+ zip_path)) (set_fs fs3 w2)
                else set_fs fs3 w2) = fs3) as Hfs by (by destruct verbose).
  rewrite Hfs. split; [|split; [|split]].
  - unfold extract_archive. rewrite Hzip. fold zip_path extract_to.
    erewrite bind_run by exact Hmk. unfold try_except.
    erewrite bind_run by exact Hun. erewrite bind_run by exact Hrm.
    by destruct verbose.
  - unfold FS.exists_. rewrite Hkz. destruct kz as [|s r]; [done|].
    unfold FS.lookup, fs3. by rewrite lookup_delete_eq.
  - eapply isdir_delete_file; [|exact Harch2].
    eapply kinds_kept_isdir; eauto.
  - intros m Hm. pose proof (extractall_contents extract_to members w1 w2 Hall m Hm) as Hc.
    destruct (Py.endswith (zm_name m) "/").
    + eapply isdir_delete_file; eauto.
    + destruct Hc as (m' & k & Hm' & _ & Hres & Hne & Hres' & Hk).
      exists m'. split; [exact Hm'|]. split.
      { apply resolve_components in Hres, Hres'. congruence. }
      unfold read_file. rewrite Hres. destruct k as [|s r]; [done|].
      cbn [FS.lookup]. rewrite Hfs. unfold fs3.
      rewrite lookup_delete_ne; [by rewrite Hk|].
      apply resolve_components in Hres, Hkz. rewrite Hres, Hkz.
      intros Heq. symmetry in Heq. revert Heq.
      by apply member_target_not_archive.
Qed.

(** The example of the design document, through the whole fetch: the
    remote [data.zip] ends up as [dir/data/inner.csv], and
    [dir/data.zip] is gone. *)
Lemma osf_fetch_extracts_archive_example :
  let run := osf_fetch false sample_unzip 5 "" "dir" "un5ct" None true true osf_world in
  fst run = Ok "dir" /\
  fst (read_file "dir/data/inner.csv" (snd run)) = Ok "1,2,3" /\
  FS.exists_ (w_fs (snd run)) "dir/data.zip" = false /\
  FS.isdir (w_fs (snd run)) "dir/data" = true.
Proof. vm_compute. by repeat split. Qed.


(** With [verbose=False] a failed download is caught all the same, but
    nothing is printed. *)
Lemma osf_fetch_quiet_failure_not_reported :
  let run := osf_fetch false sample_unzip 5 "" "dir" "un5ct" None false false osf_world in
  fst run = Ok "dir" /\
  opened (snd run) = ["dir/a.txt"; "dir/data.zip"; "dir/sub/b.txt"; "dir/sub/bad.zip"] /\
  printed (snd run) = [].
Proof. vm_compute. by repeat split. Qed.

(** * Further properties of the fetchers *)

(** ** The Single-File Fetcher: every way through it *)

Lemma set_fs_same w : set_fs (w_fs w) w = w.
Proof. by destruct w. Qed.

Lemma checked_get_requests url w :
  requests (snd (checked_get url w)) = (requests w ++ [url])%list.
Proof.
  unfold checked_get, bind, requests_get, raise_for_status, raise, ret.
  destruct (w_http w _ url); cbn [snd]; [apply requests_log_get|].
  destruct (_ && _); cbn [snd]; apply requests_log_get.
Qed.

Lemma checked_get_trace url w :
  w_trace (snd (checked_get url w)) = (w_trace w ++ [EGet url])%list.
Proof.
  unfold checked_get, bind, requests_get, raise_for_status, raise, ret.
  destruct (w_http w _ url); cbn [snd]; [reflexivity|].
  destruct (_ && _); reflexivity.
Qed.

(** The Single-File Fetcher in closed form, for a target that is not
    there yet. *)
Lemma zenodo_fetch_absent dataset folder doi filename w :
  FS.exists_ (w_fs w) (zenodo_target dataset folder filename) = false ->
  zenodo_fetch false dataset folder doi filename w =
  let file := zenodo_target dataset folder filename in
  match zenodo_doi doi dataset with
  | None => (Raise (Exn ValueError (zenodo_unknown_msg dataset)), w)
  | Some d =>
      match checked_get (zenodo_url d dataset) w with
      | (Ok response, w1) =>
          match (if FS.exists_ (w_fs w1) folder then Ok (w_fs w1)
                 else FS.makedirs false folder (w_fs w1)) with
          | Ok f =>
              match FS.write_file file (resp_content response) f with
              | Ok f' => (Ok file, set_fs f' (set_fs f w1))
              | Raise e => (Raise e, set_fs f w1)
              | OutOfFuel => (OutOfFuel, set_fs f w1)
              end
          | Raise e => (Raise e, w1)
          | OutOfFuel => (OutOfFuel, w1)
          end
      | (Raise e, w1) =>
          (Raise (match exn_cls e with
                  | ReqConnectionError =>
                      Exn ReqConnectionError (zenodo_offline_msg dataset e)
                  | _ => e
                  end), w1)
      | (OutOfFuel, w1) => (OutOfFuel, w1)
      end
  end.
Proof.
  intros Habsent. unfold zenodo_fetch, bind at 1, os_path_exists. rewrite Habsent.
  cbn zeta. unfold zenodo_doi.
  assert (forall d (k : string -> M string), (do x <- ret d; k x) w = k d w) as Hret
    by reflexivity.
  destruct doi as [d|]; [|destruct (dict_get DATASETS dataset) as [d|]; [|reflexivity]];
    rewrite Hret; clear Hret;
    unfold checked_get, bind, try_except, requests_get, raise_for_status, raise, ret,
      os_path_exists, os_makedirs, write_file, lift_fs;
    (destruct (w_http w _ _) as [e|st body]; [by destruct e as [[] msg]|]);
    cbn [resp_status resp_content resp_url];
    (destruct (_ && _); [reflexivity|]);
    cbn [w_fs log set_fs];
    (destruct (FS.exists_ (w_fs w) folder); cbn [negb];
     [ destruct (FS.write_file _ _ _); by rewrite ?set_fs_same
     | destruct (FS.makedirs false folder _); [|reflexivity..];
       cbn [w_fs log set_fs]; destruct (FS.write_file _ _ _); reflexivity ]).
Qed.

Lemma dict_get_not_mem {V} (d : list (string * V)) k :
  k ∉ dict_keys d -> dict_get d k = None.
Proof.
  unfold dict_keys, dict_get. induction d as [|[k' v'] d IH]; intros Hk; [reflexivity|].
  simpl. destruct (String.eqb k' k) eqn:E.
  - apply String.eqb_eq in E. subst k'. exfalso. apply Hk. left.
  - apply IH. intros Hin. apply Hk. by right.
Qed.

(** X1.  A dataset that is not in the registry, asked for without a
    repository id and not yet on disk, is refused with a [ValueError] that
    names it, before anything is requested or written. *)
Theorem zenodo_fetch_unknown_dataset dataset folder filename w :
  FS.exists_ (w_fs w) (zenodo_target dataset folder filename) = false ->
  dataset ∉ dict_keys DATASETS ->
  zenodo_fetch false dataset folder None filename w
  = (Raise (Exn ValueError
       (dataset +:+ " does not exist in one of the miblab repositories on Zenodo. If you want to fetch a dataset in an external Zenodo repository, please provide the doi of the repository.")),
     w).
Proof.
  intros Habsent Hkey. rewrite zenodo_fetch_absent by exact Habsent.
  cbn zeta. unfold zenodo_doi. by rewrite dict_get_not_mem.
Qed.

Lemma zenodo_fetch_unknown_dataset_witness :
  exn_cls <$> (match fst (zenodo_fetch false "mine.zip" "dl" None None online) with
               | Raise e => Some e | _ => None end) = Some ValueError /\
  snd (zenodo_fetch false "mine.zip" "dl" None None online) = online.
Proof.
  rewrite (zenodo_fetch_unknown_dataset "mine.zip" "dl" None online).
  - by split.
  - vm_compute; reflexivity.
  - by_compute.
Defined.

(** X2.  When the target is not on disk and the request fails, the
    Single-File Fetcher has made that one GET, to
    [records/<id>/files/<dataset>] (the local filename plays no part in
    the URL), and nothing else: the disk is as before, the destination
    folder is not created.  An exception of [requests.get] of class
    [ConnectionError] is raised again in that class with the offline
    message; any other exception of [requests.get] passes unchanged; a
    status from 400 to 599 raises the HTTP error. *)
Theorem zenodo_fetch_failed_request dataset folder doi filename w d :
  FS.exists_ (w_fs w) (zenodo_target dataset folder filename) = false ->
  zenodo_doi doi dataset = Some d ->
  let url := "https://zenodo.org/records/" +:+ d +:+ "/files/" +:+ dataset in
  (forall e,
     w_http w (List.length (requests w)) url = GetRaises e ->
     zenodo_fetch false dataset folder doi filename w
     = (Raise (if decide (exn_cls e = ReqConnectionError)
               then Exn ReqConnectionError (zenodo_offline_msg dataset e)
               else e),
        log (EGet url) w)) /\
  (forall st body,
     w_http w (List.length (requests w)) url = GetResponse st body ->
     (400 <= st < 600)%Z ->
     zenodo_fetch false dataset folder doi filename w
     = (Raise (Exn ReqHTTPError ("HTTP error for url: " +:+ url)), log (EGet url) w)) /\
  w_fs (log (EGet url) w) = w_fs w.
Proof.
  intros Habsent Hdoi url. split; [|split; [|reflexivity]].
  - intros e He. rewrite zenodo_fetch_absent by exact Habsent. cbn zeta. rewrite Hdoi.
    change url with (zenodo_url d dataset) in *.
    unfold checked_get, bind, requests_get. rewrite He.
    by destruct e as [[] msg].
  - intros st body Hst Hrange. rewrite zenodo_fetch_absent by exact Habsent.
    cbn zeta. rewrite Hdoi.
    change url with (zenodo_url d dataset) in *.
    unfold checked_get, bind, requests_get, raise_for_status, raise.
    rewrite Hst. cbn [resp_status resp_url].
    assert ((400 <=? st)%Z && (st <? 600)%Z = true) as ->; [|reflexivity].
    apply andb_true_iff. split; [apply Z.leb_le | apply Z.ltb_lt]; lia.
Qed.

Lemma zenodo_fetch_failed_request_witness :
  zenodo_fetch false "KRUK.dmr.zip" "dl" None (Some "local.zip") not_found
  = (Raise (Exn ReqHTTPError "HTTP error for url: https://zenodo.org/records/15285017/files/KRUK.dmr.zip"),
     log (EGet "https://zenodo.org/records/15285017/files/KRUK.dmr.zip") not_found) /\
  exn_cls <$> (match fst (zenodo_fetch false "KRUK.dmr.zip" "dl" None None offline) with
               | Raise e => Some e | _ => None end) = Some ReqConnectionError.
Proof.
  destruct (zenodo_fetch_failed_request "KRUK.dmr.zip" "dl" None (Some "local.zip")
              not_found "15285017") as (_ & Hstatus & _);
    [vm_compute; reflexivity | reflexivity |].
  destruct (zenodo_fetch_failed_request "KRUK.dmr.zip" "dl" None None
              offline "15285017") as (Hraise & _ & _);
    [vm_compute; reflexivity | reflexivity |].
  split.
  - apply (Hstatus 404%Z ""); [reflexivity | lia].
  - rewrite (Hraise (Exn ReqConnectionError "Max retries exceeded") eq_refl).
    reflexivity.
Defined.

(** X3.  When the target is not on disk and the answer carries any status
    outside 400 to 599, the Single-File Fetcher takes it as a success: a
    call that returns has made one GET, returns the target path, and has
    written the whole body there; every file that was on disk before
    still holds what it held. *)
Theorem zenodo_fetch_download dataset folder doi filename w d st body p w' :
  FS.exists_ (w_fs w) (zenodo_target dataset folder filename) = false ->
  zenodo_doi doi dataset = Some d ->
  w_http w (List.length (requests w)) (zenodo_url d dataset) = GetResponse st body ->
  ~ (400 <= st < 600)%Z ->
  zenodo_fetch false dataset folder doi filename w = (Ok p, w') ->
  p = zenodo_target dataset folder filename /\
  read_file p w' = (Ok body, w') /\
  w_trace w' = (w_trace w ++ [EGet (zenodo_url d dataset)])%list /\
  (forall q data, read_file q w = (Ok data, w) -> read_file q w' = (Ok data, w')).
Proof.
  intros Habsent Hdoi Hresp Hst. rewrite zenodo_fetch_absent by exact Habsent.
  cbn zeta. rewrite Hdoi.
  unfold checked_get, bind, requests_get, raise_for_status, raise, ret. rewrite Hresp.
  cbn [resp_status resp_content].
  assert ((400 <=? st)%Z && (st <? 600)%Z = false) as ->.
  { apply andb_false_iff.
    destruct (Z.leb_spec 400 st); [right; apply Z.ltb_ge; lia | by left]. }
  cbn [w_fs log].
  set (w1 := log (EGet (zenodo_url d dataset)) w).
  set (file := zenodo_target dataset folder filename) in *.
  destruct (if FS.exists_ (w_fs w) folder then Ok (w_fs w)
            else FS.makedirs false folder (w_fs w)) as [f|e|] eqn:Ef; [|discriminate..].
  cbn [resp_content].
  destruct (FS.write_file file body f) as [f'|e|] eqn:Ew; [|discriminate..].
  intros H. inversion H; subst p w'. clear H.
  assert (forall k n, w_fs w !! k = Some n -> f !! k = Some n) as Hkeep.
  { destruct (FS.exists_ (w_fs w) folder); [by inversion Ef; subst|].
    intros k n. eapply makedirs_keeps; eauto. }
  apply fs_write_file_inv in Ew as (k0 & Hres & Hne & _ & _ & ->).
  split; [reflexivity|]. split; [|split; [reflexivity|]].
  - unfold read_file. rewrite Hres. destruct k0 as [|s r]; [done|].
    cbn. by rewrite lookup_insert_eq.
  - intros q data Hread.
    apply read_file_inv in Hread as (k & Hk & Hkne & Hdata & _).
    unfold read_file. rewrite Hk. destruct k as [|s r]; [done|]. cbn.
    rewrite lookup_insert_ne; [by rewrite (Hkeep _ _ Hdata)|].
    intros ->. unfold FS.exists_ in Habsent. rewrite Hres in Habsent.
    cbn in Habsent. by rewrite Hdata in Habsent.
Qed.

(** An empty disk and a service that answers 304 with a body. *)
Lemma zenodo_fetch_download_witness :
  let w304 :=
    World ∅ (fun _ _ => GetResponse 304 "cached") (fun _ _ => None) ∅ (fun _ _ => None) [] in
  exists w',
    zenodo_fetch false "KRUK.dmr.zip" "dl" None (Some "local.zip") w304
      = (Ok "dl/local.zip", w') /\
    read_file "dl/local.zip" w' = (Ok "cached", w') /\
    w_trace w' = [EGet "https://zenodo.org/records/15285017/files/KRUK.dmr.zip"].
Proof.
  intros w304. eexists. split; [vm_compute; reflexivity|].
  edestruct (zenodo_fetch_download "KRUK.dmr.zip" "dl" None (Some "local.zip") w304
               "15285017" 304%Z "cached") as (_ & Hread & Htrace & _);
    [vm_compute; reflexivity | reflexivity | reflexivity | lia
    | vm_compute; reflexivity |].
  split; [exact Hread | exact Htrace].
Defined.

(** ** The Grouped Fetcher: one loop over all files *)

Lemma for_collect_app {A B} (l1 l2 : list A) (body : A -> M B) w :
  for_collect (l1 ++ l2) body w =
  (do ys1 <- for_collect l1 body; do ys2 <- for_collect l2 body; ret (ys1 ++ ys2)%list) w.
Proof.
  revert w. induction l1 as [|x l1 IH]; intros w.
  - cbn [app]. rewrite for_collect_nil. unfold bind, ret.
    by destruct (for_collect l2 body w) as [[]].
  - cbn [app]. rewrite !for_collect_cons. unfold bind.
    destruct (body x w) as [[y|e|] w1]; [|reflexivity..].
    specialize (IH w1). unfold bind in IH. rewrite IH.
    destruct (for_collect l1 body w1) as [[ys1|e|] w2]; [|reflexivity..].
    unfold ret. by destruct (for_collect l2 body w2) as [[]].
Qed.

Lemma for_collect_ext {A B} (l : list A) (b1 b2 : A -> M B) :
  (forall x w, x ∈ l -> b1 x w = b2 x w) ->
  forall w, for_collect l b1 w = for_collect l b2 w.
Proof.
  induction l as [|x l IH]; intros Hb w; [reflexivity|].
  rewrite !for_collect_cons. unfold bind at 1 3. rewrite (Hb x w) by left.
  destruct (b2 x w) as [[y|e|] w1]; [|reflexivity..].
  unfold bind. rewrite IH; [reflexivity|]. intros x' w' Hx'. apply Hb. by right.
Qed.

(** A loop over groups with a loop over the files of each group collects
    what one loop over all the files collects. *)
Lemma for_collect_concat {A B C} (F : A -> list B) (body : B -> M C) (gs : list A) w :
  (do pss <- for_collect gs (fun g => for_collect (F g) body); ret (List.concat pss)) w
  = for_collect (List.concat (map F gs)) body w.
Proof.
  revert w. induction gs as [|g gs IH]; intros w; [reflexivity|].
  cbn [map List.concat]. rewrite for_collect_app, for_collect_cons. unfold bind.
  destruct (for_collect (F g) body w) as [[ys|e|] w1]; [|reflexivity..].
  specialize (IH w1). unfold bind in IH. rewrite <- IH.
  unfold ret. by destruct (for_collect gs _ w1) as [[pss|e|] w2].
Qed.

Lemma rat_fetch_group_known registry doi folder g w :
  g ∈ dict_keys registry ->
  rat_fetch_group registry doi folder g w
  = for_collect (group_files registry g) (rat_fetch_file doi folder) w.
Proof.
  intros Hg. unfold rat_fetch_group, group_files.
  by destruct (dict_get_mem registry g Hg) as [files ->].
Qed.

(** The Grouped Fetcher in closed form: selection, folder, one loop. *)
Lemma rat_fetch_flat registry dataset folder doi w :
  rat_fetch false registry dataset folder doi w =
  match groups_to_download registry (rat_default dataset) w with
  | (Ok groups, _) =>
      match FS.makedirs true folder (w_fs w) with
      | Ok f =>
          for_collect (List.concat (map (group_files registry) groups))
            (rat_fetch_file (rat_doi doi) folder) (set_fs f w)
      | Raise e => (Raise e, w)
      | OutOfFuel => (OutOfFuel, w)
      end
  | (Raise e, _) => (Raise e, w)
  | (OutOfFuel, _) => (OutOfFuel, w)
  end.
Proof.
  unfold rat_fetch. unfold bind at 1.
  destruct (groups_to_download registry (rat_default dataset) w) as [[groups|e|] w1] eqn:Eg.
  - apply groups_to_download_known in Eg as [-> Hk].
    unfold bind at 1, os_makedirs, lift_fs.
    destruct (FS.makedirs true folder (w_fs w)) as [f|e|]; [|reflexivity..].
    rewrite <- for_collect_concat. unfold bind.
    rewrite (for_collect_ext groups (rat_fetch_group registry (rat_doi doi) folder)
               (fun g => for_collect (group_files registry g)
                           (rat_fetch_file (rat_doi doi) folder))); [reflexivity|].
    intros g w' Hg. apply rat_fetch_group_known. by apply Hk.
  - rewrite groups_to_download_run in Eg. repeat case_match; by inversion Eg.
  - rewrite groups_to_download_run in Eg. repeat case_match; by inversion Eg.
Qed.

Lemma for_collect_raise_inv {A B} (l : list A) (body : A -> M B) : forall w e w',
  for_collect l body w = (Raise e, w') ->
  exists pre x post ys w1,
    l = (pre ++ x :: post)%list /\
    for_collect pre body w = (Ok ys, w1) /\
    body x w1 = (Raise e, w').
Proof.
  induction l as [|x l IH]; intros w e w' H; [discriminate|].
  rewrite for_collect_cons in H. unfold bind at 1 in H.
  destruct (body x w) as [[y|e0|] w1] eqn:Ex; [| |discriminate].
  - unfold bind in H.
    destruct (for_collect l body w1) as [[ys|e1|] w2] eqn:El; [discriminate| |discriminate].
    inversion H; subst e1 w2. clear H.
    destruct (IH w1 e w' El) as (pre & x' & post & ys & w3 & -> & Hpre & Hx').
    exists (x :: pre), x', post, (y :: ys), w3. split; [reflexivity|]. split; [|exact Hx'].
    rewrite for_collect_cons. erewrite bind_run by exact Ex.
    by erewrite bind_run by exact Hpre.
  - inversion H; subst e0 w1. clear H.
    exists [], x, l, [], w. by repeat split.
Qed.

Lemma rat_fetch_file_ok doi folder fname w p w1 :
  rat_fetch_file doi folder fname w = (Ok p, w1) ->
  p = Py.path_join folder fname /\ FS.exists_ (w_fs w1) p = true.
Proof.
  rewrite rat_fetch_file_run. cbn zeta.
  destruct (FS.exists_ (w_fs w) (Py.path_join folder fname)) eqn:E.
  { intros H; inversion H; by subst. }
  destruct (checked_get _ w) as [[resp|e|] w2]; [|discriminate..].
  destruct (FS.write_file _ _ (w_fs w2)) as [f| |] eqn:Ew; [|discriminate..].
  intros H; inversion H; subst. split; [reflexivity|].
  apply isfile_exists. cbn. eapply write_file_isfile; eauto.
Qed.

(** After a loop that returned, every file of the loop is on disk. *)
Lemma rat_fetch_loop_ok doi folder files : forall w paths w1,
  for_collect files (rat_fetch_file doi folder) w = (Ok paths, w1) ->
  paths = map (Py.path_join folder) files /\
  (forall q, FS.exists_ (w_fs w) q = true -> FS.exists_ (w_fs w1) q = true) /\
  (forall fname, fname ∈ files -> FS.exists_ (w_fs w1) (Py.path_join folder fname) = true).
Proof.
  induction files as [|x files IH]; intros w paths w1 H.
  - inversion H; subst. repeat split; [done|]. intros fname Hin. by apply elem_of_nil in Hin.
  - rewrite for_collect_cons in H.
    apply bind_ok_inv in H as (p & w2 & Hx & H).
    apply bind_ok_inv in H as (ps & w3 & Hl & H). inversion H; subst paths w3. clear H.
    destruct (rat_fetch_file_ok _ _ _ _ _ _ Hx) as [-> Hp].
    destruct (IH _ _ _ Hl) as (-> & Hkeep & Hall).
    split; [reflexivity|]. split.
    + intros q Hq. apply Hkeep. eapply rat_fetch_file_keeps_exists; eauto.
    + intros fname Hin. apply elem_of_cons in Hin as [->|Hin]; [by apply Hkeep | by apply Hall].
Qed.

(** X4.  The Grouped Fetcher stops at the first file it cannot fetch.
    When the group was selected and the folder created, a raised exception
    comes from one file [x] of the selected groups: the files before [x]
    are on disk; when the turn of [x] came it was not on disk, one GET was
    made for it, and nothing was done after that GET: the files after [x]
    are not asked for.  The exception is a [ConnectionError] naming [x]
    when the request failed, and else the failure to write the file. *)
Theorem rat_fetch_stops_at_first_failure registry dataset folder doi w groups f e w' :
  groups_to_download registry (rat_default dataset) w = (Ok groups, w) ->
  FS.makedirs true folder (w_fs w) = Ok f ->
  rat_fetch false registry dataset folder doi w = (Raise e, w') ->
  exists pre x post w1,
    List.concat (map (group_files registry) groups) = (pre ++ x :: post)%list /\
    (forall fname, fname ∈ pre ->
       FS.exists_ (w_fs w') (Py.path_join folder fname) = true) /\
    FS.exists_ (w_fs w1) (Py.path_join folder x) = false /\
    w_fs w' = w_fs w1 /\
    w_trace w' = (w_trace w1 ++ [EGet (zenodo_url (rat_doi doi) x)])%list /\
    match checked_get (zenodo_url (rat_doi doi) x) w1 with
    | (Raise e0, _) =>
        e = Exn ConnectionError
              ("Failed to fetch " +:+ x +:+ " from Zenodo: " +:+ exn_msg e0)
    | (Ok response, _) =>
        FS.write_file (Py.path_join folder x) (resp_content response) (w_fs w1) = Raise e
    | (OutOfFuel, _) => False
    end.
Proof.
  intros Hg Hmk Hrun. rewrite rat_fetch_flat, Hg, Hmk in Hrun.
  apply for_collect_raise_inv in Hrun as (pre & x & post & ys & w1 & Hsplit & Hpre & Hx).
  exists pre, x, post, w1. split; [exact Hsplit|].
  destruct (rat_fetch_loop_ok _ _ _ _ _ _ Hpre) as (_ & _ & Hall).
  rewrite rat_fetch_file_run in Hx. cbn zeta in Hx.
  destruct (FS.exists_ (w_fs w1) (Py.path_join folder x)) eqn:Ex; [discriminate|].
  pose proof (checked_get_trace (zenodo_url (rat_doi doi) x) w1) as Htr.
  pose proof (checked_get_fs (zenodo_url (rat_doi doi) x) w1) as Hfs.
  destruct (checked_get (zenodo_url (rat_doi doi) x) w1) as [[resp|e1|] w2] eqn:Eget;
    cbn [snd] in Htr, Hfs; [| |discriminate].
  - destruct (FS.write_file _ _ (w_fs w2)) as [f'|e2|] eqn:Ew; [discriminate| |discriminate].
    inversion Hx; subst e2 w2. clear Hx. rewrite Hfs in Ew.
    repeat split; [|done..]. intros fname Hin. rewrite Hfs. by apply Hall.
  - inversion Hx; subst e w2. clear Hx.
    repeat split; [|done..]. intros fname Hin. rewrite Hfs. by apply Hall.
Qed.

Lemma rat_fetch_stops_at_first_failure_witness :
  fst (rat_fetch false sample_registry (Some "all") "dl" None flaky)
  = Raise (Exn ConnectionError "Failed to fetch S02.zip from Zenodo: HTTP error for url: https://zenodo.org/records/10675642/files/S02.zip") /\
  requests (snd (rat_fetch false sample_registry (Some "all") "dl" None flaky))
  = [ "https://zenodo.org/records/10675642/files/S01.zip";
      "https://zenodo.org/records/10675642/files/S02.zip" ] /\
  exists pre x post w1,
    List.concat (map (group_files sample_registry) ["bosentan_highdose"; "relaxivity"])
    = (pre ++ x :: post)%list /\
    (forall fname, fname ∈ pre ->
       FS.exists_ (w_fs (snd (rat_fetch false sample_registry (Some "all") "dl" None flaky)))
         (Py.path_join "dl" fname) = true) /\
    FS.exists_ (w_fs w1) (Py.path_join "dl" x) = false /\
    w_fs (snd (rat_fetch false sample_registry (Some "all") "dl" None flaky)) = w_fs w1 /\
    w_trace (snd (rat_fetch false sample_registry (Some "all") "dl" None flaky))
    = (w_trace w1 ++ [EGet (zenodo_url (rat_doi None) x)])%list /\
    match checked_get (zenodo_url (rat_doi None) x) w1 with
    | (Raise e0, _) =>
        Exn ConnectionError "Failed to fetch S02.zip from Zenodo: HTTP error for url: https://zenodo.org/records/10675642/files/S02.zip"
        = Exn ConnectionError
            ("Failed to fetch " +:+ x +:+ " from Zenodo: " +:+ exn_msg e0)
    | (Ok response, _) =>
        FS.write_file (Py.path_join "dl" x) (resp_content response) (w_fs w1)
        = Raise (Exn ConnectionError "Failed to fetch S02.zip from Zenodo: HTTP error for url: https://zenodo.org/records/10675642/files/S02.zip")
    | (OutOfFuel, _) => False
    end.
Proof.
  split; [vm_compute; reflexivity|]. split; [vm_compute; reflexivity|].
  apply (rat_fetch_stops_at_first_failure sample_registry (Some "all") "dl" None flaky
           ["bosentan_highdose"; "relaxivity"] (<[ ["dl"] := FS.Dir ]> ∅));
    vm_compute; reflexivity.
Defined.

(** ** The Grouped Fetcher: running it again *)

Lemma mkdir_p_again p todo : forall fs above f fs2,
  FS.mkdir_p true p fs above todo = Ok f ->
  (forall k, f !! k = Some FS.Dir -> fs2 !! k = Some FS.Dir) ->
  FS.mkdir_p true p fs2 above todo = Ok fs2.
Proof.
  induction todo as [|s r IH]; intros fs above f fs2 H Hdirs; [reflexivity|].
  cbn [FS.mkdir_p] in *.
  assert (f !! rev (s :: above) = Some FS.Dir) as Hhere.
  { destruct (fs !! rev (s :: above)) as [[d|]|] eqn:E.
    - destruct r; discriminate.
    - destruct r as [|s' r']; [by inversion H; subst|]. eapply mkdir_p_keeps; eauto.
    - eapply mkdir_p_keeps; [exact H|]. apply lookup_insert_eq. }
  rewrite (Hdirs _ Hhere). destruct r as [|s' r']; [reflexivity|].
  destruct (fs !! rev (s :: above)) as [[d|]|] eqn:E; [discriminate| |];
    eapply IH; eauto.
Qed.

Lemma makedirs_again p fs f fs2 :
  FS.makedirs true p fs = Ok f ->
  (forall k, f !! k = Some FS.Dir -> fs2 !! k = Some FS.Dir) ->
  FS.makedirs true p fs2 = Ok fs2.
Proof.
  unfold FS.makedirs. destruct (FS.resolve p) as [[|s r]|]; [done| |discriminate].
  apply mkdir_p_again.
Qed.

Lemma rat_fetch_file_kinds_kept doi folder fname :
  respects kinds_kept (rat_fetch_file doi folder fname).
Proof.
  intros w r w' H. rewrite rat_fetch_file_run in H. cbn zeta in H.
  destruct (FS.exists_ _ _); [inversion H; apply kinds_kept_refl|].
  pose proof (checked_get_fs (zenodo_url doi fname) w) as Hfs.
  destruct (checked_get _ w) as [[resp|e|] w1]; cbn [snd] in Hfs.
  - assert (kinds_kept w w1) as H1 by (intros k; rewrite Hfs; split; eauto).
    destruct (FS.write_file _ _ (w_fs w1)) as [f|e|] eqn:Ew; inversion H; subst; try done.
    eapply kinds_kept_trans; [exact H1|]. eapply kinds_kept_write; eauto.
  - inversion H; subst. intros k; rewrite Hfs; split; eauto.
  - inversion H; subst. intros k; rewrite Hfs; split; eauto.
Qed.

Lemma respects_for_collect (R : world -> world -> Prop) {A B} (l : list A) (body : A -> M B) :
  (forall w, R w w) -> (forall w1 w2 w3, R w1 w2 -> R w2 w3 -> R w1 w3) ->
  (forall x, respects R (body x)) -> respects R (for_collect l body).
Proof.
  intros Hrefl Htrans Hbody. induction l as [|x l IH].
  - by apply respects_ret.
  - rewrite for_collect_cons. apply respects_bind; [done | apply Hbody |]. intros y.
    apply respects_bind; [done | exact IH |]. intros ys. by apply respects_ret.
Qed.

(** A loop over files that are all on disk returns their paths and does
    nothing. *)
Lemma rat_fetch_loop_present doi folder files w :
  (forall fname, fname ∈ files -> FS.exists_ (w_fs w) (Py.path_join folder fname) = true) ->
  for_collect files (rat_fetch_file doi folder) w = (Ok (map (Py.path_join folder) files), w).
Proof.
  induction files as [|x files IH]; intros Hall; [reflexivity|].
  rewrite for_collect_cons.
  erewrite bind_run; [|rewrite rat_fetch_file_run; cbn zeta; rewrite Hall by left; reflexivity].
  erewrite bind_run; [reflexivity|]. apply IH. intros fname Hin. apply Hall. by right.
Qed.

(** X5.  When the Grouped Fetcher returns, the destination folder is a
    directory and every returned path exists on disk; the paths are those
    of the files of the selected groups, in order. *)
Theorem rat_fetch_returns_existing_paths registry dataset folder doi w paths w1 :
  rat_fetch false registry dataset folder doi w = (Ok paths, w1) ->
  FS.isdir (w_fs w1) folder = true /\
  (forall p, p ∈ paths -> FS.exists_ (w_fs w1) p = true) /\
  exists groups,
    groups_to_download registry (rat_default dataset) w = (Ok groups, w) /\
    paths = map (Py.path_join folder) (List.concat (map (group_files registry) groups)).
Proof.
  intros Hrun. rewrite rat_fetch_flat in Hrun.
  destruct (groups_to_download registry (rat_default dataset) w) as [[groups|e|] w0] eqn:Eg;
    [|discriminate..].
  apply groups_to_download_known in Eg as Hk. destruct Hk as [-> _].
  destruct (FS.makedirs true folder (w_fs w)) as [f|e|] eqn:Emk; [|discriminate..].
  pose proof (respects_for_collect kinds_kept _ _ kinds_kept_refl kinds_kept_trans
                (rat_fetch_file_kinds_kept (rat_doi doi) folder) _ _ _ Hrun) as Hkept.
  destruct (rat_fetch_loop_ok _ _ _ _ _ _ Hrun) as (-> & _ & Hall).
  split; [|split].
  - eapply kinds_kept_isdir; [exact Hkept|]. cbn. eapply makedirs_isdir; eauto.
  - intros p Hp. apply list_elem_of_fmap in Hp as (fname & -> & Hin). by apply Hall.
  - by exists groups.
Qed.

Lemma rat_fetch_returns_existing_paths_witness :
  let run := rat_fetch false sample_registry None "dl" None online in
  fst run = Ok ["dl/S01.zip"; "dl/S02.zip"] /\
  FS.isdir (w_fs (snd run)) "dl" = true /\
  (forall p, p ∈ ["dl/S01.zip"; "dl/S02.zip"] -> FS.exists_ (w_fs (snd run)) p = true).
Proof.
  intros run. split; [vm_compute; reflexivity|].
  destruct (rat_fetch_returns_existing_paths sample_registry None "dl" None online
              ["dl/S01.zip"; "dl/S02.zip"] (snd run)) as (Hdir & Hall & _);
    [vm_compute; reflexivity|].
  split; [exact Hdir | exact Hall].
Defined.

(** X6.  Running the Grouped Fetcher again after it has returned changes
    nothing: the second call returns the same paths and leaves the world
    as the first call left it, so it makes no request and writes no
    file. *)
Theorem rat_fetch_again registry dataset folder doi w paths w1 :
  rat_fetch false registry dataset folder doi w = (Ok paths, w1) ->
  rat_fetch false registry dataset folder doi w1 = (Ok paths, w1).
Proof.
  intros Hrun. rewrite rat_fetch_flat in Hrun. rewrite rat_fetch_flat.
  rewrite !groups_to_download_run in *.
  destruct (if String.eqb (Py.lower (rat_default dataset)) "all"
            then (Ok (dict_keys registry), w)
            else if dict_mem registry (rat_default dataset)
                 then (Ok [rat_default dataset], w)
                 else (Raise (Exn ValueError (rat_unknown_msg registry (rat_default dataset))), w))
    as [[groups|e|] w0] eqn:Eg; [|discriminate..].
  assert ((if String.eqb (Py.lower (rat_default dataset)) "all"
           then (Ok (dict_keys registry), w1)
           else if dict_mem registry (rat_default dataset)
                then (Ok [rat_default dataset], w1)
                else (Raise (Exn ValueError (rat_unknown_msg registry (rat_default dataset))), w1))
          = (Ok groups, w1)) as ->.
  { repeat case_match; by inversion Eg. }
  destruct (FS.makedirs true folder (w_fs w)) as [f|e|] eqn:Emk; [|discriminate..].
  pose proof (respects_for_collect kinds_kept _ _ kinds_kept_refl kinds_kept_trans
                (rat_fetch_file_kinds_kept (rat_doi doi) folder) _ _ _ Hrun) as Hkept.
  destruct (rat_fetch_loop_ok _ _ _ _ _ _ Hrun) as (-> & _ & Hall).
  rewrite (makedirs_again folder (w_fs w) f (w_fs w1) Emk).
  - rewrite set_fs_same. by apply rat_fetch_loop_present.
  - intros k Hk. by apply (Hkept k).
Qed.

Lemma rat_fetch_again_witness :
  let w1 := snd (rat_fetch false sample_registry (Some "all") "dl" None online) in
  rat_fetch false sample_registry (Some "all") "dl" None w1
  = (Ok ["dl/S01.zip"; "dl/S02.zip"; "dl/S03.zip"], w1).
Proof.
  intros w1.
  apply (rat_fetch_again sample_registry (Some "all") "dl" None online).
  vm_compute; reflexivity.
Defined.

(** ** The Remote-Tree Fetcher: the mirror *)

Lemma endswith_sep_no_sep s : Py.has_sep s = false -> Py.endswith s "/" = false.
Proof.
  induction s as [|c r IH]; [reflexivity|]. cbn [Py.has_sep Py.endswith].
  intros H. apply orb_false_iff in H as [Hc Hr]. rewrite (IH Hr), orb_false_r.
  destruct r; cbn; by rewrite Hc.
Qed.

Lemma endswith_app x t p : t <> "" -> String.length p = 1 ->
  Py.endswith (x +:+ t) p = Py.endswith t p.
Proof.
  intros Ht Hp. induction x as [|c r IH]; [reflexivity|].
  rewrite append_cons. cbn [Py.endswith]. rewrite IH.
  assert (String.eqb (String c (r +:+ t)) p = false) as ->; [|reflexivity].
  apply String.eqb_neq. intros <-. cbn in Hp.
  destruct r; [destruct t; [done | discriminate] | discriminate].
Qed.

Lemma path_join_name_not_dir_path local name :
  Py.is_name name = true -> Py.endswith (Py.path_join local name) "/" = false.
Proof.
  intros Hname. apply is_name_inv in Hname as (Hne & _ & _ & Hsep).
  assert (name <> "") as Hne' by (intros ->; done).
  unfold Py.path_join. destruct (Py.startswith name "/"); [by apply endswith_sep_no_sep|].
  destruct (String.eqb local "" || Py.endswith local "/").
  - rewrite endswith_app by done. by apply endswith_sep_no_sep.
  - change (local +:+ "/" +:+ name) with (local +:+ String "/" name).
    rewrite endswith_app by done. cbn [Py.endswith].
    rewrite endswith_sep_no_sep by done.
    destruct name; [done | reflexivity].
Qed.

Lemma path_join_name_nonempty local name :
  Py.is_name name = true -> Py.path_join local name <> "".
Proof.
  intros Hname. apply is_name_inv in Hname as (Hne & _).
  assert (forall x t, t <> "" -> x +:+ t <> "") as Happ.
  { intros [|c x] t Ht; [exact Ht | discriminate]. }
  unfold Py.path_join. repeat case_match; try apply Happ; try discriminate;
    intros ->; done.
Qed.

(** Opening a proper name for writing in an existing directory can only
    fail because the name is taken by a directory. *)
Lemma write_in_dir fs local name data :
  Py.is_name name = true -> FS.isdir fs local = true ->
  (exists f, FS.write_file (Py.path_join local name) data fs = Ok f) \/
  FS.isdir fs (Py.path_join local name) = true.
Proof.
  intros Hname Hdir.
  pose proof (components_join local [name] ltac:(by repeat constructor)) as Hc.
  change (Py.join_with "/" [name]) with name in Hc.
  unfold FS.write_file, FS.resolve.
  replace (FS.isdir fs (Py.path_join local name))
    with (match (if String.eqb (Py.path_join local name) "" then None
                 else Some (FS.components (Py.path_join local name))) with
          | Some k => match FS.lookup fs k with Some FS.Dir => true | _ => false end
          | None => false
          end) by reflexivity.
  rewrite path_join_name_not_dir_path by done.
  destruct (String.eqb (Py.path_join local name) "") eqn:E.
  { apply String.eqb_eq in E. by apply path_join_name_nonempty in E. }
  rewrite Hc. destruct (FS.components local ++ [name])%list as [|s r] eqn:Ek.
  { by destruct (FS.components local). }
  rewrite <- Ek, removelast_last.
  unfold FS.isdir, FS.resolve in Hdir.
  destruct (String.eqb local ""); [done|].
  destruct (FS.lookup fs (FS.components local)) as [[]|]; try done.
  rewrite Ek. cbn [FS.lookup].
  destruct (fs !! (s :: r)) as [[]|]; [left | by right | left]; eauto.
Qed.

Lemma kinds_kept_exists w w' p :
  kinds_kept w w' -> FS.exists_ (w_fs w) p = true -> FS.exists_ (w_fs w') p = true.
Proof.
  unfold FS.exists_. intros Hk. destruct (FS.resolve p) as [[|s r]|]; [done| |done].
  unfold FS.lookup. destruct (w_fs w !! (s :: r)) as [[d|]|] eqn:E; [| |done]; intros _.
  - destruct (Hk (s :: r)) as [Hf _]. by destruct (Hf d E) as [d' ->].
  - destruct (Hk (s :: r)) as [_ Hd]. by rewrite (Hd E).
Qed.

Lemma respects_log (R : world -> world -> Prop) e :
  (forall w, R w (log e w)) -> respects R (fun w => (Ok tt, log e w)).
Proof. intros HR w r w' H. inversion H. apply HR. Qed.

Lemma kinds_kept_log e w : kinds_kept w (log e w).
Proof. intros k. cbn. split; eauto. Qed.

Lemma respects_write_file_kinds p data : respects kinds_kept (write_file p data).
Proof.
  apply respects_lift_fs; [apply kinds_kept_refl|]. intros w f. apply kinds_kept_write.
Qed.

(** Composition steps for [kinds_kept]. *)
Ltac kinds_step lem :=
  apply lem; try exact kinds_kept_refl; try exact kinds_kept_trans.

Lemma write_to_kinds_kept file local_file : respects kinds_kept (write_to file local_file).
Proof.
  unfold write_to. kinds_step @respects_bind.
  - apply respects_log, kinds_kept_log.
  - intros _. destruct (rf_payload file); [apply respects_write_file_kinds|].
    kinds_step @respects_bind; [apply respects_write_file_kinds|].
    intros _. kinds_step @respects_raise.
Qed.

Lemma download_file_kinds_kept verbose local file :
  respects kinds_kept (download_file verbose local file).
Proof.
  unfold download_file. kinds_step @respects_try_except.
  - kinds_step @respects_bind; [|intros _; apply write_to_kinds_kept].
    unfold open_wb. kinds_step @respects_bind.
    + apply respects_log, kinds_kept_log.
    + intros _. apply respects_write_file_kinds.
  - intros e. kinds_step @respects_when.
    intros w r w' H. inversion H. apply kinds_kept_log.
Qed.

Lemma download_kinds_kept verbose cur : forall local,
  respects kinds_kept (download verbose cur local).
Proof.
  induction cur as [name files folders IH] using rfolder_tree_ind. intros local.
  cbn [download]. kinds_step @respects_bind.
  { apply respects_lift_fs; [apply kinds_kept_refl|]. intros w f. apply kinds_kept_makedirs. }
  intros _. kinds_step @respects_bind.
  { kinds_step @respects_for_each. intros x _. apply download_file_kinds_kept. }
  intros _. kinds_step @respects_for_each.
  intros sub Hsub. rewrite Forall_forall in IH. by apply IH.
Qed.

(** The file of a proper name, downloaded into an existing directory,
    exists afterwards. *)
Lemma download_file_exists verbose local file w w' :
  Py.is_name (rf_name file) = true ->
  FS.isdir (w_fs w) local = true ->
  download_file verbose local file w = (Ok tt, w') ->
  FS.exists_ (w_fs w') (Py.path_join local (rf_name file)) = true.
Proof.
  intros Hname Hdir Hrun.
  pose proof (download_file_kinds_kept verbose local file w _ _ Hrun) as Hkept.
  destruct (write_in_dir (w_fs w) local (rf_name file) "" Hname Hdir) as [[f Hf]|Htaken].
  - set (p := Py.path_join local (rf_name file)) in *.
    set (w0 := set_fs f (log (EOpen p) w)).
    assert (open_wb p w = (Ok tt, w0)) as Hopen.
    { unfold open_wb, bind, write_file, lift_fs. cbn [w_fs log]. by rewrite Hf. }
    assert (FS.exists_ (w_fs w0) p = true) as H0.
    { apply isfile_exists. cbn. eapply write_file_isfile; eauto. }
    assert (kinds_kept w0 w') as Hk0; [|eapply kinds_kept_exists; eauto].
    unfold download_file in Hrun. fold p in Hrun. unfold try_except in Hrun.
    erewrite bind_run in Hrun by exact Hopen.
    destruct (write_to file p w0) as [[[]|e|] w2] eqn:Ewt.
    + inversion Hrun; subst. eapply write_to_kinds_kept; eauto.
    + eapply kinds_kept_trans; [eapply write_to_kinds_kept; eauto|].
      destruct verbose; cbn [when] in Hrun; inversion Hrun; subst;
        [apply kinds_kept_log | apply kinds_kept_refl].
    + discriminate.
  - eapply kinds_kept_exists; [exact Hkept|]. by apply isdir_exists.
Qed.

Lemma download_files_exist verbose local files : forall w w',
  Forall (fun f => Py.is_name (rf_name f) = true) files ->
  FS.isdir (w_fs w) local = true ->
  for_each files (download_file verbose local) w = (Ok tt, w') ->
  forall f, f ∈ files -> FS.exists_ (w_fs w') (Py.path_join local (rf_name f)) = true.
Proof.
  induction files as [|x files IH]; intros w w' Hnames Hdir Hrun f Hin.
  - by apply elem_of_nil in Hin.
  - rewrite for_each_cons in Hrun. apply bind_ok_inv in Hrun as ([] & w1 & Hx & Hrest).
    inversion Hnames as [|? ? Hxn Hrn]; subst.
    pose proof (download_file_kinds_kept verbose local x w _ _ Hx) as Hk1.
    apply elem_of_cons in Hin as [->|Hin].
    + eapply kinds_kept_exists.
      * eapply (respects_for_each kinds_kept kinds_kept_refl kinds_kept_trans);
          [|exact Hrest]. intros y _. apply download_file_kinds_kept.
      * eapply download_file_exists; eauto.
    + eapply (IH w1 w'); [exact Hrn | | exact Hrest | exact Hin].
      eapply kinds_kept_isdir; eauto.
Qed.

(** X7.  The mirror is complete.  For a tree whose files have proper
    names: when the traversal returns, every folder of the tree is a local
    directory and the local file of every file of the tree exists, the
    files whose download failed included. *)
Theorem download_mirrors_tree verbose cur : forall local w w',
  file_names_ok cur ->
  download verbose cur local w = (Ok tt, w') ->
  (forall d, d ∈ local_dirs cur local -> FS.isdir (w_fs w') d = true) /\
  (forall p, p ∈ local_files cur local -> FS.exists_ (w_fs w') p = true).
Proof.
  induction cur as [name files folders IH] using rfolder_tree_ind.
  intros local w w' [Hfiles Hsubs] Hrun. cbn [download local_dirs local_files] in *.
  apply bind_ok_inv in Hrun as ([] & w0 & Hmk & Hrun).
  apply bind_ok_inv in Hrun as ([] & w1 & Hfl & Hrun).
  assert (FS.isdir (w_fs w0) local = true) as Hdir0.
  { apply lift_fs_ok_inv in Hmk as (f & Hf & ->). cbn. eapply makedirs_isdir; eauto. }
  assert (kinds_kept w0 w1) as Hk01.
  { eapply (respects_for_each kinds_kept kinds_kept_refl kinds_kept_trans); [|exact Hfl].
    intros y _. apply download_file_kinds_kept. }
  assert (kinds_kept w1 w') as Hk1.
  { eapply (respects_for_each kinds_kept kinds_kept_refl kinds_kept_trans); [|exact Hrun].
    intros sub _. apply download_kinds_kept. }
  assert ((forall d,
             d ∈ flat_map (fun sub => local_dirs sub (Py.path_join local (rfo_name sub)))
                   folders -> FS.isdir (w_fs w') d = true) /\
          (forall p,
             p ∈ flat_map (fun sub => local_files sub (Py.path_join local (rfo_name sub)))
                   folders -> FS.exists_ (w_fs w') p = true)) as [Hsd Hsf].
  { clear Hfl Hk01 Hk1 Hmk Hdir0 Hfiles. revert w1 Hrun.
    induction IH as [|sub folders Hsub _ IHf]; intros w1 Hrun.
    - split; intros x Hx; by apply elem_of_nil in Hx.
    - destruct Hsubs as [Hok Hsubs].
      rewrite for_each_cons in Hrun. apply bind_ok_inv in Hrun as ([] & w2 & Hs & Hrest).
      destruct (Hsub _ _ _ Hok Hs) as [Hd2 Hf2].
      destruct (IHf Hsubs w2 Hrest) as [Hd' Hf'].
      assert (kinds_kept w2 w') as Hk2.
      { eapply (respects_for_each kinds_kept kinds_kept_refl kinds_kept_trans);
          [|exact Hrest]. intros s _. apply download_kinds_kept. }
      cbn [flat_map]. split; intros x Hx; apply elem_of_app in Hx as [Hx|Hx].
      + eapply kinds_kept_isdir; eauto.
      + by apply Hd'.
      + eapply kinds_kept_exists; eauto.
      + by apply Hf'. }
  split.
  - intros d Hd. apply elem_of_cons in Hd as [->|Hd]; [|by apply Hsd].
    eapply kinds_kept_isdir; [exact Hk1|]. eapply kinds_kept_isdir; eauto.
  - intros p Hp. apply elem_of_app in Hp as [Hp|Hp]; [|by apply Hsf].
    apply list_elem_of_fmap in Hp as (f & -> & Hin).
    eapply kinds_kept_exists; [exact Hk1|]. eapply download_files_exist; eauto.
Qed.

Lemma download_mirrors_tree_witness :
  let w' := snd (download true sample_storage "dir" osf_world) in
  (forall d, d ∈ ["dir"; "dir/sub"] -> FS.isdir (w_fs w') d = true) /\
  (forall p, p ∈ ["dir/a.txt"; "dir/data.zip"; "dir/sub/b.txt"; "dir/sub/bad.zip"] ->
             FS.exists_ (w_fs w') p = true).
Proof.
  intros w'.
  apply (download_mirrors_tree true sample_storage "dir" osf_world w').
  - cbn. repeat split; repeat constructor.
  - vm_compute; reflexivity.
Defined.

(** ** The Remote-Tree Fetcher: edges of path resolution and extraction *)

(** X8.  A remote path made of separators only does not mean the root:
    it is not empty, so it is resolved, and stripped it has the one
    segment [''], which no folder of the storage is named; the call raises
    [FileNotFoundError] for that empty segment, with nothing opened. *)
Theorem osf_fetch_separators_only unzip fuel dataset folder project token extract verbose
        w f storage :
  dataset <> "" ->
  Py.strip "/" dataset = "" ->
  FS.makedirs true folder (w_fs w) = Ok f ->
  w_osf_access w token project = None ->
  w_osf w !! project = Some storage ->
  (forall g, g ∈ rfo_folders storage -> rfo_name g <> "") ->
  osf_fetch false unzip fuel dataset folder project token extract verbose w
  = (Raise (Exn FileNotFoundError
              ("Folder '' not found when navigating path '" +:+ dataset +:+ "'.")),
     set_fs f w).
Proof.
  intros Hne Hstrip Hmk Hacc Hst Hnone. unfold osf_fetch.
  erewrite bind_run; [|unfold os_makedirs, lift_fs; rewrite Hmk; reflexivity].
  erewrite bind_run; [|by apply osf_connect_run].
  assert (Py.truthy (Some dataset) = true) as ->.
  { unfold Py.truthy. destruct dataset; [done | reflexivity]. }
  rewrite Hstrip. erewrite bind_raise; [reflexivity|].
  cbn [Py.split navigate]. by rewrite find_folder_none.
Qed.

Lemma osf_fetch_separators_only_witness :
  osf_fetch false sample_unzip 5 "//" "dir" "un5ct" None true true osf_world
  = (Raise (Exn FileNotFoundError "Folder '' not found when navigating path '//'."),
     set_fs (<[ ["dir"] := FS.Dir ]> ∅) osf_world).
Proof.
  apply (osf_fetch_separators_only sample_unzip 5 "//" "dir" "un5ct" None true true
           osf_world (<[ ["dir"] := FS.Dir ]> ∅) sample_storage).
  - discriminate.
  - vm_compute; reflexivity.
  - vm_compute; reflexivity.
  - reflexivity.
  - vm_compute; reflexivity.
  - intros g Hg. apply list_elem_of_singleton in Hg. by subst g.
Defined.

Lemma find_folder_none_inv part folders :
  find_folder part folders = None -> forall f, f ∈ folders -> rfo_name f <> part.
Proof.
  unfold find_folder. induction folders as [|g l IH]; intros H f Hin.
  - by apply elem_of_nil in Hin.
  - simpl in H. destruct (String.eqb (rfo_name g) part) eqn:E; [discriminate|].
    apply elem_of_cons in Hin as [->|Hin]; [by apply String.eqb_neq | by apply IH].
Qed.

(** X9.  Path resolution reads only: it leaves the world as it is, and
    it ends in one of two ways, with a folder of the storage or with
    [FileNotFoundError] for a segment of the path that is missing where the
    descent has arrived. *)
Theorem navigate_outcome dataset parts : forall cur w,
  (exists target, navigate dataset cur parts w = (Ok target, w)) \/
  (exists part,
     part ∈ parts /\ missing_segment cur parts part /\
     navigate dataset cur parts w
     = (Raise (Exn FileNotFoundError (osf_missing_msg part dataset)), w)).
Proof.
  induction parts as [|part rest IH]; intros cur w; [left; by exists cur|].
  cbn [navigate]. destruct (find_folder part (rfo_folders cur)) as [f|] eqn:Ef.
  - destruct (IH f w) as [[target Ht]|(m & Hin & Hmiss & Hm)].
    + left. by exists target.
    + right. exists m. split; [by right|]. split; [|exact Hm].
      eapply missing_below; eauto.
  - right. exists part. split; [left|]. split; [|reflexivity].
    apply missing_here. by apply find_folder_none_inv.
Qed.

Lemma mkdir_p_onto_file p todo : forall fs above d,
  todo <> [] ->
  fs !! (rev above ++ todo)%list = Some (FS.File d) ->
  FS.mkdir_p true p fs above todo = Raise (Exn FileExistsError p) \/
  FS.mkdir_p true p fs above todo = Raise (Exn NotADirectoryError p).
Proof.
  induction todo as [|s r IH]; intros fs above d Hne Hfile; [done|].
  cbn [FS.mkdir_p].
  assert (rev above ++ s :: r = rev (s :: above) ++ r)%list as Hpath.
  { cbn [rev]. by rewrite <- app_assoc. }
  destruct r as [|s' r'].
  - rewrite Hpath, app_nil_r in Hfile. rewrite Hfile. by left.
  - destruct (fs !! rev (s :: above)) as [[d'|]|] eqn:E.
    + by right.
    + eapply IH; [done|]. by rewrite <- Hpath.
    + eapply IH; [done|]. rewrite <- Hpath.
      rewrite lookup_insert_ne; [exact Hfile|].
      intros Heq. apply (f_equal List.length) in Heq.
      rewrite Hpath, length_app in Heq. cbn in Heq. lia.
Qed.

(** X10.  The directory an archive is extracted into is created outside
    the [try]: when the name of the archive without its last four
    characters is taken by a regular file, the loop body raises
    ([FileExistsError], or [NotADirectoryError] when a file sits higher on
    the way); nothing is caught, the archive is not opened and the world is
    as before. *)
Theorem extract_archive_stem_taken unzip verbose dirpath filename w :
  Py.endswith (Py.lower filename) ".zip" = true ->
  FS.isfile (w_fs w) (Py.path_join dirpath (Py.drop_last 4 filename)) = true ->
  exists cls,
    (cls = FileExistsError \/ cls = NotADirectoryError) /\
    extract_archive unzip verbose dirpath filename w
    = (Raise (Exn cls (Py.path_join dirpath (Py.drop_last 4 filename))), w).
Proof.
  intros Hzip Hfile. unfold extract_archive. rewrite Hzip.
  set (extract_to := Py.path_join dirpath (Py.drop_last 4 filename)) in *.
  assert (FS.makedirs true extract_to (w_fs w) = Raise (Exn FileExistsError extract_to) \/
          FS.makedirs true extract_to (w_fs w) = Raise (Exn NotADirectoryError extract_to))
    as Hmk.
  { unfold FS.isfile in Hfile. unfold FS.makedirs.
    destruct (FS.resolve extract_to) as [[|s r]|]; [done| |done].
    cbn [FS.lookup] in Hfile.
    destruct (w_fs w !! (s :: r)) as [[d|]|] eqn:E; [|done|done].
    eapply (mkdir_p_onto_file extract_to (s :: r) (w_fs w) [] d); [done | exact E]. }
  destruct Hmk as [Hmk|Hmk]; eexists; (split; [|
    erewrite bind_raise; [reflexivity|];
    unfold os_makedirs, lift_fs; rewrite Hmk; reflexivity]); auto.
Qed.

Lemma extract_archive_stem_taken_witness :
  let w :=
    World (<[ ["dir"; "data"] := FS.File "notes" ]>
             (<[ ["dir"; "data.zip"] := FS.File "PK:inner.csv" ]> (<[ ["dir"] := FS.Dir ]> ∅)))
          (fun _ _ => GetResponse 200 "data") (fun _ _ => None) ∅ (fun _ _ => None) [] in
  fst (extract_archive sample_unzip true "dir" "data.zip" w)
  = Raise (Exn FileExistsError "dir/data") /\
  exists cls,
    (cls = FileExistsError \/ cls = NotADirectoryError) /\
    extract_archive sample_unzip true "dir" "data.zip" w
    = (Raise (Exn cls (Py.path_join "dir" (Py.drop_last 4 "data.zip"))), w).
Proof.
  intros w. split; [vm_compute; reflexivity|].
  apply (extract_archive_stem_taken sample_unzip true "dir" "data.zip" w);
    vm_compute; reflexivity.
Defined.

(** ** The Remote Uploader: every way through it *)

Lemma remote_calls_log e w :
  remote_calls (log e w) =
  (remote_calls w ++
   match e with ERemove _ | ECreateFile _ _ => [e] | _ => [] end)%list.
Proof. unfold remote_calls, log. cbn [w_trace]. rewrite List.filter_app. by destruct e. Qed.

Lemma remote_calls_set_osf o w : remote_calls (set_osf o w) = remote_calls w.
Proof. reflexivity. Qed.

Lemma when_print_run verbose msg w :
  exists w', when verbose (print msg) w = (Ok tt, w') /\
             w_fs w' = w_fs w /\ w_osf w' = w_osf w /\
             w_osf_create w' = w_osf_create w /\
             remote_calls w' = remote_calls w.
Proof.
  destruct verbose; cbn [when]; eexists; (split; [reflexivity|]); repeat split.
  by rewrite remote_calls_log, app_nil_r.
Qed.

Lemma read_file_run p w data :
  read_file p w = (Ok data, w) -> FS.isfile (w_fs w) p = true.
Proof.
  intros H. apply read_file_inv in H as (k & Hk & Hne & Hdata & _).
  unfold FS.isfile. rewrite Hk. destruct k; [done|]. cbn. by rewrite Hdata.
Qed.

Lemma read_file_fs p w w' data :
  w_fs w' = w_fs w -> read_file p w = (Ok data, w) -> read_file p w' = (Ok data, w').
Proof.
  unfold read_file. intros ->. repeat case_match; intros Hr; by inversion Hr.
Qed.

Lemma find_filter_none {A} (p : A -> bool) (l : list A) :
  List.find p (List.filter (fun x => negb (p x)) l) = None.
Proof.
  induction l as [|x l IH]; [reflexivity|]. cbn.
  destruct (p x) eqn:E; cbn; [exact IH|]. by rewrite E.
Qed.

Lemma find_app_none {A} (p : A -> bool) (l1 l2 : list A) :
  List.find p l1 = None -> List.find p (l1 ++ l2) = List.find p l2.
Proof.
  induction l1 as [|x l1 IH]; [reflexivity|]. cbn.
  destruct (p x); [discriminate | exact IH].
Qed.

(** The upload proper, lines 273-283, once the existing file is out of
    the way. *)
Lemma upload_step folder project full_path verbose data w :
  read_file folder w = (Ok data, w) ->
  exists w1,
    when verbose
      (print ("Uploading '" +:+ Py.basename folder +:+ "' to '" +:+ full_path +:+ "'...")) w
    = (Ok tt, w1) /\
    w_fs w1 = w_fs w /\ w_osf w1 = w_osf w /\ w_osf_create w1 = w_osf_create w /\
    remote_calls w1 = remote_calls w /\
    create_file project full_path data w1
    = match w_osf_create w project full_path with
      | Some e => (Raise e, log (ECreateFile full_path data) w1)
      | None =>
          (Ok tt,
           set_osf
             (alter
                (fun st =>
                   RFolder (rfo_name st)
                     (rfo_files st ++
                        [RFile (Py.basename full_path) ("/" +:+ full_path) (Body data) None])
                     (rfo_folders st))
                project (w_osf w))
             (log (ECreateFile full_path data) w1))
      end.
Proof.
  intros Hread.
  destruct (when_print_run verbose
              ("Uploading '" +:+ Py.basename folder +:+ "' to '" +:+ full_path +:+ "'...") w)
    as (w1 & Hp & Hfs & Hosf & Hcr & Hcalls).
  exists w1. repeat split; try done.
  unfold create_file. rewrite Hcr. cbn [w_osf log]. rewrite Hosf.
  by destruct (w_osf_create w project full_path).
Qed.

(** X11.  Overwriting: with [overwrite=True], a remote file at the
    normalized path that can be removed, and a creation that succeeds,
    the upload returns; the storage was asked to remove the old file and
    then to create the new one, in that order and nothing else; afterwards
    the file found at the path holds the bytes of the local file, and the
    local disk is untouched. *)
Theorem osf_upload_replaces folder dataset project token verbose w storage existing data :
  read_file folder w = (Ok data, w) ->
  w_osf_access w token project = None ->
  w_osf w !! project = Some storage ->
  remote_at storage (Py.strip "/" dataset) = Some existing ->
  rf_remove existing = None ->
  w_osf_create w project (Py.strip "/" dataset) = None ->
  exists w' storage',
    osf_upload false folder dataset project token verbose true w = (Ok tt, w') /\
    w_fs w' = w_fs w /\
    remote_calls w'
    = (remote_calls w ++
       [ERemove (rf_path existing); ECreateFile (Py.strip "/" dataset) data])%list /\
    w_osf w' !! project = Some storage' /\
    (rf_payload <$> remote_at storage' (Py.strip "/" dataset)) = Some (Body data).
Proof.
  intros Hread Hacc Hst Hex Hrm Hcr. unfold osf_upload.
  erewrite bind_run;
    [|unfold os_path_isfile; rewrite (read_file_run _ _ _ Hread); reflexivity].
  cbn [negb]. erewrite bind_run; [|by apply osf_connect_run]. cbn zeta.
  unfold remote_at in Hex. rewrite Hex.
  set (full_path := Py.strip "/" dataset) in *.
  destruct (when_print_run verbose
              ("File '" +:+ full_path +:+ "' already exists. Deleting before re-upload...") w)
    as (w1 & Hp1 & Hfs1 & Hosf1 & Hcr1 & Hcalls1).
  erewrite bind_run by exact Hp1.
  set (files2 := List.filter
                   (fun f => negb (String.eqb (rf_path f) (rf_path existing)))
                   (rfo_files storage)).
  set (w2 := set_osf
               (alter (fun st => RFolder (rfo_name st)
                                   (List.filter
                                      (fun f => negb (String.eqb (rf_path f) (rf_path existing)))
                                      (rfo_files st))
                                   (rfo_folders st))
                  project (w_osf (log (ERemove (rf_path existing)) w1)))
               (log (ERemove (rf_path existing)) w1)).
  assert (try_except (remote_remove project existing)
            (fun e => raise (Exn RuntimeError
                               ("Failed to delete existing file before overwrite: "
                                +:+ exn_msg e))) w1 = (Ok tt, w2)) as Hdel.
  { unfold try_except, remote_remove. by rewrite Hrm. }
  erewrite bind_run by exact Hdel.
  assert (read_file folder w2 = (Ok data, w2)) as Hread2.
  { eapply read_file_fs; [|exact Hread]. cbn. exact Hfs1. }
  erewrite bind_run by exact Hread2.
  destruct (upload_step folder project full_path verbose data w2 Hread2)
    as (w3 & Hp3 & Hfs3 & Hosf3 & Hcr3 & Hcalls3 & Hcreate).
  erewrite bind_run by exact Hp3.
  assert (w_osf_create w2 project full_path = None) as Hcr2.
  { cbn. by rewrite Hcr1. }
  rewrite Hcr2 in Hcreate. unfold try_except. erewrite bind_run by exact Hcreate.
  destruct (when_print_run verbose "Upload complete."
              (set_osf
                 (alter
                    (fun st => RFolder (rfo_name st)
                                 (rfo_files st ++
                                    [RFile (Py.basename full_path) ("/" +:+ full_path)
                                       (Body data) None])
                                 (rfo_folders st))
                    project (w_osf w2))
                 (log (ECreateFile full_path data) w3)))
    as (w4 & Hp4 & Hfs4 & Hosf4 & _ & Hcalls4).
  rewrite Hp4.
  exists w4, (RFolder (rfo_name storage)
                (files2 ++ [RFile (Py.basename full_path) ("/" +:+ full_path) (Body data) None])
                (rfo_folders storage)).
  split; [reflexivity|]. split; [|split; [|split]].
  - rewrite Hfs4. cbn. rewrite Hfs3. cbn. exact Hfs1.
  - rewrite Hcalls4, remote_calls_set_osf, remote_calls_log, Hcalls3. unfold w2.
    rewrite remote_calls_set_osf, remote_calls_log, Hcalls1. by rewrite <- !app_assoc.
  - rewrite Hosf4. unfold w2. cbn [w_osf set_osf log]. rewrite Hosf1.
    rewrite !lookup_alter_eq, Hst. reflexivity.
  - unfold remote_at. cbn [rfo_files].
    apply List.find_some in Hex as [_ Hpath]. apply String.eqb_eq in Hpath.
    rewrite find_app_none.
    + cbn. by rewrite String.eqb_refl.
    + unfold files2. rewrite Hpath. apply find_filter_none.
Qed.

Lemma osf_upload_replaces_witness :
  exists w' storage',
    osf_upload false "results.csv" "/Testing/results.csv" "un5ct" None true true
      upload_world = (Ok tt, w') /\
    w_fs w' = w_fs upload_world /\
    remote_calls w'
    = [ERemove "/Testing/results.csv"; ECreateFile "Testing/results.csv" "new"] /\
    w_osf w' !! "un5ct" = Some storage' /\
    (rf_payload <$> remote_at storage' "Testing/results.csv") = Some (Body "new").
Proof.
  apply (osf_upload_replaces "results.csv" "/Testing/results.csv" "un5ct" None true
           upload_world
           (RFolder "osfstorage"
              [RFile "results.csv" "/Testing/results.csv" (Body "old") None] [])
           (RFile "results.csv" "/Testing/results.csv" (Body "old") None) "new");
    vm_compute; reflexivity.
Defined.

(** X12.  Overwriting is not atomic: when the old remote file has been
    removed and the creation then fails, the call raises [RuntimeError]
    with the upload message, and the storage lists no file at the path any
    more: neither the old content nor the new. *)
Theorem osf_upload_failed_create_after_delete
  folder dataset project token verbose w storage existing data e :
  read_file folder w = (Ok data, w) ->
  w_osf_access w token project = None ->
  w_osf w !! project = Some storage ->
  remote_at storage (Py.strip "/" dataset) = Some existing ->
  rf_remove existing = None ->
  w_osf_create w project (Py.strip "/" dataset) = Some e ->
  exists w' storage',
    osf_upload false folder dataset project token verbose true w
    = (Raise (Exn RuntimeError ("Failed to upload file: " +:+ exn_msg e)), w') /\
    w_fs w' = w_fs w /\
    w_osf w' !! project = Some storage' /\
    remote_at storage' (Py.strip "/" dataset) = None /\
    rfo_files storage'
    = List.filter (fun f => negb (String.eqb (rf_path f) ("/" +:+ Py.strip "/" dataset)))
        (rfo_files storage).
Proof.
  intros Hread Hacc Hst Hex Hrm Hcr. unfold osf_upload.
  erewrite bind_run;
    [|unfold os_path_isfile; rewrite (read_file_run _ _ _ Hread); reflexivity].
  cbn [negb]. erewrite bind_run; [|by apply osf_connect_run]. cbn zeta.
  unfold remote_at in Hex. rewrite Hex.
  set (full_path := Py.strip "/" dataset) in *.
  destruct (when_print_run verbose
              ("File '" +:+ full_path +:+ "' already exists. Deleting before re-upload...") w)
    as (w1 & Hp1 & Hfs1 & Hosf1 & Hcr1 & Hcalls1).
  erewrite bind_run by exact Hp1.
  set (w2 := set_osf
               (alter (fun st => RFolder (rfo_name st)
                                   (List.filter
                                      (fun f => negb (String.eqb (rf_path f) (rf_path existing)))
                                      (rfo_files st))
                                   (rfo_folders st))
                  project (w_osf (log (ERemove (rf_path existing)) w1)))
               (log (ERemove (rf_path existing)) w1)).
  assert (try_except (remote_remove project existing)
            (fun e => raise (Exn RuntimeError
                               ("Failed to delete existing file before overwrite: "
                                +:+ exn_msg e))) w1 = (Ok tt, w2)) as Hdel.
  { unfold try_except, remote_remove. by rewrite Hrm. }
  erewrite bind_run by exact Hdel.
  assert (read_file folder w2 = (Ok data, w2)) as Hread2.
  { eapply read_file_fs; [|exact Hread]. cbn. exact Hfs1. }
  erewrite bind_run by exact Hread2.
  destruct (upload_step folder project full_path verbose data w2 Hread2)
    as (w3 & Hp3 & Hfs3 & Hosf3 & Hcr3 & Hcalls3 & Hcreate).
  erewrite bind_run by exact Hp3.
  assert (w_osf_create w2 project full_path = Some e) as Hcr2.
  { cbn. by rewrite Hcr1. }
  rewrite Hcr2 in Hcreate. unfold try_except.
  erewrite bind_raise by exact Hcreate. unfold raise.
  apply List.find_some in Hex as [_ Hpath]. apply String.eqb_eq in Hpath.
  exists (log (ECreateFile full_path data) w3),
    (RFolder (rfo_name storage)
       (List.filter (fun f => negb (String.eqb (rf_path f) (rf_path existing)))
          (rfo_files storage))
       (rfo_folders storage)).
  split; [reflexivity|]. split; [|split; [|split]].
  - cbn. rewrite Hfs3. cbn. exact Hfs1.
  - cbn [w_osf log]. rewrite Hosf3. unfold w2. cbn [w_osf set_osf log]. rewrite Hosf1.
    by rewrite lookup_alter_eq, Hst.
  - unfold remote_at. cbn [rfo_files]. rewrite Hpath. apply find_filter_none.
  - cbn [rfo_files]. by rewrite Hpath.
Qed.

Lemma osf_upload_failed_create_after_delete_witness :
  let w := World (w_fs upload_world) (w_http upload_world) (w_osf_access upload_world)
             (w_osf upload_world) (fun _ _ => Some (Exn RuntimeError "quota")) [] in
  exists w' storage',
    osf_upload false "results.csv" "/Testing/results.csv" "un5ct" None true true w
    = (Raise (Exn RuntimeError ("Failed to upload file: " +:+ "quota")), w') /\
    w_fs w' = w_fs w /\
    w_osf w' !! "un5ct" = Some storage' /\
    remote_at storage' "Testing/results.csv" = None /\
    rfo_files storage' = [].
Proof.
  intros w.
  apply (osf_upload_failed_create_after_delete "results.csv" "/Testing/results.csv" "un5ct"
           None true w
           (RFolder "osfstorage"
              [RFile "results.csv" "/Testing/results.csv" (Body "old") None] [])
           (RFile "results.csv" "/Testing/results.csv" (Body "old") None) "new"
           (Exn RuntimeError "quota"));
    vm_compute; reflexivity.
Defined.

(** X13.  When the removal of the existing remote file fails, the call
    raises [RuntimeError] with the deletion message; the storage is as
    before and no creation was attempted: the removal is the only remote
    call made. *)
Theorem osf_upload_delete_failure
  folder dataset project token verbose w storage existing e :
  FS.isfile (w_fs w) folder = true ->
  w_osf_access w token project = None ->
  w_osf w !! project = Some storage ->
  remote_at storage (Py.strip "/" dataset) = Some existing ->
  rf_remove existing = Some e ->
  exists w',
    osf_upload false folder dataset project token verbose true w
    = (Raise (Exn RuntimeError
                ("Failed to delete existing file before overwrite: " +:+ exn_msg e)), w') /\
    w_fs w' = w_fs w /\
    w_osf w' = w_osf w /\
    remote_calls w' = (remote_calls w ++ [ERemove ("/" +:+ Py.strip "/" dataset)])%list.
Proof.
  intros Hfile Hacc Hst Hex Hrm. unfold osf_upload.
  erewrite bind_run; [|unfold os_path_isfile; rewrite Hfile; reflexivity].
  cbn [negb]. erewrite bind_run; [|by apply osf_connect_run]. cbn zeta.
  unfold remote_at in Hex. rewrite Hex.
  set (full_path := Py.strip "/" dataset) in *.
  destruct (when_print_run verbose
              ("File '" +:+ full_path +:+ "' already exists. Deleting before re-upload...") w)
    as (w1 & Hp1 & Hfs1 & Hosf1 & Hcr1 & Hcalls1).
  erewrite bind_run by exact Hp1.
  apply List.find_some in Hex as [_ Hpath]. apply String.eqb_eq in Hpath.
  erewrite bind_raise;
    [|unfold try_except, remote_remove; rewrite Hrm; unfold raise; reflexivity].
  eexists. split; [reflexivity|]. split; [exact Hfs1|]. split; [exact Hosf1|].
  by rewrite remote_calls_log, Hcalls1, Hpath.
Qed.

Lemma osf_upload_delete_failure_witness :
  let locked := RFile "results.csv" "/Testing/results.csv" (Body "old")
                  (Some (Exn RuntimeError "locked")) in
  let w := World (w_fs upload_world) (w_http upload_world) (w_osf_access upload_world)
             (<[ "un5ct" := RFolder "osfstorage" [locked] [] ]> ∅)
             (fun _ _ => None) [] in
  exists w',
    osf_upload false "results.csv" "/Testing/results.csv" "un5ct" None true true w
    = (Raise (Exn RuntimeError
                ("Failed to delete existing file before overwrite: " +:+ "locked")), w') /\
    w_fs w' = w_fs w /\
    w_osf w' = w_osf w /\
    remote_calls w' = [ERemove "/Testing/results.csv"].
Proof.
  intros locked w.
  apply (osf_upload_delete_failure "results.csv" "/Testing/results.csv" "un5ct"
           None true w (RFolder "osfstorage" [locked] []) locked
           (Exn RuntimeError "locked"));
    vm_compute; reflexivity.
Defined.

(** X14.  A path the storage does not list yet: the file is uploaded
    whatever [overwrite] says; the storage lists the files it had, followed
    by the new one, whose path is [/] and the normalized remote path and
    whose content is that of the local file; the creation is the only
    remote call. *)
Theorem osf_upload_new_path folder dataset project token verbose overwrite w storage data :
  read_file folder w = (Ok data, w) ->
  w_osf_access w token project = None ->
  w_osf w !! project = Some storage ->
  remote_at storage (Py.strip "/" dataset) = None ->
  w_osf_create w project (Py.strip "/" dataset) = None ->
  exists w' storage' new,
    osf_upload false folder dataset project token verbose overwrite w = (Ok tt, w') /\
    w_fs w' = w_fs w /\
    w_osf w' !! project = Some storage' /\
    rfo_files storage' = (rfo_files storage ++ [new])%list /\
    rfo_folders storage' = rfo_folders storage /\
    rf_path new = "/" +:+ Py.strip "/" dataset /\
    rf_payload new = Body data /\
    remote_at storage' (Py.strip "/" dataset) = Some new /\
    remote_calls w' = (remote_calls w ++ [ECreateFile (Py.strip "/" dataset) data])%list.
Proof.
  intros Hread Hacc Hst Hex Hcr. unfold osf_upload.
  erewrite bind_run;
    [|unfold os_path_isfile; rewrite (read_file_run _ _ _ Hread); reflexivity].
  cbn [negb]. erewrite bind_run; [|by apply osf_connect_run]. cbn zeta.
  unfold remote_at in Hex. rewrite Hex.
  set (full_path := Py.strip "/" dataset) in *.
  erewrite bind_run by exact Hread.
  destruct (upload_step folder project full_path verbose data w Hread)
    as (w3 & Hp3 & Hfs3 & Hosf3 & Hcr3 & Hcalls3 & Hcreate).
  erewrite bind_run by exact Hp3.
  rewrite Hcr in Hcreate. unfold try_except. erewrite bind_run by exact Hcreate.
  destruct (when_print_run verbose "Upload complete."
              (set_osf
                 (alter
                    (fun st => RFolder (rfo_name st)
                                 (rfo_files st ++
                                    [RFile (Py.basename full_path) ("/" +:+ full_path)
                                       (Body data) None])
                                 (rfo_folders st))
                    project (w_osf w))
                 (log (ECreateFile full_path data) w3)))
    as (w4 & Hp4 & Hfs4 & Hosf4 & _ & Hcalls4).
  rewrite Hp4.
  exists w4, (RFolder (rfo_name storage)
                (rfo_files storage ++
                   [RFile (Py.basename full_path) ("/" +:+ full_path) (Body data) None])
                (rfo_folders storage)),
    (RFile (Py.basename full_path) ("/" +:+ full_path) (Body data) None).
  split; [reflexivity|]. repeat split.
  - rewrite Hfs4. cbn. exact Hfs3.
  - rewrite Hosf4. cbn [w_osf set_osf log]. by rewrite lookup_alter_eq, Hst.
  - unfold remote_at. cbn [rfo_files]. rewrite find_app_none by exact Hex.
    cbn. by rewrite String.eqb_refl.
  - by rewrite Hcalls4, remote_calls_set_osf, remote_calls_log, Hcalls3.
Qed.

Lemma osf_upload_new_path_witness :
  exists w' storage' new,
    osf_upload false "results.csv" "Testing/other.csv/" "un5ct" None true false
      upload_world = (Ok tt, w') /\
    w_fs w' = w_fs upload_world /\
    w_osf w' !! "un5ct" = Some storage' /\
    rfo_files storage'
    = [RFile "results.csv" "/Testing/results.csv" (Body "old") None; new] /\
    rfo_folders storage' = [] /\
    rf_path new = "/Testing/other.csv" /\
    rf_payload new = Body "new" /\
    remote_at storage' "Testing/other.csv" = Some new /\
    remote_calls w' = [ECreateFile "Testing/other.csv" "new"].
Proof.
  apply (osf_upload_new_path "results.csv" "Testing/other.csv/" "un5ct" None true false
           upload_world
           (RFolder "osfstorage"
              [RFile "results.csv" "/Testing/results.csv" (Body "old") None] [])
           "new");
    vm_compute; reflexivity.
Defined.

(** What a returned upload leaves behind: the local file is still there,
    the connection is as it was, and the storage lists a file at the
    remote path. *)
Lemma osf_upload_ok_inv folder dataset project token verbose overwrite w w1 :
  osf_upload false folder dataset project token verbose overwrite w = (Ok tt, w1) ->
  FS.isfile (w_fs w1) folder = true /\
  w_osf_access w1 token project = None /\
  exists storage1 f,
    w_osf w1 !! project = Some storage1 /\
    remote_at storage1 (Py.strip "/" dataset) = Some f.
Proof.
  unfold osf_upload. intros Hrun.
  apply bind_ok_inv in Hrun as (is_file & w0 & Hf & Hrun).
  unfold os_path_isfile in Hf. inversion Hf; subst is_file w0. clear Hf.
  destruct (FS.isfile (w_fs w) folder) eqn:Efile; cbn [negb] in Hrun; [|discriminate].
  apply bind_ok_inv in Hrun as (storage & w0 & Hc & Hrun).
  unfold osf_connect in Hc.
  destruct (w_osf_access w token project) eqn:Eacc; [discriminate|].
  destruct (w_osf w !! project) as [st|] eqn:Est; [|discriminate].
  inversion Hc; subst st w0. clear Hc. cbn zeta in Hrun.
  set (full_path := Py.strip "/" dataset) in *.
  assert (forall w2 w3,
            w_fs w2 = w_fs w -> w_osf_access w2 = w_osf_access w ->
            (exists st2, w_osf w2 !! project = Some st2 /\
               List.find (fun f => String.eqb (rf_path f) ("/" +:+ full_path))
                 (rfo_files st2) = None) ->
            (do f <- read_file folder;
             do _ <- when verbose
                       (print ("Uploading '" +:+ Py.basename folder +:+ "' to '" +:+
                               full_path +:+ "'..."));
             try_except
               (do _ <- create_file project full_path f;
                when verbose (print "Upload complete."))
               (fun e => raise (Exn RuntimeError ("Failed to upload file: " +:+ exn_msg e))))
              w2 = (Ok tt, w3) ->
            FS.isfile (w_fs w3) folder = true /\
            w_osf_access w3 token project = None /\
            exists storage1 f,
              w_osf w3 !! project = Some storage1 /\
              remote_at storage1 full_path = Some f) as Hupload.
  { intros w2 w3 Hfs2 Hacc2 (st2 & Hst2 & Hnone) Hup.
    apply bind_ok_inv in Hup as (data & w4 & Hrd & Hup).
    apply read_file_inv in Hrd as (_ & _ & _ & _ & ->).
    apply bind_ok_inv in Hup as ([] & w5 & Hp & Hup).
    apply try_except_ok_inv in Hup as [Hup|(e & w6 & _ & Hup)]; [|discriminate].
    apply bind_ok_inv in Hup as ([] & w6 & Hcr & Hup).
    assert (w_fs w5 = w_fs w2 /\ w_osf_access w5 = w_osf_access w2 /\ w_osf w5 = w_osf w2)
      as (Hfs5 & Hacc5 & Hosf5).
    { destruct verbose; cbn [when] in Hp; inversion Hp; by subst. }
    unfold create_file in Hcr.
    destruct (w_osf_create w5 project full_path); [discriminate|].
    inversion Hcr; subst w6. clear Hcr.
    assert (w_fs w3 = w_fs w5 /\ w_osf_access w3 = w_osf_access w5 /\
            w_osf w3 = alter
                         (fun st => RFolder (rfo_name st)
                                      (rfo_files st ++
                                         [RFile (Py.basename full_path) ("/" +:+ full_path)
                                            (Body data) None])
                                      (rfo_folders st))
                         project (w_osf w5)) as (Hfs3 & Hacc3 & Hosf3).
    { destruct verbose; cbn [when] in Hup; inversion Hup; by subst. }
    split; [by rewrite Hfs3, Hfs5, Hfs2|].
    split; [by rewrite Hacc3, Hacc5, Hacc2|].
    eexists _, _. split.
    - rewrite Hosf3, Hosf5, lookup_alter_eq, Hst2. reflexivity.
    - unfold remote_at. cbn [rfo_files]. rewrite find_app_none by exact Hnone.
      cbn. by rewrite String.eqb_refl. }
  destruct (List.find (fun f => String.eqb (rf_path f) ("/" +:+ full_path))
              (rfo_files storage)) as [existing|] eqn:Efind.
  - destruct overwrite.
    + apply bind_ok_inv in Hrun as ([] & w2 & Hp & Hrun).
      apply bind_ok_inv in Hrun as ([] & w3 & Hrm & Hrun).
      assert (w_fs w2 = w_fs w /\ w_osf_access w2 = w_osf_access w /\ w_osf w2 = w_osf w)
        as (Hfs2 & Hacc2 & Hosf2).
      { destruct verbose; cbn [when] in Hp; inversion Hp; by subst. }
      apply try_except_ok_inv in Hrm as [Hrm|(e & w6 & _ & Hrm)]; [|discriminate].
      unfold remote_remove in Hrm. destruct (rf_remove existing); [discriminate|].
      inversion Hrm; subst w3. clear Hrm.
      eapply Hupload; [| |  |exact Hrun].
      * cbn. exact Hfs2.
      * cbn. exact Hacc2.
      * eexists. split.
        -- cbn [w_osf set_osf log]. rewrite Hosf2, lookup_alter_eq, Est. reflexivity.
        -- cbn [rfo_files].
           apply List.find_some in Efind as [_ Hpath]. apply String.eqb_eq in Hpath.
           rewrite Hpath. apply find_filter_none.
    + apply bind_ok_inv in Hrun as ([] & w2 & Hp & Hrun).
      inversion Hrun; subst w2. clear Hrun.
      assert (w_fs w1 = w_fs w /\ w_osf_access w1 = w_osf_access w /\ w_osf w1 = w_osf w)
        as (Hfs2 & Hacc2 & Hosf2).
      { destruct verbose; cbn [when] in Hp; inversion Hp; by subst. }
      rewrite Hfs2, Hacc2, Hosf2. split; [done|]. split; [done|].
      by exists storage, existing.
  - eapply Hupload; [reflexivity|reflexivity| |exact Hrun]. by exists storage.
Qed.

(** X15.  After an upload that returned, whatever its flags, the file is
    on the storage: the same upload with [overwrite=False] then returns
    without an error and makes no remote call; the storage and the disk
    stay as the first call left them. *)
Theorem osf_upload_then_skip folder dataset project token verbose overwrite verbose' w w1 :
  osf_upload false folder dataset project token verbose overwrite w = (Ok tt, w1) ->
  exists w2,
    osf_upload false folder dataset project token verbose' false w1 = (Ok tt, w2) /\
    w_osf w2 = w_osf w1 /\
    w_fs w2 = w_fs w1 /\
    remote_calls w2 = remote_calls w1.
Proof.
  intros Hrun.
  apply osf_upload_ok_inv in Hrun as (Hfile & Hacc & storage1 & f & Hst & Hat).
  unfold osf_upload.
  erewrite bind_run; [|unfold os_path_isfile; rewrite Hfile; reflexivity].
  cbn [negb]. erewrite bind_run; [|by apply osf_connect_run]. cbn zeta.
  unfold remote_at in Hat. rewrite Hat.
  destruct (when_print_run verbose'
              ("File '" +:+ Py.strip "/" dataset +:+
               "' already exists. Skipping (overwrite=False).") w1)
    as (w2 & Hp & Hfs & Hosf & _ & Hcalls).
  erewrite bind_run by exact Hp. by exists w2.
Qed.

Lemma osf_upload_then_skip_witness :
  let w1 := snd (osf_upload false "results.csv" "/Testing/results.csv" "un5ct" None
                   false true upload_world) in
  osf_upload false "results.csv" "/Testing/results.csv" "un5ct" None false true
    upload_world = (Ok tt, w1) /\
  exists w2,
    osf_upload false "results.csv" "/Testing/results.csv" "un5ct" None false false w1
    = (Ok tt, w2) /\
    w_osf w2 = w_osf w1 /\ w_fs w2 = w_fs w1 /\ remote_calls w2 = remote_calls w1.
Proof.
  intros w1.
  assert (osf_upload false "results.csv" "/Testing/results.csv" "un5ct" None false true
            upload_world = (Ok tt, w1)) as H1 by (vm_compute; reflexivity).
  split; [exact H1|].
  exact (osf_upload_then_skip "results.csv" "/Testing/results.csv" "un5ct" None
           false true false upload_world w1 H1).
Defined.

(** X16.  What the uploader never does.  Whatever the arguments and the
    outcome, the local disk is as before, and the calls made on the
    storage are at most one removal followed by at most one creation: a
    removal only with [overwrite=True] and only of the normalized remote
    path, a creation only at that path and only with the content of the
    local file. *)
Theorem osf_upload_remote_calls folder dataset project token verbose overwrite w :
  let w' := snd (osf_upload false folder dataset project token verbose overwrite w) in
  w_fs w' = w_fs w /\
  exists rm cr,
    remote_calls w' = (remote_calls w ++ rm ++ cr)%list /\
    (rm = [] \/ overwrite = true /\ rm = [ERemove ("/" +:+ Py.strip "/" dataset)]) /\
    (cr = [] \/
     exists data, read_file folder w = (Ok data, w) /\
                  cr = [ECreateFile (Py.strip "/" dataset) data]).
Proof.
  cbn zeta.
  unfold osf_upload, bind, os_path_isfile, osf_connect, raise, try_except, remote_remove,
    create_file, read_file.
  destruct verbose; cbn [when]; unfold print, ret.
  all: repeat case_match; simplify_eq.
  all: cbn [snd w_fs w_osf_create log set_osf] in *; simplify_eq.
  all: split; [reflexivity|].
  all: repeat (rewrite remote_calls_set_osf || rewrite remote_calls_log).
  all: rewrite ?app_nil_r, <- ?app_assoc.
  all: try match goal with
    | Hf : List.find _ _ = Some _ |- _ =>
        apply List.find_some in Hf as [_ Hf]; apply String.eqb_eq in Hf; rewrite ?Hf
    end.
  all: first
    [ by (exists [], []; rewrite ?app_nil_r; split; [reflexivity|]; split; left)
    | by (eexists [_], []; split; [reflexivity|]; split; [right|left])
    | by (eexists [], [_]; split; [reflexivity|]; split; [left|right; eexists])
    | by (eexists [_], [_]; split; [reflexivity|]; split; [right|right; eexists]) ].
Qed.

(** * The report module: file helpers and caption *)

Lemma set_fs_set_fs f g w : set_fs f (set_fs g w) = set_fs f w.
Proof. reflexivity. Qed.

Lemma removelast_ne (k : list string) : k <> [] -> removelast k <> k.
Proof.
  intros Hne Heq. apply (f_equal (@List.length string)) in Heq.
  destruct k as [|a k]; [done|].
  rewrite (app_removelast_last a (l := a :: k)) in Heq at 2 by done.
  rewrite length_app in Heq. cbn in Heq. lia.
Qed.

Lemma lookup_delete_other (fs : FS.t) k k' :
  k <> k' -> FS.lookup (delete k' fs) k = FS.lookup fs k.
Proof.
  intros Hne. destruct k; [reflexivity|]. cbn [FS.lookup].
  by rewrite lookup_delete_ne.
Qed.

(** After the destination is out of the way: it is absent, its parent
    and the source are as before. *)
Lemma force_clear dst kd w :
  FS.resolve dst = Some kd ->
  FS.isdir (w_fs w) dst = false ->
  exists fs1,
    (do present <- os_path_exists dst; when present (os_remove dst)) w
    = (Ok tt, set_fs fs1 w) /\
    (fs1 = w_fs w \/ fs1 = delete kd (w_fs w)) /\
    kd <> [] /\ fs1 !! kd = None /\
    (forall n, <[kd := n]> fs1 = <[kd := n]> (w_fs w)).
Proof.
  intros Hres Hdir. unfold bind, os_path_exists, FS.exists_, FS.isdir in *.
  rewrite Hres in *. destruct kd as [|s r]; [discriminate|]. cbn [FS.lookup] in *.
  destruct (w_fs w !! (s :: r)) as [[d|]|] eqn:E; [| discriminate |].
  - exists (delete (s :: r) (w_fs w)). cbn [when].
    unfold os_remove, lift_fs, FS.remove. rewrite Hres, E.
    split; [reflexivity|]. split; [by right|]. split; [done|].
    split; [by rewrite lookup_delete_eq | intros n; by rewrite insert_delete_eq].
  - exists (w_fs w). cbn [when]. unfold ret. rewrite set_fs_same.
    split; [reflexivity|]. split; [by left|]. by repeat split.
Qed.

Lemma force_clear_lookup (fs fs1 : FS.t) kd k :
  fs1 = fs \/ fs1 = delete kd fs -> k <> kd -> FS.lookup fs1 k = FS.lookup fs k.
Proof. intros [->| ->] Hne; [reflexivity | by apply lookup_delete_other]. Qed.

(** [shutil.copy] onto a path that is free. *)
Lemma shutil_copy_free src dst w :
  FS.exists_ (w_fs w) dst = false ->
  shutil_copy src dst w = (do data <- read_file src; write_file dst data) w.
Proof.
  intros Hfree. unfold shutil_copy.
  assert (FS.isdir (w_fs w) dst = false) as Hdir.
  { unfold FS.exists_, FS.isdir in *. destruct (FS.resolve dst); [|done].
    by destruct (FS.lookup (w_fs w) l). }
  erewrite bind_run; [|unfold os_path_isdir; rewrite Hdir; reflexivity].
  cbn zeta. unfold bind at 1. unfold samefile. by rewrite Hfree, andb_false_r.
Qed.

(** X17.  Copying a regular file onto a path that is free or held by a
    regular file, in an existing directory: [force_copy] returns, and the
    disk is the disk before with the content of the source at the
    destination; the source and every other entry are as before. *)
Theorem force_copy_replaces src dst w data kd :
  read_file src w = (Ok data, w) ->
  Py.endswith src "/" = false ->
  FS.resolve dst = Some kd ->
  FS.resolve src <> Some kd ->
  Py.endswith dst "/" = false ->
  FS.isdir (w_fs w) dst = false ->
  FS.lookup (w_fs w) (removelast kd) = Some FS.Dir ->
  force_copy src dst w = (Ok tt, set_fs (<[kd := FS.File data]> (w_fs w)) w).
Proof.
  intros Hread _ Hres Hne Hslash Hdir Hparent. unfold force_copy.
  destruct (force_clear dst kd w Hres Hdir) as (fs1 & Hclear & Hfs1 & Hkd & Hnone & Hins).
  unfold bind in Hclear. unfold bind at 1 2.
  destruct (os_path_exists dst w) as [[present| |] w0]; try discriminate.
  rewrite Hclear. clear Hclear.
  apply read_file_inv in Hread as (ks & Hks & Hksne & Hdata & _).
  assert (ks <> kd) as Hkne by congruence.
  destruct kd as [|s r]; [done|].
  rewrite shutil_copy_free.
  2:{ unfold FS.exists_. rewrite Hres. cbn. by rewrite Hnone. }
  erewrite bind_run.
  2:{ unfold read_file. rewrite Hks. cbn [w_fs set_fs].
      rewrite (force_clear_lookup _ _ _ _ Hfs1 Hkne).
      destruct ks; [done|]. cbn [FS.lookup]. rewrite Hdata. reflexivity. }
  unfold write_file, lift_fs, FS.write_file. rewrite Hslash, Hres. cbn [w_fs set_fs].
  rewrite (force_clear_lookup _ _ (s :: r) _ Hfs1 (removelast_ne _ Hkd)), Hparent, Hnone.
  by rewrite Hins.
Qed.

Lemma force_copy_replaces_witness :
  let w := World (<[ ["out"; "cover.jpg"] := FS.File "old" ]>
                    (<[ ["out"] := FS.Dir ]> (<[ ["cover.jpg"] := FS.File "img" ]> ∅)))
             (fun _ _ => GetResponse 200 "data") (fun _ _ => None) ∅ (fun _ _ => None) [] in
  force_copy "cover.jpg" "out/cover.jpg" w
  = (Ok tt, set_fs (<[ ["out"; "cover.jpg"] := FS.File "img" ]> (w_fs w)) w).
Proof.
  intros w.
  apply (force_copy_replaces "cover.jpg" "out/cover.jpg" w "img" ["out"; "cover.jpg"]);
    try (vm_compute; reflexivity).
  vm_compute. congruence.
Defined.

(** X18.  Moving a regular file onto a path that is free or held by a
    regular file, in an existing directory: [force_move] returns, and the
    disk is the disk before without the source and with its content at the
    destination; every other entry is as before. *)
Theorem force_move_replaces src dst w data ks kd :
  FS.resolve src = Some ks ->
  w_fs w !! ks = Some (FS.File data) ->
  ks <> [] ->
  FS.lookup (w_fs w) (removelast ks) = Some FS.Dir ->
  Py.endswith src "/" = false ->
  FS.resolve dst = Some kd ->
  ks <> kd ->
  Py.endswith dst "/" = false ->
  FS.isdir (w_fs w) dst = false ->
  FS.lookup (w_fs w) (removelast kd) = Some FS.Dir ->
  force_move src dst w
  = (Ok tt, set_fs (<[kd := FS.File data]> (delete ks (w_fs w))) w).
Proof.
  intros Hks Hdata Hksne Hsparent Hsslash Hres Hkne Hslash Hdir Hparent. unfold force_move.
  destruct (force_clear dst kd w Hres Hdir) as (fs1 & Hclear & Hfs1 & Hkd & Hnone & Hins).
  unfold bind in Hclear. unfold bind at 1 2.
  destruct (os_path_exists dst w) as [[present| |] w0]; try discriminate.
  rewrite Hclear. clear Hclear.
  assert (removelast ks <> kd) as Hpne.
  { intros <-. unfold FS.isdir in Hdir. rewrite Hres, Hsparent in Hdir. discriminate. }
  unfold os_rename, lift_fs, fs_rename. cbn [w_fs set_fs]. rewrite Hks, Hres.
  rewrite (force_clear_lookup _ _ _ _ Hfs1 Hpne), Hsparent.
  rewrite (force_clear_lookup _ _ kd _ Hfs1 (removelast_ne _ Hkd)), Hparent.
  destruct ks as [|s0 r0]; [done|].
  change (fs1 !! (s0 :: r0)) with (FS.lookup fs1 (s0 :: r0)).
  rewrite (force_clear_lookup _ _ _ _ Hfs1 Hkne). cbn [FS.lookup]. rewrite Hdata.
  rewrite Hsslash, Hslash. cbn [orb].
  destruct kd as [|s r]; [done|]. cbn [FS.lookup]. rewrite Hnone.
  rewrite set_fs_set_fs. do 2 f_equal.
  apply map_eq. intros i.
  destruct (decide (i = s :: r)) as [->|Hi]; [by rewrite !lookup_insert_eq|].
  rewrite !lookup_insert_ne by done.
  destruct (decide (i = s0 :: r0)) as [->|Hj]; [by rewrite !lookup_delete_eq|].
  rewrite !lookup_delete_ne by done.
  assert (<[s :: r := FS.Dir]> fs1 !! i = <[s :: r := FS.Dir]> (w_fs w) !! i) as Hi'
    by (by rewrite Hins).
  by rewrite !lookup_insert_ne in Hi' by done.
Qed.

Lemma force_move_replaces_witness :
  let w := World (<[ ["out"; "report.tex"] := FS.File "old" ]>
                    (<[ ["out"] := FS.Dir ]> (<[ ["report.tex"] := FS.File "tex" ]> ∅)))
             (fun _ _ => GetResponse 200 "data") (fun _ _ => None) ∅ (fun _ _ => None) [] in
  force_move "report.tex" "out/report.tex" w
  = (Ok tt, set_fs (<[ ["out"; "report.tex"] := FS.File "tex" ]>
                      (delete ["report.tex"] (w_fs w))) w).
Proof.
  intros w.
  apply (force_move_replaces "report.tex" "out/report.tex" w "tex"
           ["report.tex"] ["out"; "report.tex"]);
    try (vm_compute; reflexivity); vm_compute; congruence.
Defined.

(** X19.  Source and destination on the same regular file (the same
    path, or two spellings of it): the file is removed as the destination
    before it is read as the source, so both helpers raise
    [FileNotFoundError] and the file is lost. *)
Theorem force_same_path_loses_file src dst w k :
  FS.isfile (w_fs w) src = true ->
  Py.endswith src "/" = false ->
  Py.endswith dst "/" = false ->
  FS.resolve src = Some k ->
  FS.resolve dst = Some k ->
  FS.lookup (w_fs w) (removelast k) = Some FS.Dir ->
  let w' := set_fs (delete k (w_fs w)) w in
  force_move src dst w = (Raise (Exn FileNotFoundError (rename_msg src dst)), w') /\
  force_copy src dst w = (Raise (Exn FileNotFoundError src), w') /\
  FS.exists_ (w_fs w') src = false /\
  FS.exists_ (w_fs w') dst = false.
Proof.
  intros Hfile _ _ Hsrc Hdst Hparent w'.
  unfold FS.isfile in Hfile. rewrite Hsrc in Hfile.
  destruct k as [|s r]; [discriminate|]. cbn [FS.lookup] in Hfile.
  destruct (w_fs w !! (s :: r)) as [[data|]|] eqn:E; try discriminate.
  assert (FS.isdir (w_fs w) dst = false) as Hdir.
  { unfold FS.isdir. rewrite Hdst. cbn. by rewrite E. }
  destruct (force_clear dst (s :: r) w Hdst Hdir)
    as (fs1 & Hclear & _ & _ & Hnone & _).
  assert (fs1 = delete (s :: r) (w_fs w)) as ->.
  { revert Hclear. unfold bind, os_path_exists, FS.exists_. rewrite Hdst. cbn [FS.lookup].
    rewrite E. cbn [when]. unfold os_remove, lift_fs, FS.remove. rewrite Hdst, E.
    intros Hc. by inversion Hc. }
  assert (FS.exists_ (w_fs w') dst = false) as Hgone.
  { unfold FS.exists_. rewrite Hdst. cbn. by rewrite lookup_delete_eq. }
  assert (FS.exists_ (w_fs w') src = false) as Hgone'.
  { unfold FS.exists_. rewrite Hsrc. cbn. by rewrite lookup_delete_eq. }
  split; [|split; [|by split]].
  - unfold force_move. unfold bind in Hclear. unfold bind at 1 2.
    destruct (os_path_exists dst w) as [[present| |] w0]; try discriminate.
    rewrite Hclear. unfold os_rename, lift_fs, fs_rename. cbn [w_fs set_fs].
    rewrite Hsrc, Hdst.
    rewrite (lookup_delete_other _ _ _ (removelast_ne (s :: r) ltac:(done))), Hparent.
    by rewrite lookup_delete_eq.
  - unfold force_copy. unfold bind in Hclear. unfold bind at 1 2.
    destruct (os_path_exists dst w) as [[present| |] w0]; try discriminate.
    rewrite Hclear. rewrite shutil_copy_free by exact Hgone.
    erewrite bind_raise; [reflexivity|].
    unfold read_file. rewrite Hsrc. cbn. by rewrite lookup_delete_eq.
Qed.

Lemma force_same_path_loses_file_witness :
  let w := World (<[ ["out"; "cover.jpg"] := FS.File "img" ]> (<[ ["out"] := FS.Dir ]> ∅))
             (fun _ _ => GetResponse 200 "data") (fun _ _ => None) ∅ (fun _ _ => None) [] in
  let w' := set_fs (delete ["out"; "cover.jpg"] (w_fs w)) w in
  force_move "out/cover.jpg" "./out/cover.jpg" w
  = (Raise (Exn FileNotFoundError (rename_msg "out/cover.jpg" "./out/cover.jpg")), w') /\
  force_copy "out/cover.jpg" "./out/cover.jpg" w
  = (Raise (Exn FileNotFoundError "out/cover.jpg"), w') /\
  FS.exists_ (w_fs w') "out/cover.jpg" = false /\
  FS.exists_ (w_fs w') "./out/cover.jpg" = false.
Proof.
  intros w.
  apply (force_same_path_loses_file "out/cover.jpg" "./out/cover.jpg" w ["out"; "cover.jpg"]);
    vm_compute; reflexivity.
Defined.

(** X20.  Neither helper replaces a directory: when the destination is a
    directory, removing it fails with the error of [os.remove], nothing is
    moved or copied and the disk is as before. *)
Theorem force_onto_directory src dst w :
  FS.isdir (w_fs w) dst = true ->
  force_move src dst w = (Raise (Exn IsADirectoryError dst), w) /\
  force_copy src dst w = (Raise (Exn IsADirectoryError dst), w).
Proof.
  intros Hdir.
  assert ((do present <- os_path_exists dst; when present (os_remove dst)) w
          = (Raise (Exn IsADirectoryError dst), w)) as Hclear.
  { unfold bind, os_path_exists, FS.exists_, FS.isdir in *.
    destruct (FS.resolve dst) as [k|] eqn:Hres; [|discriminate].
    destruct (FS.lookup (w_fs w) k) as [[|]|] eqn:E; try discriminate.
    cbn [when]. unfold os_remove, lift_fs, FS.remove. rewrite Hres.
    destruct k; [reflexivity|]. cbn [FS.lookup] in E. by rewrite E. }
  unfold force_move, force_copy. unfold bind in *.
  destruct (os_path_exists dst w) as [[present| |] w0]; try discriminate;
    by rewrite Hclear.
Qed.

Lemma force_onto_directory_witness :
  let w := World (<[ ["out"] := FS.Dir ]> (<[ ["cover.jpg"] := FS.File "img" ]> ∅))
             (fun _ _ => GetResponse 200 "data") (fun _ _ => None) ∅ (fun _ _ => None) [] in
  force_move "cover.jpg" "out" w = (Raise (Exn IsADirectoryError "out"), w) /\
  force_copy "cover.jpg" "out" w = (Raise (Exn IsADirectoryError "out"), w).
Proof.
  intros w. apply (force_onto_directory "cover.jpg" "out" w). vm_compute; reflexivity.
Defined.

Lemma concat_map_app f a b :
  concat_map f (a +:+ b) = concat_map f a +:+ concat_map f b.
Proof.
  induction a as [|c a IH]; [reflexivity|].
  rewrite append_cons. cbn [concat_map]. by rewrite IH, append_assoc.
Qed.

Lemma concat_map_ext f g s : (forall a, f a = g a) -> concat_map f s = concat_map g s.
Proof. intros H. induction s as [|c s IH]; [reflexivity|]. cbn. by rewrite H, IH. Qed.

Lemma concat_map_compose f g s :
  concat_map g (concat_map f s) = concat_map (fun a => concat_map g (f a)) s.
Proof.
  induction s as [|c s IH]; [reflexivity|]. cbn [concat_map].
  by rewrite concat_map_app, IH.
Qed.

Lemma str_replace_concat_map old new s :
  str_replace old new s
  = concat_map (fun a => if Ascii.eqb a old then new else String a "") s.
Proof.
  induction s as [|c s IH]; [reflexivity|]. cbn [str_replace concat_map].
  rewrite IH. destruct (Ascii.eqb c old); [reflexivity|].
  by rewrite append_cons, append_nil.
Qed.

Lemma escape_caption_one_pass caption :
  escape_caption caption = concat_map escape_char caption.
Proof.
  unfold escape_caption, caption_chars. cbn [fold_left].
  rewrite !str_replace_concat_map, !concat_map_compose.
  apply concat_map_ext. intros a.
  destruct a as [[] [] [] [] [] [] [] []]; vm_compute; reflexivity.
Qed.

(** X21.  The caption of a table.  The eight replacements of the loop,
    one after the other, come to a single pass: each of the characters
    [_ # $ % & { } ^] gets one backslash before it and every other
    character, a backslash included, stays as it is; no character is
    escaped twice, and the caption is wrapped in the caption command.  So
    escaping goes through concatenation, and a caption without these
    characters is typeset as written. *)
Theorem table_caption_escapes caption :
  table_caption caption
  = String backslash "caption{" +:+ concat_map escape_char caption +:+
    "} " +:+ String backslash (String backslash "") /\
  (forall a b, escape_caption (a +:+ b) = escape_caption a +:+ escape_caption b) /\
  ((forall c, c ∈ caption_chars -> c ∉ list_ascii_of_string caption) ->
   escape_caption caption = caption).
Proof.
  split; [|split].
  - unfold table_caption. by rewrite escape_caption_one_pass.
  - intros a b. by rewrite !escape_caption_one_pass, concat_map_app.
  - rewrite escape_caption_one_pass. induction caption as [|c s IH]; [reflexivity|].
    intros Hnone. cbn [concat_map]. unfold escape_char at 1.
    rewrite bool_decide_eq_false_2.
    + rewrite append_cons, append_nil, IH; [reflexivity|].
      intros c0 Hc0 Hin. apply (Hnone c0 Hc0). cbn. by right.
    + intros Hc. apply (Hnone c Hc). cbn. by left.
Qed.

Lemma table_caption_escapes_witness :
  escape_caption "R2 (fit)" = "R2 (fit)" /\
  escape_caption ("T_1" +:+ " & 50%") = escape_caption "T_1" +:+ escape_caption " & 50%".
Proof.
  destruct (table_caption_escapes "R2 (fit)") as (_ & Happ & Hplain).
  split.
  - apply Hplain. apply (proj1 (Forall_forall _ _)). by_compute.
  - apply Happ.
Defined.

(** ** The Grouped Fetcher against the Single-File Fetcher *)

Lemma rat_fetch_loop_vs_single doi folder files : forall w rs ws rg wg,
  FS.exists_ (w_fs w) folder = true ->
  for_collect files (fun fname => zenodo_fetch false fname folder (Some doi) None) w
  = (rs, ws) ->
  for_collect files (rat_fetch_file doi folder) w = (rg, wg) ->
  wg = ws /\
  match rs with
  | Ok paths => rg = Ok paths
  | Raise e' => raised_as_connection_error doi files e' (rg, wg)
  | OutOfFuel => False
  end.
Proof.
  induction files as [|fname files IH]; intros w rs ws rg wg Hfolder Hs Hg.
  { inversion Hs; inversion Hg; by subst. }
  rewrite for_collect_cons in Hs, Hg. unfold bind in Hs, Hg.
  pose proof (rat_fetch_file_refines doi folder fname w Hfolder) as Hone.
  pose proof (rat_fetch_file_run doi folder fname w) as Hrun.
  cbn zeta in Hone, Hrun. destruct Hone as [Hw Hr].
  destruct (zenodo_fetch false fname folder (Some doi) None w) as [[p|e'|] w1] eqn:Es;
    destruct (rat_fetch_file doi folder fname w) as [r1 w1'] eqn:Eg;
    cbn [fst snd] in Hw, Hr; subst w1'.
  - destruct Hr as [-> _].
    assert (FS.exists_ (w_fs w1) folder = true) as Hfolder1.
    { eapply rat_fetch_file_keeps_exists; eauto. }
    destruct (for_collect files (fun fname0 => zenodo_fetch false fname0 folder (Some doi) None) w1)
      as [rs' ws'] eqn:Es'.
    destruct (for_collect files (rat_fetch_file doi folder) w1) as [rg' wg'] eqn:Eg'.
    destruct (IH w1 rs' ws' rg' wg' Hfolder1 Es' Eg') as [-> Hr'].
    destruct rs' as [ps|e'|]; [| |done].
    + subst rg'. inversion Hs; inversion Hg; by subst.
    + inversion Hs; subst rs ws. unfold raised_as_connection_error in Hr'.
      cbn [fst snd] in Hr'. split.
      * destruct Hr' as [->|(x & e & w0 & _ & _ & _ & ->)]; by inversion Hg.
      * destruct Hr' as [->|(x & e & w0 & Hx & Hget & Hcls & ->)]; inversion Hg; subst.
        -- by left.
        -- right. exists x, e, w0. repeat split; [by right | done..].
  - destruct Hr as [Hnew Hr]. inversion Hs; subst rs ws. rewrite Hnew in Hrun.
    destruct (checked_get (zenodo_url doi fname) w) as [[resp|e|] w2] eqn:Eget.
    + subst r1. inversion Hg; subst. split; [done | by left].
    + destruct Hr as [Hcls ->]. inversion Hg; subst. inversion Hrun; subst w2.
      split; [done|].
      right. exists fname, e, w. repeat split; [by left | done..].
    + subst r1. inversion Hg; subst. split; [done | by left].
  - done.
Qed.

Lemma rat_fetch_by_single_file_flat registry dataset folder doi w :
  rat_fetch_by_single_file registry dataset folder doi w =
  match groups_to_download registry (rat_default dataset) w with
  | (Ok groups, _) =>
      match FS.makedirs true folder (w_fs w) with
      | Ok f =>
          for_collect (List.concat (map (group_files registry) groups))
            (fun fname => zenodo_fetch false fname folder (Some (rat_doi doi)) None)
            (set_fs f w)
      | Raise e => (Raise e, w)
      | OutOfFuel => (OutOfFuel, w)
      end
  | (Raise e, _) => (Raise e, w)
  | (OutOfFuel, _) => (OutOfFuel, w)
  end.
Proof.
  unfold rat_fetch_by_single_file. unfold bind at 1.
  destruct (groups_to_download registry (rat_default dataset) w) as [[groups|e|] w1] eqn:Eg.
  - apply groups_to_download_known in Eg as [-> Hk].
    unfold bind at 1, os_makedirs, lift_fs.
    destruct (FS.makedirs true folder (w_fs w)) as [f|e|]; [|reflexivity..].
    rewrite <- for_collect_concat. reflexivity.
  - rewrite groups_to_download_run in Eg. repeat case_match; by inversion Eg.
  - rewrite groups_to_download_run in Eg. repeat case_match; by inversion Eg.
Qed.



(** ** The walk comes to an end *)

Section Safe.

Variable J : FS.t -> Prop.

Lemma safe_ret {A} (a : A) : safe J (ret a).
Proof. by intros w Hw. Qed.

Lemma safe_raise {A} e : safe J (@raise A e).
Proof. by intros w Hw. Qed.

Lemma safe_bind_post {A B} (c : M A) (k : A -> M B) (S : A -> Prop) :
  (forall w, J (w_fs w) ->
     match c w with
     | (Ok a, w') => S a /\ J (w_fs w')
     | (Raise _, w') => J (w_fs w')
     | (OutOfFuel, _) => False
     end) ->
  (forall a, S a -> safe J (k a)) ->
  safe J (bind c k).
Proof.
  intros Hc Hk w Hw. unfold bind. specialize (Hc w Hw).
  destruct (c w) as [[a|e|] w1]; [|done..].
  destruct Hc as [Ha Hw1]. by apply Hk.
Qed.

Lemma safe_bind {A B} (c : M A) (k : A -> M B) :
  safe J c -> (forall a, safe J (k a)) -> safe J (bind c k).
Proof.
  intros Hc Hk. apply (safe_bind_post c k (fun _ => True)); [|auto].
  intros w Hw. destruct (Hc w Hw) as [Hr Hw1].
  by destruct (c w) as [[a|e|] w1].
Qed.

Lemma safe_try_except {A} (c : M A) (h : exn -> M A) :
  safe J c -> (forall e, safe J (h e)) -> safe J (try_except c h).
Proof.
  intros Hc Hh w Hw. unfold try_except. destruct (Hc w Hw) as [Hr Hw1].
  destruct (c w) as [[a|e|] w1]; [done| |done]. by apply Hh.
Qed.

Lemma safe_for_each {A} (l : list A) (body : A -> M unit) :
  (forall x, x ∈ l -> safe J (body x)) -> safe J (for_each l body).
Proof.
  induction l as [|x l IH]; intros Hbody; [apply safe_ret|].
  rewrite for_each_cons. apply safe_bind; [apply Hbody; by left|].
  intros _. apply IH. intros y Hy. apply Hbody. by right.
Qed.

Lemma safe_when b (c : M unit) : safe J c -> safe J (when b c).
Proof. destruct b; [done|]. intros _. apply safe_ret. Qed.

Lemma safe_print msg : safe J (print msg).
Proof. by intros w Hw. Qed.

Lemma safe_pure {A} (g : world -> A) : safe J (fun w => (Ok (g w), w)).
Proof. by intros w Hw. Qed.

Lemma safe_lift_fs op :
  (forall fs, op fs <> OutOfFuel) ->
  (forall fs f, J fs -> op fs = Ok f -> J f) ->
  safe J (lift_fs op).
Proof.
  intros Htot Hop w Hw. unfold lift_fs. specialize (Htot (w_fs w)).
  destruct (op (w_fs w)) as [f|e|] eqn:E; [|done..].
  split; [done|]. cbn. eauto.
Qed.

End Safe.

(** *** Paths of proper names *)

Lemma normalize_proper acc segs :
  proper_key acc ->
  Forall (fun x => Py.has_sep x = false) segs ->
  proper_key (FS.normalize acc segs).
Proof.
  revert acc. induction segs as [|s r IH]; intros acc Hacc Hsegs; cbn [FS.normalize].
  - by apply Forall_rev.
  - inversion Hsegs as [|? ? Hs Hr]; subst.
    destruct (String.eqb s "" || String.eqb s ".") eqn:E1; [by apply IH|].
    destruct (String.eqb s "..") eqn:E2.
    + apply IH; [|done]. destruct acc; [done|]. by inversion Hacc.
    + apply IH; [|done]. constructor; [|done].
      unfold Py.is_name. apply orb_false_iff in E1 as [-> ->]. by rewrite E2, Hs.
Qed.

Lemma components_proper p : proper_key (FS.components p).
Proof. apply normalize_proper; [constructor | apply split_parts_no_sep]. Qed.

Lemma proper_key_prefix k k' : k `prefix_of` k' -> proper_key k' -> proper_key k.
Proof. intros [r ->] H. by apply Forall_app in H as [H _]. Qed.

(** *** What [os.makedirs] adds *)

Lemma mkdir_p_entries ok p todo : forall fs above f k n,
  FS.mkdir_p ok p fs above todo = Ok f ->
  f !! k = Some n ->
  fs !! k = Some n \/
  (n = FS.Dir /\ k `prefix_of` (rev above ++ todo) /\ List.length above < List.length k).
Proof.
  induction todo as [|s r IH]; intros fs above f k n Hrun Hk; cbn [FS.mkdir_p] in Hrun.
  - inversion Hrun; subst. by left.
  - destruct (fs !! rev (s :: above)) as [[d|]|] eqn:E.
    + destruct r; discriminate.
    + destruct r as [|s' r'].
      * destruct ok; [|discriminate]. inversion Hrun; subst. by left.
      * destruct (IH _ _ _ _ _ Hrun Hk) as [?|(-> & Hp & Hlen)]; [by left|].
        right. split; [done|]. cbn [rev] in Hp. rewrite <- app_assoc in Hp.
        split; [done|]. cbn in Hlen. lia.
    + destruct (IH _ _ _ _ _ Hrun Hk) as [Hold|(-> & Hp & Hlen)].
      * destruct (decide (k = rev (s :: above))) as [->|Hne].
        -- rewrite lookup_insert_eq in Hold. inversion Hold; subst. right.
           split; [done|]. split.
           ++ cbn [rev]. exists r. by rewrite <- app_assoc.
           ++ rewrite length_rev. cbn. lia.
        -- rewrite lookup_insert_ne in Hold by done. by left.
      * right. split; [done|]. cbn [rev] in Hp. rewrite <- app_assoc in Hp.
        split; [done|]. cbn in Hlen. lia.
Qed.

Lemma makedirs_entries ok p fs f k n :
  FS.makedirs ok p fs = Ok f ->
  f !! k = Some n ->
  fs !! k = Some n \/ (n = FS.Dir /\ k `prefix_of` FS.components p /\ k <> []).
Proof.
  unfold FS.makedirs. destruct (FS.resolve p) as [kp|] eqn:Hres; [|discriminate].
  apply resolve_components in Hres as ->.
  destruct (FS.components p) as [|s r] eqn:Ec.
  - destruct ok; [|discriminate]. intros H Hk. inversion H; subst. by left.
  - intros H Hk.
    destruct (mkdir_p_entries _ _ _ _ _ _ _ _ H Hk) as [?|(-> & Hp & Hlen)]; [by left|].
    right. split; [done|]. split; [done|]. intros ->. cbn in Hlen. lia.
Qed.

(** *** Depth bounds *)

Lemma removelast_length_le {A} (l : list A) : List.length (removelast l) <= List.length l.
Proof.
  induction l as [|x [|y l] IH]; cbn [removelast List.length] in *; lia.
Qed.

Lemma removelast_elem_of {A} (l : list A) x : x ∈ removelast l -> x ∈ l.
Proof.
  induction l as [|y [|z l] IH]; cbn [removelast]; intros H.
  - done.
  - by apply elem_of_nil in H.
  - apply elem_of_cons in H as [->|H]; [by left | right; by apply IH].
Qed.

Lemma max_list_with_le {A} (f : A -> nat) (l : list A) x :
  x ∈ l -> f x <= max_list_with f l.
Proof.
  induction l as [|y l IH]; intros Hin; [by apply elem_of_nil in Hin|].
  cbn. apply elem_of_cons in Hin as [->|Hin]; [lia|]. specialize (IH Hin). lia.
Qed.

Lemma max_list_with_ext {A} (f g : A -> nat) (l : list A) :
  (forall x, x ∈ l -> f x = g x) -> max_list_with f l = max_list_with g l.
Proof.
  induction l as [|y l IH]; intros H; [reflexivity|]. cbn.
  rewrite (H y) by (by left). rewrite IH; [done|]. intros x Hx. apply H. by right.
Qed.

Section Depth.

Variable unzip : string -> option (list zmember).
Variable rank : string -> nat.
Hypothesis unzip_rank :
  forall data members m,
    unzip data = Some members -> m ∈ members -> rank (zm_data m) < rank data.

(** Past the rank of the bytes, more nesting allowance changes nothing. *)
Lemma reach_stable n : forall data,
  rank data < n -> reach unzip n data = reach unzip (S (rank data)) data.
Proof.
  induction n as [n IH] using lt_wf_ind. intros data Hn.
  destruct n as [|n']; [lia|]. cbn [reach].
  destruct (unzip data) as [ms|] eqn:E; [|reflexivity].
  apply max_list_with_ext. intros m Hm.
  pose proof (unzip_rank data ms m E Hm) as Hlt. f_equal.
  rewrite (IH n') by lia.
  destruct (rank data) as [|r] eqn:Er; [lia|].
  symmetry. apply (IH (S r)); lia.
Qed.

Lemma reach_member data members m :
  unzip data = Some members -> m ∈ members ->
  List.length (arc_components (zm_name m)) + node_reach unzip rank (FS.File (zm_data m))
  <= node_reach unzip rank (FS.File data).
Proof.
  intros E Hm. cbn [node_reach].
  pose proof (unzip_rank data members m E Hm) as Hlt.
  rewrite <- (reach_stable (rank data) (zm_data m)) by exact Hlt.
  cbn [reach]. rewrite E.
  apply (max_list_with_le
           (fun m => List.length (arc_components (zm_name m)) +
                     reach unzip (rank data) (zm_data m))). exact Hm.
Qed.

Notation within := (within unzip rank).

Lemma within_makedirs B ok p fs f :
  within B fs -> List.length (FS.components p) <= B ->
  FS.makedirs ok p fs = Ok f -> within B f.
Proof.
  intros Hfs Hlen Hmk k n Hk.
  destruct (makedirs_entries _ _ _ _ _ _ Hmk Hk) as [Hold|(-> & Hp & _)]; [by apply Hfs|].
  split; [eapply proper_key_prefix; [exact Hp | apply components_proper]|].
  cbn. apply prefix_length in Hp. lia.
Qed.

Lemma within_write B p data fs f :
  within B fs ->
  List.length (FS.components p) + node_reach unzip rank (FS.File data) <= B ->
  FS.write_file p data fs = Ok f -> within B f.
Proof.
  intros Hfs Hlen Hwr k n Hk.
  apply fs_write_file_inv in Hwr as (k0 & Hres & _ & _ & _ & ->).
  apply resolve_components in Hres as ->.
  destruct (decide (k = FS.components p)) as [->|Hne].
  - rewrite lookup_insert_eq in Hk. inversion Hk; subst.
    split; [apply components_proper | exact Hlen].
  - rewrite lookup_insert_ne in Hk by done. by apply Hfs.
Qed.

Lemma within_remove B p fs f :
  within B fs -> FS.remove p fs = Ok f -> within B f.
Proof.
  unfold FS.remove. intros Hfs H.
  destruct (FS.resolve p) as [[|s r]|]; [discriminate| |discriminate].
  destruct (fs !! (s :: r)) as [[d|]|] eqn:E; [|discriminate..].
  inversion H; subst. intros k n Hk.
  apply lookup_delete_Some in Hk as [_ Hk]. by apply Hfs.
Qed.

Lemma fs_remove_total p fs : FS.remove p fs <> OutOfFuel.
Proof. unfold FS.remove. by repeat case_match. Qed.

(** A member is extracted within the bound when its target, with what its
    bytes can reach, is. *)
Lemma safe_extract_member B path m :
  List.length (FS.components path) + List.length (arc_components (zm_name m))
    + node_reach unzip rank (FS.File (zm_data m)) <= B ->
  safe (within B) (extract_member path m).
Proof.
  intros Hlen. unfold extract_member.
  assert (FS.components (member_target path m)
          = (FS.components path ++ arc_components (zm_name m))%list) as Htarget.
  { unfold member_target. apply components_join, arc_components_names. }
  assert (List.length
            (FS.components
               (Py.path_join path
                  (Py.join_with "/" (removelast (arc_components (zm_name m))))))
          <= B) as Hupper.
  { rewrite components_join.
    - rewrite length_app.
      pose proof (removelast_length_le (arc_components (zm_name m))). lia.
    - pose proof (arc_components_names (zm_name m)) as Hall.
      apply Forall_forall. intros x Hx. rewrite Forall_forall in Hall. apply Hall.
      by apply removelast_elem_of. }
  apply safe_bind; [apply safe_pure|]. intros upper_present.
  apply safe_bind.
  { destruct (negb upper_present); [|apply safe_ret].
    apply safe_lift_fs; [apply fs_makedirs_total|].
    intros fs f Hfs. by apply within_makedirs. }
  intros _. destruct (Py.endswith (zm_name m) "/").
  - apply safe_bind; [apply (safe_pure _ (fun w => FS.isdir (w_fs w) _))|].
    intros present. destruct present; [apply safe_ret|].
    apply safe_lift_fs; [apply fs_makedirs_total|].
    intros fs f Hfs. apply within_makedirs; [done|]. rewrite Htarget, length_app. lia.
  - apply safe_bind.
    { apply safe_lift_fs; [apply fs_write_file_total|].
      intros fs f Hfs. apply within_write; [done|]. rewrite Htarget, length_app. lia. }
    intros _. destruct (zm_crc_ok m); [apply safe_ret | apply safe_raise].
Qed.

End Depth.

(** *** The extraction directory is no deeper than the archive *)

Lemma normalize_length_le acc segs :
  List.length (FS.normalize acc segs) <= List.length acc + List.length segs.
Proof.
  revert acc. induction segs as [|s r IH]; intros acc; cbn [FS.normalize].
  - rewrite length_rev. lia.
  - repeat case_match.
    + specialize (IH acc). cbn. lia.
    + specialize (IH (tail acc)). destruct acc; cbn in *; lia.
    + specialize (IH (s :: acc)). cbn in *. lia.
Qed.

Lemma startswith_no_sep x : Py.has_sep x = false -> Py.startswith x "/" = false.
Proof.
  destruct x as [|c x]; [reflexivity|]. cbn. intros H.
  apply orb_false_iff in H as [-> _]. reflexivity.
Qed.

Lemma components_sep d : FS.components (d +:+ "/") = FS.components d.
Proof.
  unfold FS.components. change (d +:+ "/") with (d +:+ String "/" "").
  rewrite split_app_sep, normalize_app. cbn [Py.split FS.normalize].
  cbn. by rewrite rev_involutive.
Qed.

(** Joining a name without separator adds at most one component. *)
Lemma components_join_le d x :
  Py.has_sep x = false ->
  List.length (FS.components (Py.path_join d x)) <= List.length (FS.components d) + 1.
Proof.
  intros Hx. unfold Py.path_join. rewrite (startswith_no_sep x Hx).
  assert (forall acc, List.length (FS.normalize acc (Py.split "/" x))
                      <= List.length acc + 1) as Hone.
  { intros acc. rewrite (split_no_sep x Hx).
    pose proof (normalize_length_le acc [x]). cbn in *. lia. }
  destruct (String.eqb d "") eqn:Ed.
  - apply String.eqb_eq in Ed. subst d. cbn [orb]. rewrite append_nil.
    unfold FS.components. specialize (Hone []). cbn in *. lia.
  - cbn [orb]. destruct (Py.endswith d "/") eqn:Ee.
    + apply endswith_inv in Ee as [d' ->]. rewrite components_sep.
      rewrite append_assoc. change ("/" +:+ x) with (String "/" x).
      unfold FS.components. rewrite split_app_sep, normalize_app.
      specialize (Hone (rev (FS.normalize [] (Py.split "/" d')))).
      rewrite length_rev in Hone. exact Hone.
    + change (d +:+ "/" +:+ x) with (d +:+ String "/" x).
      unfold FS.components. rewrite split_app_sep, normalize_app.
      specialize (Hone (rev (FS.normalize [] (Py.split "/" d)))).
      rewrite length_rev in Hone. exact Hone.
Qed.

Lemma components_join_name d x :
  Py.is_name x = true -> FS.components (Py.path_join d x) = (FS.components d ++ [x])%list.
Proof.
  intros Hx. change x with (Py.join_with "/" [x]) at 1.
  apply components_join. by repeat constructor.
Qed.

Lemma has_sep_substring m : forall s,
  Py.has_sep s = false -> Py.has_sep (String.substring 0 m s) = false.
Proof.
  induction m as [|m IH]; intros s Hs; [by destruct s|].
  destruct s as [|c s]; [reflexivity|]. cbn in *.
  apply orb_false_iff in Hs as [-> Hs]. by apply IH.
Qed.

Lemma has_sep_drop_last n s : Py.has_sep s = false -> Py.has_sep (Py.drop_last n s) = false.
Proof. apply has_sep_substring. Qed.

(** *** What a listing holds *)

Lemma child_name_inv d k x : FS.child_name d k = Some x -> k = (d ++ [x])%list.
Proof.
  unfold FS.child_name. destruct (decide _) as [->|]; [|discriminate].
  intros H. inversion H; subst. by rewrite last_last.
Qed.

Lemma scandir_inv fs p dirnames filenames :
  FS.scandir fs p = Some (dirnames, filenames) ->
  FS.lookup fs (FS.components p) = Some FS.Dir /\
  (forall x, x ∈ dirnames -> fs !! (FS.components p ++ [x])%list = Some FS.Dir) /\
  (forall x, x ∈ filenames ->
     exists data, fs !! (FS.components p ++ [x])%list = Some (FS.File data)).
Proof.
  unfold FS.scandir. destruct (FS.resolve p) as [d|] eqn:Hres; [|discriminate].
  apply resolve_components in Hres as ->.
  destruct (FS.lookup fs (FS.components p)) as [[|]|] eqn:E; try discriminate.
  intros H. inversion H; subst. clear H. split; [done|]. split.
  - intros x Hx. apply list_elem_of_omap in Hx as ([k n] & Hin & Hx).
    apply elem_of_map_to_list in Hin. destruct n; [discriminate|].
    apply child_name_inv in Hx as ->. exact Hin.
  - intros x Hx. apply list_elem_of_omap in Hx as ([k n] & Hin & Hx).
    apply elem_of_map_to_list in Hin. destruct n as [data|]; [|discriminate].
    apply child_name_inv in Hx as ->. by exists data.
Qed.

Section Walk.

Variable unzip : string -> option (list zmember).
Variable rank : string -> nat.
Hypothesis unzip_rank :
  forall data members m,
    unzip data = Some members -> m ∈ members -> rank (zm_data m) < rank data.

Notation within := (within unzip rank).

Lemma safe_os_makedirs B p ok :
  List.length (FS.components p) <= B -> safe (within B) (os_makedirs p ok).
Proof.
  intros Hlen. apply safe_lift_fs; [apply fs_makedirs_total|].
  intros fs f Hfs. by apply within_makedirs.
Qed.

Lemma safe_unzip_into B zip_path extract_to :
  List.length (FS.components extract_to) <= List.length (FS.components zip_path) ->
  safe (within B) (unzip_into unzip zip_path extract_to).
Proof.
  intros Hlen. unfold unzip_into.
  apply (safe_bind_post _ _ _
           (fun members =>
              forall m, m ∈ members ->
                List.length (FS.components extract_to)
                + List.length (arc_components (zm_name m))
                + node_reach unzip rank (FS.File (zm_data m)) <= B)).
  - intros w Hw. unfold ZipFile.
    destruct (FS.resolve zip_path) as [k|] eqn:Hres; [|done].
    apply resolve_components in Hres as ->.
    destruct (FS.lookup (w_fs w) (FS.components zip_path)) as [[data|]|] eqn:E; [|done..].
    destruct (unzip data) as [members|] eqn:Eu; [|done].
    split; [|done]. intros m Hm.
    destruct (FS.components zip_path) as [|s r] eqn:Ek; [discriminate|].
    cbn [FS.lookup] in E. destruct (Hw _ _ E) as [_ Hb].
    pose proof (reach_member unzip rank unzip_rank data members m Eu Hm). lia.
  - intros members Hmembers. apply safe_bind.
    { repeat case_match; by first [apply safe_ret | apply safe_raise]. }
    intros _. apply safe_for_each. intros m Hm.
    apply safe_extract_member. by apply Hmembers.
Qed.

Lemma safe_extract_archive B verbose dirpath filename :
  Py.is_name filename = true ->
  List.length (FS.components dirpath) + 1 <= B ->
  safe (within B) (extract_archive unzip verbose dirpath filename).
Proof.
  intros Hname Hlen. unfold extract_archive.
  destruct (Py.endswith _ _); [|apply safe_ret].
  assert (List.length (FS.components (Py.path_join dirpath (Py.drop_last 4 filename)))
          <= List.length (FS.components dirpath) + 1) as Hto.
  { apply components_join_le, has_sep_drop_last.
    by apply is_name_inv in Hname as (_ & _ & _ & Hs). }
  apply safe_bind; [apply safe_os_makedirs; lia|].
  intros _. apply safe_try_except.
  - apply safe_bind.
    { apply safe_unzip_into.
      rewrite (components_join_name dirpath filename Hname), length_app. cbn. lia. }
    intros _. apply safe_bind.
    { apply safe_lift_fs; [apply fs_remove_total|].
      intros fs f Hfs. by apply within_remove. }
    intros _. apply safe_when, safe_print.
  - intros e. apply safe_when, safe_print.
Qed.

(** The walk ends when its allowance covers the depth that is left. *)
Lemma safe_walk_extract B verbose fuel : forall dirpath,
  List.length (FS.components dirpath) <= B ->
  B + 1 <= fuel + List.length (FS.components dirpath) ->
  safe (within B) (walk_extract unzip fuel verbose dirpath).
Proof.
  induction fuel as [|fuel IH]; intros dirpath Hd Hfuel; [lia|].
  cbn [walk_extract].
  apply (safe_bind_post _ _ _
           (fun listing =>
              forall dirnames filenames, listing = Some (dirnames, filenames) ->
                forall x, x ∈ (dirnames ++ filenames)%list ->
                  Py.is_name x = true /\ List.length (FS.components dirpath) + 1 <= B)).
  - intros w Hw. split; [|done]. intros dirnames filenames Hl x Hx.
    apply scandir_inv in Hl as (_ & Hdirs & Hfiles).
    assert (exists n, w_fs w !! (FS.components dirpath ++ [x])%list = Some n) as [n Hn].
    { apply elem_of_app in Hx as [Hx|Hx]; [eauto|].
      destruct (Hfiles x Hx) as [data ?]. eauto. }
    destruct (Hw _ _ Hn) as [Hproper Hb]. split.
    + apply Forall_app in Hproper as [_ Hx']. by inversion Hx'.
    + rewrite length_app in Hb. cbn in Hb. lia.
  - intros [[dirnames filenames]|] Hl; [|apply safe_ret].
    specialize (Hl dirnames filenames eq_refl).
    apply safe_bind.
    + apply safe_for_each. intros x Hx.
      destruct (Hl x) as [Hname Hb]; [apply elem_of_app; by right|].
      by apply safe_extract_archive.
    + intros _. apply safe_for_each. intros d Hdir.
      destruct (Hl d) as [Hname Hb]; [apply elem_of_app; by left|].
      apply IH; rewrite components_join_name, length_app by done; cbn; lia.
Qed.

End Walk.

(** Every disk of proper names is within some depth. *)
Lemma within_exists unzip rank fs :
  proper_disk fs -> exists B, within unzip rank B fs.
Proof.
  induction fs as [|k n fs Hk IH] using map_ind; intros Hp.
  - exists 0. intros k n Hk. by rewrite lookup_empty in Hk.
  - apply map_Forall_insert in Hp as [Hk' Hp]; [|done].
    destruct (IH Hp) as [B HB].
    exists (Nat.max B (List.length k + node_reach unzip rank n)).
    intros k0 n0 H0. destruct (decide (k0 = k)) as [->|Hne].
    + rewrite lookup_insert_eq in H0. inversion H0; subst. split; [done | lia].
    + rewrite lookup_insert_ne in H0 by done. destruct (HB _ _ H0). split; [done | lia].
Qed.

Lemma within_mono unzip rank B B' fs :
  B <= B' -> within unzip rank B fs -> within unzip rank B' fs.
Proof. intros Hle H k n Hk. destruct (H k n Hk). split; [done | lia]. Qed.

(** *** The traversal keeps the disk one of proper names *)

Lemma proper_kept_refl w : proper_kept w w.
Proof. by intros H. Qed.

Lemma proper_kept_trans w1 w2 w3 :
  proper_kept w1 w2 -> proper_kept w2 w3 -> proper_kept w1 w3.
Proof. unfold proper_kept. tauto. Qed.

Lemma proper_makedirs ok p w f :
  FS.makedirs ok p (w_fs w) = Ok f -> proper_kept w (set_fs f w).
Proof.
  intros Hmk Hp. cbn. apply map_Forall_lookup. intros k n Hk.
  destruct (makedirs_entries _ _ _ _ _ _ Hmk Hk) as [Hold|(_ & Hpre & _)].
  - by apply (map_Forall_lookup_1 _ _ _ _ Hp Hold).
  - eapply proper_key_prefix; [exact Hpre | apply components_proper].
Qed.

Lemma proper_write p data w f :
  FS.write_file p data (w_fs w) = Ok f -> proper_kept w (set_fs f w).
Proof.
  intros Hwr Hp. cbn. apply fs_write_file_inv in Hwr as (k0 & Hres & _ & _ & _ & ->).
  apply resolve_components in Hres as ->.
  apply map_Forall_insert_2; [apply components_proper | done].
Qed.

Ltac proper_step lem :=
  apply lem; try exact proper_kept_refl; try exact proper_kept_trans.

Lemma respects_write_file_proper p data : respects proper_kept (write_file p data).
Proof.
  apply respects_lift_fs; [apply proper_kept_refl|]. intros w f. apply proper_write.
Qed.

Lemma proper_kept_log e w : proper_kept w (log e w).
Proof. by intros H. Qed.

Lemma download_file_proper verbose local file :
  respects proper_kept (download_file verbose local file).
Proof.
  unfold download_file. proper_step @respects_try_except.
  - proper_step @respects_bind.
    + unfold open_wb. proper_step @respects_bind.
      * apply respects_log, proper_kept_log.
      * intros _. apply respects_write_file_proper.
    + intros _. unfold write_to. proper_step @respects_bind.
      * apply respects_log, proper_kept_log.
      * intros _. destruct (rf_payload file); [apply respects_write_file_proper|].
        proper_step @respects_bind; [apply respects_write_file_proper|].
        intros _. proper_step @respects_raise.
  - intros e. proper_step @respects_when.
    intros w r w' H. inversion H. apply proper_kept_log.
Qed.

Lemma download_proper verbose cur : forall local,
  respects proper_kept (download verbose cur local).
Proof.
  induction cur as [name files folders IH] using rfolder_tree_ind. intros local.
  cbn [download]. proper_step @respects_bind.
  { apply respects_lift_fs; [apply proper_kept_refl|]. intros w f. apply proper_makedirs. }
  intros _. proper_step @respects_bind.
  { proper_step @respects_for_each. intros x _. apply download_file_proper. }
  intros _. proper_step @respects_for_each.
  intros sub Hsub. rewrite Forall_forall in IH. by apply IH.
Qed.

(** *** Where the traversal can fail *)

Lemma download_outcome_tree verbose cur : forall local w,
  match download verbose cur local w with
  | (Ok _, w') => opened w' = (opened w ++ local_files cur local)%list
  | (Raise e, w') => tree_directory_failure cur local w e w'
  | (OutOfFuel, _) => False
  end.
Proof.
  induction cur as [name files folders IH] using rfolder_tree_ind. intros local w.
  cbn [download local_files local_dirs]. unfold bind at 1, os_makedirs, lift_fs.
  pose proof (fs_makedirs_total true local (w_fs w)) as Htot.
  destruct (FS.makedirs true local (w_fs w)) as [f|e|] eqn:Emk; [| |done].
  2:{ exists local, [], (local_files (RFolder name files folders) local).
      split; [by left|]. split; [done|]. split; [reflexivity|]. by rewrite app_nil_r. }
  destruct (download_files_ok verbose local files (set_fs f w)) as (w1 & Hfiles & Ho1).
  erewrite bind_run by exact Hfiles.
  rewrite opened_set_fs in Ho1.
  set (here := map (fun f => Py.path_join local (rf_name f)) files) in *.
  assert (forall w1 pre, opened w1 = (opened w ++ here ++ pre)%list ->
          match for_each folders
                  (fun sub => download verbose sub (Py.path_join local (rfo_name sub))) w1
          with
          | (Ok _, w') =>
              opened w' =
              (opened w ++ here ++ pre ++
               flat_map (fun sub => local_files sub (Py.path_join local (rfo_name sub)))
                 folders)%list
          | (Raise e, w') =>
              exists d attempted rest,
                d ∈ flat_map (fun sub => local_dirs sub (Py.path_join local (rfo_name sub)))
                      folders /\
                FS.makedirs true d (w_fs w') = Raise e /\
                flat_map (fun sub => local_files sub (Py.path_join local (rfo_name sub)))
                  folders = (attempted ++ rest)%list /\
                opened w' = (opened w ++ here ++ pre ++ attempted)%list
          | (OutOfFuel, _) => False
          end) as Hsub.
  { clear w1 Hfiles Ho1. induction IH as [|sub folders Hsub _ IHf]; intros w1 pre Ho.
    - rewrite for_each_nil. cbn. by rewrite !app_nil_r.
    - rewrite for_each_cons. unfold bind.
      specialize (Hsub (Py.path_join local (rfo_name sub)) w1).
      destruct (download verbose sub _ w1) as [[[]|e|] w2]; [| |done].
      + specialize (IHf w2 (pre ++ local_files sub (Py.path_join local (rfo_name sub)))%list).
        rewrite Hsub, Ho, <- !app_assoc in IHf. specialize (IHf eq_refl).
        destruct (for_each folders _ w2) as [[[]|e|] w3]; [| |done].
        * cbn [flat_map]. exact IHf.
        * destruct IHf as (d & att & rest & Hd & Hmk & Hsplit & Hop).
          exists d, (local_files sub (Py.path_join local (rfo_name sub)) ++ att)%list, rest.
          cbn [flat_map]. split; [apply elem_of_app; by right|]. split; [done|].
          split; [by rewrite Hsplit, <- app_assoc|].
          by rewrite Hop, <- !app_assoc.
      + destruct Hsub as (d & att & rest & Hd & Hmk & Hsplit & Hop).
        exists d, att,
          (rest ++ flat_map (fun sub => local_files sub (Py.path_join local (rfo_name sub)))
                     folders)%list.
        cbn [flat_map]. split; [apply elem_of_app; by left|]. split; [done|].
        split; [by rewrite Hsplit, <- app_assoc|].
        by rewrite Hop, Ho, <- !app_assoc. }
  specialize (Hsub w1 []). rewrite app_nil_r in Hsub. specialize (Hsub Ho1).
  destruct (for_each folders _ w1) as [[[]|e|] w2]; [| |done].
  - by rewrite app_nil_l in Hsub.
  - destruct Hsub as (d & att & rest & Hd & Hmk & Hsplit & Hop).
    exists d, (here ++ att)%list, rest. split; [by right|]. split; [done|].
    split; [cbn [local_files]; fold here; by rewrite Hsplit, <- app_assoc|].
    by rewrite Hop, app_nil_l.
Qed.

(** ** The walk on a tree whose extraction directories are free *)

Section Confined.

Variables S F : list string -> Prop.
Variable G : FS.t -> Prop.

Lemma confined_ret {A} (a : A) : confined S F G (ret a).
Proof. intros w1 w2 G1 G2 Hag. by repeat split. Qed.

Lemma confined_raise {A} e : confined S F G (@raise A e).
Proof. intros w1 w2 G1 G2 Hag. by repeat split. Qed.

Lemma confined_second {A} (c : M A) w1 w2 :
  confined S F G c ->
  G (w_fs w1) -> G (w_fs w2) ->
  (forall k, S k -> w_fs w1 !! k = w_fs w2 !! k) ->
  G (w_fs (snd (c w2))).
Proof.
  intros Hc G1 G2 Hag.
  by destruct (Hc w2 w2 G2 G2 ltac:(done)) as (_ & _ & _ & _ & ?).
Qed.

Lemma confined_bind {A B} (c : M A) (k : A -> M B) :
  confined S F G c -> (forall a, confined S F G (k a)) -> confined S F G (bind c k).
Proof.
  intros Hc Hk w1 w2 G1 G2 Hag. unfold bind.
  destruct (Hc w1 w2 G1 G2 Hag) as (Hr & Hend & Hpt & Hfr & G1').
  pose proof (confined_second c w1 w2 Hc G1 G2 Hag) as G2'.
  destruct (c w1) as [r1 w1'], (c w2) as [r2 w2']. cbn [fst snd] in *. subst r2.
  destruct r1 as [a|e|]; [|by repeat split|done].
  destruct (Hk a w1' w2' G1' G2') as (Hr' & Hend' & Hpt' & Hfr' & G1'').
  { intros k0 Hk0. apply Hpt. by apply Hag. }
  repeat split; try done.
  - intros k0 Hk0. by apply Hpt', Hpt.
  - intros k0 Hk0. rewrite Hfr' by done. by apply Hfr.
Qed.

Lemma confined_try_except {A} (c : M A) (h : exn -> M A) :
  confined S F G c -> (forall e, confined S F G (h e)) -> confined S F G (try_except c h).
Proof.
  intros Hc Hh w1 w2 G1 G2 Hag. unfold try_except.
  destruct (Hc w1 w2 G1 G2 Hag) as (Hr & Hend & Hpt & Hfr & G1').
  pose proof (confined_second c w1 w2 Hc G1 G2 Hag) as G2'.
  destruct (c w1) as [r1 w1'], (c w2) as [r2 w2']. cbn [fst snd] in *. subst r2.
  destruct r1 as [a|e|]; [by repeat split| |done].
  destruct (Hh e w1' w2' G1' G2') as (Hr' & Hend' & Hpt' & Hfr' & G1'').
  { intros k0 Hk0. apply Hpt. by apply Hag. }
  repeat split; try done.
  - intros k0 Hk0. by apply Hpt', Hpt.
  - intros k0 Hk0. rewrite Hfr' by done. by apply Hfr.
Qed.

Lemma confined_for_each {A} (l : list A) (body : A -> M unit) :
  (forall x, x ∈ l -> confined S F G (body x)) -> confined S F G (for_each l body).
Proof.
  induction l as [|x l IH]; intros Hbody; [apply confined_ret|].
  rewrite for_each_cons. apply confined_bind; [apply Hbody; by left|].
  intros _. apply IH. intros y Hy. apply Hbody. by right.
Qed.

Lemma confined_when b (c : M unit) : confined S F G c -> confined S F G (when b c).
Proof. destruct b; [done|]. intros _. apply confined_ret. Qed.

Lemma confined_print msg : confined S F G (print msg).
Proof. intros w1 w2 G1 G2 Hag. by repeat split. Qed.

(** Reading the disk at entries in [S]. *)
Lemma confined_read {A} (g : FS.t -> A) :
  (forall fs1 fs2, (forall k, S k -> fs1 !! k = fs2 !! k) -> g fs1 = g fs2) ->
  confined S F G (fun w => (Ok (g (w_fs w)), w)).
Proof.
  intros Hg w1 w2 G1 G2 Hag. cbn. repeat split; try done. f_equal. by apply Hg.
Qed.

(** A change of the disk that reads in [S] and writes in [F]. *)
Lemma confined_lift_fs op :
  (forall fs, op fs <> OutOfFuel) ->
  (forall fs1 fs2, (forall k, S k -> fs1 !! k = fs2 !! k) ->
     match op fs1, op fs2 with
     | Ok f1, Ok f2 => forall k, fs1 !! k = fs2 !! k -> f1 !! k = f2 !! k
     | Raise e1, Raise e2 => e1 = e2
     | _, _ => False
     end) ->
  (forall fs f, G fs -> op fs = Ok f -> G f /\ forall k, ~ F k -> f !! k = fs !! k) ->
  confined S F G (lift_fs op).
Proof.
  intros Htot Hsim Hfr w1 w2 G1 G2 Hag. unfold lift_fs.
  specialize (Hsim (w_fs w1) (w_fs w2) Hag). pose proof (Htot (w_fs w1)) as Ht.
  destruct (op (w_fs w1)) as [f1|e1|] eqn:E1, (op (w_fs w2)) as [f2|e2|] eqn:E2;
    try done; cbn [fst snd w_fs set_fs].
  - destruct (Hfr _ _ G1 E1) as [G1' Hfr1]. by repeat split.
  - subst e2. by repeat split.
Qed.

End Confined.

(** *** The primitives of the disk, run on two disks *)

Lemma mkdir_p_sim ok p todo : forall fs1 fs2 above,
  (forall k, k `prefix_of` (rev above ++ todo) ->
             List.length above < List.length k -> fs1 !! k = fs2 !! k) ->
  match FS.mkdir_p ok p fs1 above todo, FS.mkdir_p ok p fs2 above todo with
  | Ok f1, Ok f2 => forall k, fs1 !! k = fs2 !! k -> f1 !! k = f2 !! k
  | Raise e1, Raise e2 => e1 = e2
  | _, _ => False
  end.
Proof.
  induction todo as [|s r IH]; intros fs1 fs2 above Hag; cbn [FS.mkdir_p]; [done|].
  assert (rev above ++ s :: r = rev (s :: above) ++ r) as Hpath.
  { cbn [rev]. by rewrite <- app_assoc. }
  assert (fs1 !! rev (s :: above) = fs2 !! rev (s :: above)) as Hhere.
  { apply Hag.
    - rewrite Hpath. by apply prefix_app_r.
    - rewrite length_rev. cbn. lia. }
  rewrite <- Hhere.
  destruct (fs1 !! rev (s :: above)) as [[d|]|] eqn:E.
  - by destruct r.
  - destruct r as [|s' r']; [by destruct ok|].
    apply IH. intros k Hk Hlen. apply Hag; [by rewrite Hpath|]. cbn in Hlen. lia.
  - specialize (IH (<[rev (s :: above) := FS.Dir]> fs1)
                   (<[rev (s :: above) := FS.Dir]> fs2) (s :: above)).
    destruct (FS.mkdir_p ok p (<[rev (s :: above):=FS.Dir]> fs1) (s :: above) r) as [f1|e1|],
             (FS.mkdir_p ok p (<[rev (s :: above):=FS.Dir]> fs2) (s :: above) r) as [f2|e2|];
      try (apply IH; intros k Hk Hlen;
           rewrite !lookup_insert_ne
             by (intros <-; rewrite length_rev in Hlen; cbn in Hlen; lia);
           apply Hag; [by rewrite Hpath | cbn in Hlen; lia]).
    intros k Hk. apply IH.
    + intros k0 Hk0 Hlen.
      rewrite !lookup_insert_ne by (intros <-; rewrite length_rev in Hlen; cbn in Hlen; lia).
      apply Hag; [by rewrite Hpath | cbn in Hlen; lia].
    + destruct (decide (k = rev (s :: above))) as [->|Hne].
      * by rewrite !lookup_insert_eq.
      * by rewrite !lookup_insert_ne.
Qed.

Lemma makedirs_sim ok p fs1 fs2 :
  (forall k, k <> [] -> k `prefix_of` FS.components p -> fs1 !! k = fs2 !! k) ->
  match FS.makedirs ok p fs1, FS.makedirs ok p fs2 with
  | Ok f1, Ok f2 => forall k, fs1 !! k = fs2 !! k -> f1 !! k = f2 !! k
  | Raise e1, Raise e2 => e1 = e2
  | _, _ => False
  end.
Proof.
  intros Hag. unfold FS.makedirs.
  destruct (FS.resolve p) as [kp|] eqn:Hres; [|done].
  apply resolve_components in Hres as ->.
  destruct (FS.components p) as [|s r] eqn:Ec; [by destruct ok|].
  apply (mkdir_p_sim ok p (s :: r) fs1 fs2 []).
  intros k Hk Hlen. apply Hag; [|done]. intros ->. cbn in Hlen. lia.
Qed.

Lemma makedirs_changes ok p fs f :
  FS.makedirs ok p fs = Ok f ->
  forall k, f !! k = fs !! k \/
            (fs !! k = None /\ k `prefix_of` FS.components p /\ k <> []).
Proof.
  intros Hmk k. destruct (fs !! k) as [n|] eqn:E.
  - left. eapply makedirs_keeps; eauto.
  - destruct (f !! k) as [n|] eqn:E'; [|by left].
    destruct (makedirs_entries _ _ _ _ _ _ Hmk E') as [Hold|(_ & Hp & Hne)]; [congruence|].
    by right.
Qed.

Lemma lookup_agree (fs1 fs2 : FS.t) k :
  (k <> [] -> fs1 !! k = fs2 !! k) -> FS.lookup fs1 k = FS.lookup fs2 k.
Proof. destruct k; [reflexivity|]. intros H. apply H. done. Qed.

Lemma write_file_sim p data fs1 fs2 :
  (FS.components p <> [] -> fs1 !! FS.components p = fs2 !! FS.components p) ->
  (removelast (FS.components p) <> [] ->
   fs1 !! removelast (FS.components p) = fs2 !! removelast (FS.components p)) ->
  match FS.write_file p data fs1, FS.write_file p data fs2 with
  | Ok f1, Ok f2 => forall k, fs1 !! k = fs2 !! k -> f1 !! k = f2 !! k
  | Raise e1, Raise e2 => e1 = e2
  | _, _ => False
  end.
Proof.
  intros Hk Hparent. unfold FS.write_file.
  destruct (Py.endswith p "/"); [done|].
  destruct (FS.resolve p) as [kp|] eqn:Hres; [|done].
  apply resolve_components in Hres as ->.
  destruct (FS.components p) as [|s r] eqn:Ec; [done|].
  rewrite <- (lookup_agree fs1 fs2 (removelast (s :: r)) Hparent).
  destruct (FS.lookup fs1 (removelast (s :: r))) as [[|]|]; [done| |done].
  rewrite <- Hk by done.
  destruct (fs1 !! (s :: r)) as [[|]|]; try done.
  all: intros k Hag; destruct (decide (k = s :: r)) as [->|Hne];
    [by rewrite !lookup_insert_eq | by rewrite !lookup_insert_ne].
Qed.

Lemma remove_sim p fs1 fs2 :
  (FS.components p <> [] -> fs1 !! FS.components p = fs2 !! FS.components p) ->
  match FS.remove p fs1, FS.remove p fs2 with
  | Ok f1, Ok f2 => forall k, fs1 !! k = fs2 !! k -> f1 !! k = f2 !! k
  | Raise e1, Raise e2 => e1 = e2
  | _, _ => False
  end.
Proof.
  intros Hk. unfold FS.remove.
  destruct (FS.resolve p) as [kp|] eqn:Hres; [|done].
  apply resolve_components in Hres as ->.
  destruct (FS.components p) as [|s r] eqn:Ec; [done|].
  rewrite <- Hk by done.
  destruct (fs1 !! (s :: r)) as [[|]|]; try done.
  intros k Hag. destruct (decide (k = s :: r)) as [->|Hne];
    [by rewrite !lookup_delete_eq | by rewrite !lookup_delete_ne].
Qed.

(** *** One archive: what its extraction reads and writes *)

Lemma prefix_app_cases {A} (k a b : list A) :
  k `prefix_of` (a ++ b) -> k `prefix_of` a \/ exists b', k = (a ++ b')%list /\ b' `prefix_of` b.
Proof.
  revert k. induction a as [|x a IH]; intros k Hk.
  - right. exists k. by split.
  - destruct k as [|y k]; [left; apply prefix_nil|].
    cbn in Hk. apply prefix_cons_inv_1 in Hk as Hxy. subst y.
    apply prefix_cons_inv_2 in Hk. destruct (IH k Hk) as [H|(b' & -> & Hb')].
    + left. by apply prefix_cons.
    + right. exists b'. by split.
Qed.

Lemma prefix_longer {A} (a b : list A) :
  a `prefix_of` b -> List.length b < List.length a -> False.
Proof. intros H Hlen. apply prefix_length in H. lia. Qed.

Section Archive.

(** The directory of the archive, the name of the archive and the name of
    its extraction directory. *)
Variable P : list string.
Variables x s : string.
Notation confined_here :=
  (confined (archive_reads P x s) (archive_writes P x s) (above_are_dirs P)).

Lemma below_reads (r : list string) : archive_reads P x s (P ++ [s] ++ r)%list.
Proof. right. right. exists r. by rewrite <- app_assoc. Qed.

Lemma below_not_above (r k : list string) : k `prefix_of` P -> k <> (P ++ [s] ++ r)%list.
Proof.
  intros Hk ->. apply (prefix_longer _ _ Hk). rewrite !length_app. cbn. lia.
Qed.

Lemma line_reads (r k : list string) :
  k `prefix_of` (P ++ [s] ++ r)%list -> archive_reads P x s k.
Proof.
  intros Hk. apply prefix_app_cases in Hk as [Hk|(b' & -> & Hb')]; [by left|].
  destruct b' as [|y b'].
  - left. by rewrite app_nil_r.
  - cbn in Hb'. apply prefix_cons_inv_1 in Hb' as Hy. subst y.
    right. right. exists b'. by rewrite <- app_assoc.
Qed.

Lemma line_new (r k : list string) (fs : FS.t) :
  above_are_dirs P fs -> fs !! k = None -> k <> [] ->
  k `prefix_of` (P ++ [s] ++ r)%list -> archive_writes P x s k.
Proof.
  intros HG Hnone Hne Hk. apply prefix_app_cases in Hk as [Hk|(b' & -> & Hb')].
  { rewrite (HG k Hne Hk) in Hnone. discriminate. }
  destruct b' as [|y b'].
  - rewrite app_nil_r in Hnone, Hne. rewrite (HG P Hne ltac:(done)) in Hnone. discriminate.
  - cbn in Hb'. apply prefix_cons_inv_1 in Hb' as Hy. subst y.
    right. exists b'. by rewrite <- app_assoc.
Qed.

Lemma confined_makedirs_below p ok r :
  FS.components p = (P ++ [s] ++ r)%list ->
  confined_here (os_makedirs p ok).
Proof.
  intros Hp. apply confined_lift_fs.
  - apply fs_makedirs_total.
  - intros fs1 fs2 Hag. apply makedirs_sim. intros k Hne Hk.
    apply Hag. rewrite Hp in Hk. by eapply line_reads.
  - intros fs f HG Hmk. split.
    + intros k Hne Hk. eapply makedirs_keeps; eauto.
    + intros k Hk. destruct (makedirs_changes _ _ _ _ Hmk k) as [?|(Hnone & Hpre & Hne)];
        [done|].
      exfalso. apply Hk. rewrite Hp in Hpre. by eapply line_new.
Qed.

Lemma confined_write_below p data r :
  FS.components p = (P ++ [s] ++ r)%list ->
  confined_here (write_file p data).
Proof.
  intros Hp. apply confined_lift_fs.
  - apply fs_write_file_total.
  - intros fs1 fs2 Hag. apply write_file_sim.
    + intros _. apply Hag. rewrite Hp. apply below_reads.
    + intros _. apply Hag. rewrite Hp.
      apply (line_reads r). rewrite app_assoc.
      destruct r as [|y r] using rev_ind.
      * rewrite app_nil_r, removelast_last. by apply prefix_app_r.
      * rewrite app_assoc, removelast_last. rewrite <- !app_assoc.
        do 2 apply prefix_app. by apply prefix_app_r.
  - intros fs f HG Hwr.
    apply fs_write_file_inv in Hwr as (k0 & Hres & _ & _ & _ & ->).
    apply resolve_components in Hres as ->. split.
    + intros k Hne Hk. rewrite lookup_insert_ne; [by apply HG|].
      rewrite Hp. intros Heq. by apply (below_not_above r k Hk).
    + intros k Hk. rewrite lookup_insert_ne; [done|]. intros <-. apply Hk.
      rewrite Hp. right. exists r. by rewrite <- app_assoc.
Qed.

Lemma confined_remove_archive p :
  FS.components p = (P ++ [x])%list ->
  confined_here (os_remove p).
Proof.
  intros Hp. apply confined_lift_fs.
  - apply fs_remove_total.
  - intros fs1 fs2 Hag. apply remove_sim. intros _. apply Hag. rewrite Hp. right. by left.
  - intros fs f HG Hrm. unfold FS.remove in Hrm.
    destruct (FS.resolve p) as [kp|] eqn:Hres; [|discriminate].
    apply resolve_components in Hres as ->. rewrite Hp in Hrm.
    destruct (P ++ [x])%list as [|y l] eqn:El; [discriminate|].
    destruct (fs !! (y :: l)) as [[d|]|] eqn:E; [|discriminate..].
    inversion Hrm; subst. split.
    + intros k Hne Hk. rewrite lookup_delete_ne; [by apply HG|].
      intros <-. apply (prefix_longer _ _ Hk).
      rewrite <- El, length_app. cbn. lia.
    + intros k Hk. rewrite lookup_delete_ne; [done|]. intros <-. apply Hk.
      left. done.
Qed.

Lemma confined_exists_below p r :
  FS.components p = (P ++ [s] ++ r)%list ->
  confined_here (os_path_exists p).
Proof.
  intros Hp. apply (confined_read _ _ _ (fun fs => FS.exists_ fs p)).
  intros fs1 fs2 Hag. unfold FS.exists_.
  destruct (FS.resolve p) as [kp|] eqn:Hres; [|done].
  apply resolve_components in Hres as ->.
  rewrite (lookup_agree fs1 fs2); [done|]. intros _. apply Hag. rewrite Hp. apply below_reads.
Qed.

Lemma confined_isdir_below p r :
  FS.components p = (P ++ [s] ++ r)%list ->
  confined_here (fun w => (Ok (FS.isdir (w_fs w) p), w)).
Proof.
  intros Hp. apply (confined_read _ _ _ (fun fs => FS.isdir fs p)).
  intros fs1 fs2 Hag. unfold FS.isdir.
  destruct (FS.resolve p) as [kp|] eqn:Hres; [|done].
  apply resolve_components in Hres as ->.
  rewrite (lookup_agree fs1 fs2); [done|]. intros _. apply Hag. rewrite Hp. apply below_reads.
Qed.

Lemma confined_ZipFile unzip p :
  FS.components p = (P ++ [x])%list ->
  confined_here (ZipFile unzip p).
Proof.
  intros Hp w1 w2 G1 G2 Hag. unfold ZipFile.
  destruct (FS.resolve p) as [kp|] eqn:Hres; [|by repeat split].
  apply resolve_components in Hres as ->.
  rewrite <- (lookup_agree (w_fs w1) (w_fs w2)).
  2:{ intros _. apply Hag. rewrite Hp. right. by left. }
  destruct (FS.lookup (w_fs w1) (FS.components p)) as [[data|]|]; try by repeat split.
  destruct (unzip data); by repeat split.
Qed.

Lemma confined_extract_member path m :
  FS.components path = (P ++ [s])%list ->
  confined_here (extract_member path m).
Proof.
  intros Hpath. unfold extract_member.
  assert (FS.components (member_target path m)
          = (P ++ [s] ++ arc_components (zm_name m))%list) as Htarget.
  { unfold member_target. rewrite components_join by apply arc_components_names.
    by rewrite Hpath, <- app_assoc. }
  assert (FS.components
            (Py.path_join path (Py.join_with "/" (removelast (arc_components (zm_name m)))))
          = (P ++ [s] ++ removelast (arc_components (zm_name m)))%list) as Hupper.
  { rewrite components_join; [by rewrite Hpath, <- app_assoc|].
    pose proof (arc_components_names (zm_name m)) as Hall.
    apply Forall_forall. intros y Hy. rewrite Forall_forall in Hall. apply Hall.
    by apply removelast_elem_of. }
  apply confined_bind; [by eapply confined_exists_below|]. intros upper_present.
  apply confined_bind.
  { destruct (negb upper_present); [|apply confined_ret].
    by eapply confined_makedirs_below. }
  intros _. destruct (Py.endswith (zm_name m) "/").
  - apply confined_bind; [by eapply confined_isdir_below|].
    intros present. destruct present; [apply confined_ret|].
    by eapply confined_makedirs_below.
  - apply confined_bind; [by eapply confined_write_below|].
    intros _. destruct (zm_crc_ok m); [apply confined_ret | apply confined_raise].
Qed.

Lemma confined_unzip_into unzip zip_path extract_to :
  FS.components zip_path = (P ++ [x])%list ->
  FS.components extract_to = (P ++ [s])%list ->
  confined_here (unzip_into unzip zip_path extract_to).
Proof.
  intros Hzip Hto. unfold unzip_into.
  apply confined_bind; [by apply confined_ZipFile|]. intros zip_ref.
  apply confined_bind.
  { repeat case_match; by first [apply confined_ret | apply confined_raise]. }
  intros _. apply confined_for_each. intros m _. by apply confined_extract_member.
Qed.

End Archive.

Lemma confined_extract_archive unzip verbose dirpath x :
  Py.is_name x = true ->
  Py.is_name (Py.drop_last 4 x) = true ->
  confined (archive_reads (FS.components dirpath) x (Py.drop_last 4 x))
           (archive_writes (FS.components dirpath) x (Py.drop_last 4 x))
           (above_are_dirs (FS.components dirpath))
           (extract_archive unzip verbose dirpath x).
Proof.
  intros Hx Hs. unfold extract_archive.
  destruct (Py.endswith (Py.lower x) ".zip"); [|apply confined_ret].
  pose proof (components_join_name dirpath x Hx) as Hzip.
  pose proof (components_join_name dirpath _ Hs) as Hto.
  apply confined_bind.
  { apply (confined_makedirs_below _ _ _ _ _ []). by rewrite app_nil_r. }
  intros _. apply confined_try_except.
  - apply confined_bind; [by apply confined_unzip_into|].
    intros _. apply confined_bind; [by apply confined_remove_archive|].
    intros _. apply confined_when, confined_print.
  - intros e. apply confined_when, confined_print.
Qed.

(** *** Listings *)

Lemma NoDup_omap_inj {A B} (f : A -> option B) (l : list A) :
  NoDup l ->
  (forall a b y, a ∈ l -> b ∈ l -> f a = Some y -> f b = Some y -> a = b) ->
  NoDup (omap f l).
Proof.
  induction 1 as [|a l Hnotin Hnd IH]; intros Hinj; [constructor|].
  simpl. destruct (f a) as [y|] eqn:Ea.
  - constructor.
    + intros Hin. apply list_elem_of_omap in Hin as (b & Hb & Hfb).
      apply Hnotin. rewrite (Hinj a b y); [done|by left|by right|done..].
    + apply IH. intros a' b' y' Ha' Hb'. apply Hinj; by right.
  - apply IH. intros a' b' y' Ha' Hb'. apply Hinj; by right.
Qed.

Lemma child_name_app d x : FS.child_name d (d ++ [x]) = Some x.
Proof.
  unfold FS.child_name. rewrite last_last.
  by destruct (decide (d ++ [x] = d ++ [x]))%list.
Qed.

Lemma scandir_spec fs p dirnames filenames :
  FS.scandir fs p = Some (dirnames, filenames) ->
  (forall x, x ∈ dirnames <-> fs !! (FS.components p ++ [x])%list = Some FS.Dir) /\
  (forall x, x ∈ filenames <->
             exists data, fs !! (FS.components p ++ [x])%list = Some (FS.File data)) /\
  NoDup dirnames /\ NoDup filenames.
Proof.
  intros Hscan. pose proof (scandir_inv _ _ _ _ Hscan) as (_ & Hd & Hf).
  unfold FS.scandir in Hscan. destruct (FS.resolve p) as [d|] eqn:Hres; [|discriminate].
  apply resolve_components in Hres as ->.
  destruct (FS.lookup fs (FS.components p)) as [[|]|]; try discriminate.
  inversion Hscan; subst. clear Hscan.
  assert (forall (a b : list string * FS.node),
            a ∈ map_to_list fs -> b ∈ map_to_list fs -> a.1 = b.1 -> a = b) as Hfun.
  { intros [k1 n1] [k2 n2] H1 H2 Heq. cbn in Heq. subst k2.
    apply elem_of_map_to_list in H1, H2. congruence. }
  split; [|split; [|split]].
  - intros x. split; [apply Hd|]. intros Hx.
    apply list_elem_of_omap. exists (FS.components p ++ [x], FS.Dir)%list.
    split; [by apply elem_of_map_to_list | apply child_name_app].
  - intros x. split; [apply Hf|]. intros [data Hx].
    apply list_elem_of_omap. exists (FS.components p ++ [x], FS.File data)%list.
    split; [by apply elem_of_map_to_list | apply child_name_app].
  - apply NoDup_omap_inj; [apply NoDup_map_to_list|].
    intros [k1 n1] [k2 n2] y H1 H2 Hy1 Hy2. apply Hfun; [done..|]. cbn.
    destruct n1; [discriminate|]. destruct n2; [discriminate|].
    apply child_name_inv in Hy1, Hy2. congruence.
  - apply NoDup_omap_inj; [apply NoDup_map_to_list|].
    intros [k1 n1] [k2 n2] y H1 H2 Hy1 Hy2. apply Hfun; [done..|]. cbn.
    destruct n1; [|discriminate]. destruct n2; [|discriminate].
    apply child_name_inv in Hy1, Hy2. congruence.
Qed.

Lemma scandir_none fs p :
  FS.scandir fs p = None -> FS.lookup fs (FS.components p) <> Some FS.Dir \/ p = "".
Proof.
  unfold FS.scandir, FS.resolve. destruct (String.eqb p "") eqn:E.
  - apply String.eqb_eq in E. by right.
  - destruct (FS.lookup fs (FS.components p)) as [[|]|]; try discriminate; by left.
Qed.

(** *** Creating a directory where nothing is in the way *)

Lemma mkdir_p_raise_inv p todo : forall fs above e,
  FS.mkdir_p true p fs above todo = Raise e ->
  exists k data, k `prefix_of` (rev above ++ todo) /\ List.length above < List.length k /\
                 fs !! k = Some (FS.File data).
Proof.
  induction todo as [|s r IH]; intros fs above e H; cbn [FS.mkdir_p] in H; [discriminate|].
  assert (rev above ++ s :: r = rev (s :: above) ++ r) as Hpath.
  { cbn [rev]. by rewrite <- app_assoc. }
  destruct (fs !! rev (s :: above)) as [[d|]|] eqn:E.
  - exists (rev (s :: above)), d. split; [rewrite Hpath; by apply prefix_app_r|].
    split; [rewrite length_rev; cbn; lia | done].
  - destruct r as [|s' r']; [discriminate|].
    destruct (IH _ _ _ H) as (k & data & Hk & Hlen & Hf).
    exists k, data. rewrite Hpath. split; [done|]. split; [cbn in Hlen; lia | done].
  - destruct (IH _ _ _ H) as (k & data & Hk & Hlen & Hf).
    exists k, data. rewrite Hpath. split; [done|]. split; [cbn in Hlen; lia|].
    rewrite lookup_insert_ne in Hf; [done|].
    intros <-. rewrite length_rev in Hlen. cbn in Hlen. lia.
Qed.

Lemma makedirs_fresh_ok (P : list string) (s p : string) (fs : FS.t) :
  FS.components p = (P ++ [s])%list ->
  above_are_dirs P fs ->
  fs !! (P ++ [s])%list = None ->
  exists f, FS.makedirs true p fs = Ok f.
Proof.
  intros Hp Habove Hnone.
  pose proof (fs_makedirs_total true p fs) as Htot.
  destruct (FS.makedirs true p fs) as [f|e|] eqn:Emk; [by exists f| |done].
  exfalso. unfold FS.makedirs in Emk.
  destruct (FS.resolve p) as [kp|] eqn:Hres.
  2:{ unfold FS.resolve in Hres. destruct (String.eqb p "") eqn:E; [|discriminate].
      apply String.eqb_eq in E. subst p. by destruct P. }
  apply resolve_components in Hres as ->. rewrite Hp in Emk.
  destruct (P ++ [s])%list as [|y l] eqn:El; [by destruct P|].
  apply mkdir_p_raise_inv in Emk as (k & data & Hk & Hlen & Hf).
  cbn [rev app] in Hk. rewrite <- El in Hk.
  apply prefix_app_cases in Hk as [Hk|(b' & -> & Hb')].
  - rewrite Habove in Hf; [discriminate| |done]. intros ->. cbn in Hlen. lia.
  - destruct b' as [|z b'].
    + rewrite app_nil_r in Hf, Hlen. rewrite Habove in Hf; [discriminate| |done].
      intros ->. cbn in Hlen. lia.
    + apply prefix_cons_inv_1 in Hb' as Hz. subst z.
      apply prefix_cons_inv_2, prefix_nil_inv in Hb'. subst b'. congruence.
Qed.

Lemma extract_archive_raise_inv unzip verbose dirpath x w e w' :
  extract_archive unzip verbose dirpath x w = (Raise e, w') ->
  FS.makedirs true (Py.path_join dirpath (Py.drop_last 4 x)) (w_fs w) = Raise e.
Proof.
  unfold extract_archive. destruct (Py.endswith _ _); [|discriminate].
  unfold bind at 1, os_makedirs, lift_fs.
  destruct (FS.makedirs true _ (w_fs w)) as [f|e0|]; [|congruence|discriminate].
  unfold try_except.
  destruct ((do _ <- unzip_into unzip _ _; _) (set_fs f w)) as [[[]|e1|] w1];
    [discriminate| |discriminate].
  destruct verbose; discriminate.
Qed.

(** *** A loop whose steps work on separate parts of the disk *)

Section Regions.

Context {A : Type}.
Variable fsd : FS.t.
Variables Rd F : A -> list string -> Prop.
Variable Post : A -> FS.t -> Prop.
Variable body : A -> M unit.

Lemma for_each_regions (l : list A) :
  NoDup l ->
  (forall x y k, x ∈ l -> y ∈ l -> x <> y -> Rd x k -> F y k -> False) ->
  (forall x k, x ∈ l -> F x k -> Rd x k) ->
  (forall x, x ∈ l -> forall w0,
     (forall k, Rd x k -> w_fs w0 !! k = fsd !! k) ->
     exists w1, body x w0 = (Ok tt, w1) /\
                (forall k, ~ F x k -> w_fs w1 !! k = w_fs w0 !! k) /\
                Post x (w_fs w1)) ->
  (forall x fs fs', x ∈ l -> (forall k, F x k -> fs' !! k = fs !! k) ->
                    Post x fs -> Post x fs') ->
  forall w,
    (forall x k, x ∈ l -> Rd x k -> w_fs w !! k = fsd !! k) ->
    exists w', for_each l body w = (Ok tt, w') /\
               (forall k, (forall x, x ∈ l -> ~ F x k) -> w_fs w' !! k = w_fs w !! k) /\
               forall x, x ∈ l -> Post x (w_fs w').
Proof.
  induction 1 as [|x l Hnotin Hnd IH]; intros Hsep Hsub Hbody Hstable w Hw.
  - exists w. split; [reflexivity|]. split; [done|]. intros x Hx. by apply elem_of_nil in Hx.
  - destruct (Hbody x ltac:(by left) w) as (w1 & Hrun & Hfr & Hpost).
    { intros k Hk. apply (Hw x); [by left | done]. }
    destruct (IH) with (w := w1) as (w' & Hrest & Hfr' & Hpost').
    + intros a b k Ha Hb. apply Hsep; by right.
    + intros a k Ha. apply Hsub. by right.
    + intros a Ha. apply Hbody. by right.
    + intros a fs fs' Ha. apply Hstable. by right.
    + intros a k Ha Hk. rewrite Hfr.
      * apply (Hw a); [by right | done].
      * intros HF. apply (Hsep a x k); [by right | by left | | done..].
        intros ->. done.
    + exists w'. rewrite for_each_cons. erewrite bind_run by exact Hrun.
      split; [exact Hrest|]. split.
      * intros k Hk. rewrite Hfr'; [|intros a Ha; apply Hk; by right].
        apply Hfr. apply Hk. by left.
      * intros a Ha. apply elem_of_cons in Ha as [->|Ha]; [|by apply Hpost'].
        apply (Hstable x (w_fs w1)); [by left | | done].
        intros k Hk. apply Hfr'. intros a Ha HF.
        apply (Hsep x a k); [by left | by right | | by apply Hsub; [left|] | done].
        intros ->. done.
Qed.

End Regions.

(** *** The walk over a tree whose extraction directories are free *)

Section CleanWalk.

Variable unzip : string -> option (list zmember).
Variable verbose : bool.
Variable wd : world.
Variable K0 : list string.
Variable B : nat.

Notation fsd := (w_fs wd).
Notation stem x := (Py.drop_last 4 x).

Hypothesis Hproper : forall k n, fsd !! k = Some n -> proper_key k.
Hypothesis Htree :
  forall k n, fsd !! k = Some n ->
    forall k', k' <> [] -> k' `prefix_of` k -> k' <> k -> fsd !! k' = Some FS.Dir.
Hypothesis Hfree :
  forall P x data,
    K0 `prefix_of` P -> fsd !! (P ++ [x])%list = Some (FS.File data) -> zip_name x = true ->
    Py.is_name (stem x) = true /\
    fsd !! (P ++ [stem x])%list = None /\
    forall x' data',
      fsd !! (P ++ [x'])%list = Some (FS.File data') -> zip_name x' = true ->
      stem x' = stem x -> x' = x.
Hypothesis Hbound : forall k n, fsd !! k = Some n -> List.length k <= B.

Lemma name_of_entry (P : list string) x n :
  fsd !! (P ++ [x])%list = Some n -> Py.is_name x = true /\ proper_key P.
Proof.
  intros H. apply Hproper in H. apply Forall_app in H as [HP Hx].
  by inversion Hx.
Qed.

Lemma above_entry (P : list string) x n :
  fsd !! (P ++ [x])%list = Some n -> above_are_dirs P fsd.
Proof.
  intros H k Hne Hk. apply (Htree _ _ H); [done | by apply prefix_app_r |].
  intros ->. apply (prefix_longer _ _ Hk). rewrite length_app. cbn. lia.
Qed.

(** The loop body at the turn of an archive: the same as on the tree as
    downloaded. *)
Lemma extract_archive_turn dirpath x data w0 :
  K0 `prefix_of` FS.components dirpath ->
  fsd !! (FS.components dirpath ++ [x])%list = Some (FS.File data) ->
  zip_name x = true ->
  (forall k, archive_reads (FS.components dirpath) x (stem x) k ->
             w_fs w0 !! k = fsd !! k) ->
  exists w1,
    extract_archive unzip verbose dirpath x w0 = (Ok tt, w1) /\
    (forall k, ~ archive_writes (FS.components dirpath) x (stem x) k ->
               w_fs w1 !! k = w_fs w0 !! k) /\
    (forall k, archive_writes (FS.components dirpath) x (stem x) k ->
               w_fs w1 !! k
               = w_fs (snd (extract_archive unzip verbose dirpath x wd)) !! k).
Proof.
  intros HK0 Hfile Hzip Hag.
  destruct (Hfree _ _ _ HK0 Hfile Hzip) as (Hstem & Hnone & _).
  destruct (name_of_entry _ _ _ Hfile) as [Hx _].
  pose proof (above_entry _ _ _ Hfile) as Habove.
  assert (above_are_dirs (FS.components dirpath) (w_fs w0)) as Habove0.
  { intros k Hne Hk. rewrite Hag by (by left). by apply Habove. }
  destruct (confined_extract_archive unzip verbose dirpath x Hx Hstem w0 wd Habove0 Habove Hag)
    as (Hr & Hend & Hpt & Hfr & _).
  destruct (extract_archive unzip verbose dirpath x wd) as [rd wd'] eqn:Ed.
  destruct (extract_archive unzip verbose dirpath x w0) as [r0 w1] eqn:E0.
  cbn [fst snd] in *. subst rd. exists w1.
  destruct r0 as [[]|e|]; [| |done].
  - split; [reflexivity|]. split; [done|]. intros k Hk. apply Hpt, Hag.
    destruct Hk as [->|Hk]; [right; by left | right; by right].
  - exfalso. apply extract_archive_raise_inv in Ed.
    destruct (makedirs_fresh_ok (FS.components dirpath) (stem x)
                (Py.path_join dirpath (stem x)) fsd) as [f Hf];
      [by apply components_join_name | done | done | congruence].
Qed.

Lemma writes_not_above (P : list string) x k :
  k `prefix_of` P -> ~ archive_writes P x (stem x) k.
Proof.
  intros Hk [->|Hs].
  - apply (prefix_longer _ _ Hk). rewrite length_app. cbn. lia.
  - apply (prefix_longer _ _ (transitivity Hs Hk)). rewrite length_app. cbn. lia.
Qed.

Lemma app_singleton_prefix (P : list string) a b (k : list string) :
  (P ++ [a])%list `prefix_of` k -> (P ++ [b])%list `prefix_of` k -> a = b.
Proof.
  intros [r1 ->] [r2 H]. rewrite <- !app_assoc in H. apply app_inv_head in H.
  cbn in H. congruence.
Qed.

(** The footprints of two archives of one directory do not meet. *)
Lemma archives_apart (P : list string) x y dx dy k :
  K0 `prefix_of` P ->
  fsd !! (P ++ [x])%list = Some (FS.File dx) -> zip_name x = true ->
  fsd !! (P ++ [y])%list = Some (FS.File dy) -> zip_name y = true ->
  x <> y ->
  archive_reads P x (stem x) k -> archive_writes P y (stem y) k -> False.
Proof.
  intros HK0 Hx Hzx Hy Hzy Hne Hr Hw.
  destruct (Hfree _ _ _ HK0 Hx Hzx) as (_ & Hnx & Hux).
  destruct (Hfree _ _ _ HK0 Hy Hzy) as (_ & Hny & _).
  destruct Hr as [Hr|[->|Hr]].
  - by apply (writes_not_above P y k).
  - destruct Hw as [Hw|Hw].
    + apply app_inv_head in Hw. congruence.
    + assert (stem y = x) as Heq.
      { eapply (app_singleton_prefix P); [exact Hw | done]. }
      rewrite Heq in Hny. congruence.
  - destruct Hw as [->|Hw].
    + assert (stem x = y) as Heq.
      { eapply (app_singleton_prefix P); [exact Hr | done]. }
      rewrite Heq in Hnx. congruence.
    + apply Hne. symmetry. eapply Hux; [exact Hy | done |].
      symmetry. by eapply (app_singleton_prefix P).
Qed.

Lemma fold_left_join_components rel : forall dirpath,
  proper_key rel ->
  FS.components (fold_left Py.path_join rel dirpath) = (FS.components dirpath ++ rel)%list.
Proof.
  induction rel as [|d rel IH]; intros dirpath Hrel; cbn [fold_left].
  - by rewrite app_nil_r.
  - inversion Hrel; subst. rewrite IH by done.
    rewrite components_join_name by done. by rewrite <- app_assoc.
Qed.

Lemma join_name_nonempty dirpath d :
  Py.is_name d = true -> Py.path_join dirpath d <> "".
Proof.
  intros Hd Heq. pose proof (components_join_name dirpath d Hd) as Hc.
  rewrite Heq in Hc. by destruct (FS.components dirpath).
Qed.

Lemma below_strict (P : list string) d (k : list string) :
  (P ++ [d])%list `prefix_of` k -> P `prefix_of` k /\ k <> P.
Proof.
  intros Hk. split; [etransitivity; [by apply prefix_app_r | exact Hk] |].
  intros ->. apply (prefix_longer _ _ Hk). rewrite length_app. cbn. lia.
Qed.

Lemma writes_strict (P : list string) x s (k : list string) :
  archive_writes P x s k -> P `prefix_of` k /\ k <> P.
Proof.
  intros [->|Hk]; [|by eapply below_strict].
  split; [by apply prefix_app_r|].
  intros Heq. apply (f_equal (@List.length string)) in Heq.
  rewrite length_app in Heq. cbn in Heq. lia.
Qed.

(** An archive of a directory writes nothing in a sub-directory that the
    tree as downloaded has. *)
Lemma archive_misses_directory (P : list string) x dx d k :
  K0 `prefix_of` P ->
  fsd !! (P ++ [x])%list = Some (FS.File dx) -> zip_name x = true ->
  fsd !! (P ++ [d])%list = Some FS.Dir ->
  archive_writes P x (stem x) k ->
  ~ (k `prefix_of` (P ++ [d])%list \/ (P ++ [d])%list `prefix_of` k).
Proof.
  intros HK0 Hx Hz Hd Hwr Hk.
  destruct (Hfree _ _ _ HK0 Hx Hz) as (_ & Hnone & _).
  destruct Hwr as [->|Hs].
  - destruct Hk as [Hk|Hk].
    + apply prefix_length_eq in Hk; [|rewrite !length_app; cbn; lia].
      apply app_inv_head in Hk. congruence.
    + apply prefix_length_eq in Hk; [|rewrite !length_app; cbn; lia].
      apply app_inv_head in Hk. congruence.
  - assert (stem x = d) as Heq; [|rewrite Heq in Hnone; congruence].
    destruct Hk as [Hk|Hk].
    + assert ((P ++ [stem x])%list `prefix_of` (P ++ [d])%list) as Hp by (by etransitivity).
      apply prefix_length_eq in Hp; [|rewrite !length_app; cbn; lia].
      apply app_inv_head in Hp. congruence.
    + by eapply (app_singleton_prefix P).
Qed.

Lemma walk_clean fuel : forall dirpath w,
  dirpath <> "" ->
  K0 `prefix_of` FS.components dirpath ->
  List.length (FS.components dirpath) <= B ->
  B + 1 <= fuel + List.length (FS.components dirpath) ->
  (forall k, k `prefix_of` FS.components dirpath \/ FS.components dirpath `prefix_of` k ->
             w_fs w !! k = fsd !! k) ->
  exists w',
    walk_extract unzip fuel verbose dirpath w = (Ok tt, w') /\
    (forall k, ~ (FS.components dirpath `prefix_of` k /\ k <> FS.components dirpath) ->
               w_fs w' !! k = w_fs w !! k) /\
    (forall rel x data,
       fsd !! (FS.components dirpath ++ rel ++ [x])%list = Some (FS.File data) ->
       zip_name x = true ->
       forall k, archive_writes (FS.components dirpath ++ rel) x (stem x) k ->
         w_fs w' !! k
         = w_fs (snd (extract_archive unzip verbose
                        (fold_left Py.path_join rel dirpath) x wd)) !! k).
Proof.
  induction fuel as [|fuel IH]; intros dirpath w Hne HK0 HP Hfuel Hw; [lia|].
  set (P := FS.components dirpath) in *.
  cbn [walk_extract]. unfold bind at 1.
  destruct (FS.scandir (w_fs w) dirpath) as [[dirnames filenames]|] eqn:Hscan.
  2:{ exists w. split; [reflexivity|]. split; [done|].
      intros rel x data Hfile Hzip k Hk. exfalso.
      apply scandir_none in Hscan as [Hnd|Hempty]; [|done].
      apply Hnd. fold P. destruct P as [|y P'] eqn:EP; [reflexivity|].
      cbn [FS.lookup]. rewrite Hw by (left; done).
      apply (Htree _ _ Hfile); [done | by apply prefix_app_r |].
      intros Heq. apply (f_equal (@List.length string)) in Heq.
      rewrite !length_app in Heq. cbn in Heq. lia. }
  destruct (scandir_spec _ _ _ _ Hscan) as (Hdirs & Hfiles & Hnd_d & Hnd_f).
  fold P in Hdirs, Hfiles.
  assert (forall x, x ∈ filenames <-> exists data, fsd !! (P ++ [x])%list = Some (FS.File data))
    as Hfiles'.
  { intros x. rewrite Hfiles. rewrite Hw; [done|]. right. by apply prefix_app_r. }
  assert (forall d, d ∈ dirnames <-> fsd !! (P ++ [d])%list = Some FS.Dir) as Hdirs'.
  { intros d. rewrite Hdirs. rewrite Hw; [done|]. right. by apply prefix_app_r. }
  clear Hfiles Hdirs.
  (* the loop over the files *)
  destruct (for_each_regions fsd
              (fun x k => zip_name x = true /\ archive_reads P x (stem x) k)
              (fun x k => zip_name x = true /\ archive_writes P x (stem x) k)
              (fun x fs => forall k, zip_name x = true -> archive_writes P x (stem x) k ->
                             fs !! k
                             = w_fs (snd (extract_archive unzip verbose dirpath x wd)) !! k)
              (extract_archive unzip verbose dirpath) filenames Hnd_f)
    with (w := w) as (wf & Hrun_f & Hfr_f & Hpost_f).
  - intros x y k Hx Hy Hxy [Hzx Hr] [Hzy Hwr].
    apply Hfiles' in Hx as [dx Hx], Hy as [dy Hy].
    eapply (archives_apart P x y); eauto.
  - intros x k Hx [Hz [->|Hk]]; (split; [done|]); [right; by left | right; by right].
  - intros x Hx w0 Hw0. apply Hfiles' in Hx as [dx Hx].
    destruct (zip_name x) eqn:Hz.
    + destruct (extract_archive_turn dirpath x dx w0 HK0 Hx Hz) as (w1 & Hrun & Hfr & Hcan).
      { intros k Hk. apply Hw0. by split. }
      exists w1. split; [done|]. split.
      * intros k Hk. apply Hfr. intros Hk'. apply Hk. by split.
      * intros k _ Hk. by apply Hcan.
    + exists w0. split.
      * unfold extract_archive. unfold zip_name in Hz. by rewrite Hz.
      * split; [done|]. intros k Hz'. discriminate.
  - intros x fs fs' Hx Hag Hpost k Hz Hk. rewrite Hag by (by split). by apply Hpost.
  - intros x k Hx [Hz Hr]. apply Hw.
    destruct Hr as [Hr|[->|Hr]]; [by left | right; by apply prefix_app_r |].
    right. etransitivity; [|exact Hr]. by apply prefix_app_r.
  - (* the loop over the directories *)
    unfold bind at 1. rewrite Hrun_f.
    assert (forall d k, d ∈ dirnames ->
              k `prefix_of` (P ++ [d])%list \/ (P ++ [d])%list `prefix_of` k ->
              w_fs wf !! k = fsd !! k) as Hwf.
    { intros d k Hd Hk. rewrite Hfr_f.
      - apply Hw. destruct Hk as [Hk|Hk].
        + destruct (prefix_app_cases _ _ _ Hk) as [Hk'|(b' & -> & _)]; [by left|].
          right. by apply prefix_app_r.
        + right. by eapply below_strict.
      - intros x Hx [Hz Hwr]. apply Hfiles' in Hx as [dx Hx]. apply Hdirs' in Hd.
        by eapply (archive_misses_directory P x dx d k). }
    destruct (for_each_regions fsd
                (fun d k => k `prefix_of` (P ++ [d])%list \/ (P ++ [d])%list `prefix_of` k)
                (fun d k => (P ++ [d])%list `prefix_of` k /\ k <> (P ++ [d])%list)
                (fun d fs => forall rel x data,
                     fsd !! ((P ++ [d]) ++ rel ++ [x])%list = Some (FS.File data) ->
                     zip_name x = true ->
                     forall k, archive_writes ((P ++ [d]) ++ rel) x (stem x) k ->
                       fs !! k
                       = w_fs (snd (extract_archive unzip verbose
                                      (fold_left Py.path_join rel (Py.path_join dirpath d))
                                      x wd)) !! k)
                (fun d => walk_extract unzip fuel verbose (Py.path_join dirpath d))
                dirnames Hnd_d)
      with (w := wf) as (w' & Hrun_d & Hfr_d & Hpost_d).
    + intros x y k Hx Hy Hxy Hr [Hwr _]. apply Hxy.
      destruct Hr as [Hr|Hr].
      * assert ((P ++ [y])%list `prefix_of` (P ++ [x])%list) as Hp by (by etransitivity).
        apply prefix_length_eq in Hp; [|rewrite !length_app; cbn; lia].
        apply app_inv_head in Hp. congruence.
      * by eapply (app_singleton_prefix P).
    + intros d k _ [Hk _]. by right.
    + intros d Hd w0 Hw0. apply Hdirs' in Hd.
      destruct (name_of_entry _ _ _ Hd) as [Hname _].
      pose proof (components_join_name dirpath d Hname) as Hc. fold P in Hc.
      destruct (IH (Py.path_join dirpath d) w0) as (w1 & Hrun & Hfr & Hpost).
      * by apply join_name_nonempty.
      * rewrite Hc. etransitivity; [exact HK0 | by apply prefix_app_r].
      * rewrite Hc. by eapply Hbound.
      * rewrite Hc, length_app. cbn. lia.
      * rewrite Hc. exact (fun k Hk => Hw0 k Hk).
      * rewrite Hc in Hfr, Hpost. exists w1. split; [done|]. split; [done|].
        intros rel x data. apply Hpost.
    + intros d fs fs' Hd Hag Hpost rel x data Hfile Hz k Hk.
      rewrite Hag; [by eapply Hpost|].
      apply writes_strict in Hk as [Hk Hkne].
      split.
      * etransitivity; [|exact Hk]. by apply prefix_app_r.
      * intros ->. destruct rel as [|r rel].
        -- apply Hkne. by rewrite app_nil_r.
        -- apply prefix_length in Hk. rewrite !length_app in Hk. cbn in Hk. lia.
    + exact (fun d k Hd Hk => Hwf d k Hd Hk).
    + exists w'. split; [done|]. split.
      * intros k Hk. rewrite Hfr_d, Hfr_f; [done| |].
        -- intros x _ [_ Hwr]. apply Hk. by eapply writes_strict.
        -- intros d _ [Hb _]. apply Hk. by eapply below_strict.
      * intros rel x data Hfile Hz k Hk. destruct rel as [|d rel].
        -- rewrite app_nil_r in Hk. cbn [app] in Hfile. cbn [fold_left].
           assert (x ∈ filenames) as Hx by (apply Hfiles'; eauto).
           rewrite Hfr_d; [by apply Hpost_f|].
           intros d Hd [Hb _]. apply Hdirs' in Hd.
           eapply (archive_misses_directory P x data d k); eauto.
        -- cbn [fold_left].
           assert (d ∈ dirnames) as Hd.
           { apply Hdirs'. apply (Htree _ _ Hfile).
             - by destruct P.
             - change ((d :: rel) ++ [x])%list with ([d] ++ (rel ++ [x]))%list.
               rewrite app_assoc. by apply prefix_app_r.
             - intros Heq. apply (f_equal (@List.length string)) in Heq.
               rewrite !length_app in Heq. cbn in Heq. lia. }
           change (d :: rel)%list with ([d] ++ rel)%list in Hk.
           rewrite app_assoc in Hk.
           change ((d :: rel) ++ [x])%list with ([d] ++ (rel ++ [x]))%list in Hfile.
           rewrite app_assoc in Hfile.
           by eapply (Hpost_d d Hd rel x data).
Qed.

End CleanWalk.

Lemma tree_shaped_above fs :
  tree_shaped fs ->
  forall k n, fs !! k = Some n ->
    forall k', k' <> [] -> k' `prefix_of` k -> k' <> k -> fs !! k' = Some FS.Dir.
Proof.
  intros Ht k. induction k as [|a k0 IH] using rev_ind; intros n Hk k' Hne Hpre Hneq.
  - apply prefix_nil_inv in Hpre. done.
  - pose proof (Ht _ _ Hk) as Hparent. cbn beta in Hparent.
    rewrite removelast_last in Hparent.
    destruct (prefix_app_cases _ _ _ Hpre) as [Hp|(b' & -> & Hb')].
    + destruct k0 as [|s r]; [by apply prefix_nil_inv in Hp|].
      cbn [FS.lookup] in Hparent.
      destruct (decide (k' = s :: r)) as [->|Hd]; [done|].
      by eapply IH.
    + destruct b' as [|b r].
      * rewrite app_nil_r in *. destruct k0; [done|]. exact Hparent.
      * apply prefix_cons_inv_1 in Hb' as Hab. subst b.
        apply prefix_cons_inv_2, prefix_nil_inv in Hb'. by subst r.
Qed.

Lemma extraction_dirs_free_inv K fs :
  extraction_dirs_free K fs ->
  forall P x data,
    K `prefix_of` P -> fs !! (P ++ [x])%list = Some (FS.File data) -> zip_name x = true ->
    Py.is_name (Py.drop_last 4 x) = true /\
    fs !! (P ++ [Py.drop_last 4 x])%list = None /\
    forall x' data',
      fs !! (P ++ [x'])%list = Some (FS.File data') -> zip_name x' = true ->
      Py.drop_last 4 x' = Py.drop_last 4 x -> x' = x.
Proof.
  intros Hfree P x data HK Hfile Hz.
  pose proof (Hfree _ _ Hfile) as H. cbn beta in H.
  rewrite removelast_last in H. cbn [is_archive] in H. rewrite last_last in H.
  destruct (H Hz HK) as (Hs & Hnone & Huniq).
  split; [done|]. split; [done|].
  intros x' data' Hfile' Hz' Hstem.
  pose proof (Huniq _ _ Hfile') as H'. cbn beta in H'.
  rewrite removelast_last in H'. cbn [is_archive] in H'. rewrite !last_last in H'.
  by apply H'.
Qed.

Lemma exists_agree (fs fs' : FS.t) p (k : list string) :
  FS.components p = k -> k <> [] -> fs' !! k = fs !! k ->
  FS.exists_ fs' p = FS.exists_ fs p.
Proof.
  intros Hc Hne Hag. unfold FS.exists_, FS.resolve. rewrite Hc.
  destruct (String.eqb p ""); [done|]. destruct k; [done|]. cbn [FS.lookup].
  by rewrite Hag.
Qed.

Lemma isdir_agree (fs fs' : FS.t) p (k : list string) :
  FS.components p = k -> k <> [] -> fs' !! k = fs !! k ->
  FS.isdir fs' p = FS.isdir fs p.
Proof.
  intros Hc Hne Hag. unfold FS.isdir, FS.resolve. rewrite Hc.
  destruct (String.eqb p ""); [done|]. destruct k; [done|]. cbn [FS.lookup].
  by rewrite Hag.
Qed.

Lemma read_file_agree (w w' : world) p (k : list string) data :
  FS.components p = k -> w_fs w' !! k = w_fs w !! k ->
  read_file p w = (Ok data, w) -> read_file p w' = (Ok data, w').
Proof.
  intros Hc Hag Hr. apply read_file_inv in Hr as (k0 & Hres & Hne & Hk & _).
  pose proof (resolve_components _ _ Hres) as ->. subst k.
  unfold read_file. rewrite Hres. destruct (FS.components p); [done|].
  cbn [FS.lookup]. by rewrite Hag, Hk.
Qed.

(** The fetch that extracts is the fetch that does not, and then the
    walk. *)
Lemma osf_fetch_then_walk unzip fuel0 fuel dataset folder project token verbose w p wd :
  osf_fetch false unzip fuel0 dataset folder project token false verbose w = (Ok p, wd) ->
  folder <> "" /\
  osf_fetch false unzip fuel dataset folder project token true verbose w
  = (do _ <- walk_extract unzip fuel verbose folder; ret folder) wd.
Proof.
  unfold osf_fetch. intros H.
  apply bind_ok_inv in H as ([] & w1 & Hmk & H).
  split.
  { apply lift_fs_ok_inv in Hmk as (f & Hf & _). intros ->. by vm_compute in Hf. }
  apply bind_ok_inv in H as (storage & w2 & Hconn & H).
  apply bind_ok_inv in H as (cur & w3 & Hnav & H).
  apply bind_ok_inv in H as ([] & w4 & Hdl & H).
  unfold bind at 1, ret in H. cbn in H. inversion H; subst.
  erewrite bind_run by exact Hmk. erewrite bind_run by exact Hconn.
  erewrite bind_run by exact Hnav. erewrite bind_run by exact Hdl. reflexivity.
Qed.


(** ** The exceptions of the walk *)

Lemma files_kept_but_refl kz w : files_kept_but kz w w.
Proof. intros k d _ H. eauto. Qed.

Lemma files_kept_but_trans kz w1 w2 w3 :
  files_kept_but kz w1 w2 -> files_kept_but kz w2 w3 -> files_kept_but kz w1 w3.
Proof.
  intros H12 H23 k d Hne Hk. destruct (H12 k d Hne Hk) as [d' Hk']. eauto.
Qed.

Lemma kinds_kept_files_kept kz w w' : kinds_kept w w' -> files_kept_but kz w w'.
Proof. intros H k d _ Hk. destruct (H k) as [Hf _]. eauto. Qed.

Lemma respects_weaken (R R' : world -> world -> Prop) {A} (c : M A) :
  (forall w w', R w w' -> R' w w') -> respects R c -> respects R' c.
Proof. intros HR Hc w r w' H. eauto. Qed.

Lemma extract_archive_files_kept unzip verbose dirpath x :
  respects (files_kept_but (FS.components (Py.path_join dirpath x)))
           (extract_archive unzip verbose dirpath x).
Proof.
  set (kz := FS.components (Py.path_join dirpath x)).
  pose proof (files_kept_but_refl kz) as Hrefl.
  pose proof (files_kept_but_trans kz) as Htrans.
  assert (forall msg, respects (files_kept_but kz) (print msg)) as Hprint.
  { intros msg w r w' H. inversion H. intros k d _ Hk. exists d. exact Hk. }
  unfold extract_archive. destruct (Py.endswith _ _); [|by apply respects_ret].
  apply respects_bind; [done| |].
  { apply respects_lift_fs; [done|]. intros w f Hf.
    by eapply kinds_kept_files_kept, kinds_kept_makedirs. }
  intros _. apply respects_try_except; [done| |].
  - apply respects_bind; [done| |].
    { eapply respects_weaken; [apply kinds_kept_files_kept | apply unzip_into_kinds_kept]. }
    intros _. apply respects_bind; [done| |].
    + apply respects_lift_fs; [done|]. intros w f Hf k d Hne Hk.
      unfold FS.remove in Hf.
      destruct (FS.resolve (Py.path_join dirpath x)) as [[|s r]|] eqn:Hres;
        [discriminate| |discriminate].
      apply resolve_components in Hres. fold kz in Hres.
      destruct (w_fs w !! (s :: r)) as [[d0|]|]; [|discriminate..].
      inversion Hf; subst f. exists d. cbn. rewrite lookup_delete_ne; [done|congruence].
    + intros _. apply respects_when; [done|]. apply Hprint.
  - intros e. apply respects_when; [done|]. apply Hprint.
Qed.

Lemma extract_archive_raise_world unzip verbose dirpath x w e w' :
  extract_archive unzip verbose dirpath x w = (Raise e, w') ->
  zip_name x = true /\ w' = w.
Proof.
  unfold extract_archive, zip_name. destruct (Py.endswith _ _); [|discriminate].
  unfold bind at 1, os_makedirs, lift_fs.
  destruct (FS.makedirs true _ (w_fs w)) as [f|e0|]; [| |discriminate].
  - unfold try_except.
    destruct ((do _ <- unzip_into unzip _ _; _) (set_fs f w)) as [[[]|e1|] w1];
      [discriminate| |discriminate].
    destruct verbose; discriminate.
  - intros H. by inversion H.
Qed.

Lemma for_each_raise_inv {A} (body : A -> M unit) (l : list A) : forall w e w',
  for_each l body w = (Raise e, w') ->
  exists l1 x l2 w0,
    l = (l1 ++ x :: l2)%list /\ for_each l1 body w = (Ok tt, w0) /\
    body x w0 = (Raise e, w').
Proof.
  induction l as [|x l IH]; intros w e w' H; [discriminate|].
  rewrite for_each_cons in H. unfold bind in H.
  destruct (body x w) as [[[]|e0|] w1] eqn:E; [| |discriminate].
  - destruct (IH _ _ _ H) as (l1 & y & l2 & w0 & -> & Hrun & Hy).
    exists (x :: l1), y, l2, w0. split; [done|]. split; [|done].
    rewrite for_each_cons. unfold bind. by rewrite E.
  - inversion H; subst. exists [], x, l, w. by repeat split.
Qed.

Lemma isfile_entry (fs : FS.t) dirpath x d :
  Py.is_name x = true ->
  fs !! (FS.components dirpath ++ [x])%list = Some (FS.File d) ->
  FS.isfile fs (Py.path_join dirpath x) = true.
Proof.
  intros Hx Hk. unfold FS.isfile, FS.resolve.
  destruct (String.eqb (Py.path_join dirpath x) "") eqn:E.
  { apply String.eqb_eq in E. by apply join_name_nonempty in E. }
  rewrite components_join_name by done.
  destruct (FS.components dirpath); cbn [app FS.lookup]; cbn [app] in Hk; by rewrite Hk.
Qed.

Section WalkRaises.

Variable unzip : string -> option (list zmember).
Variable rank : string -> nat.
Hypothesis unzip_rank :
  forall data members m,
    unzip data = Some members -> m ∈ members -> rank (zm_data m) < rank data.

Notation within := (within unzip rank).

(** An exception of the loop over the files of a directory comes from
    line 192, at an archive that is still there. *)
Lemma files_loop_raises B verbose dirpath (l : list string) : forall w e w',
  within B (w_fs w) ->
  NoDup l ->
  (forall x, x ∈ l ->
     exists d, w_fs w !! (FS.components dirpath ++ [x])%list = Some (FS.File d)) ->
  for_each l (extract_archive unzip verbose dirpath) w = (Raise e, w') ->
  exists x,
    zip_name x = true /\
    FS.isfile (w_fs w') (Py.path_join dirpath x) = true /\
    FS.makedirs true (Py.path_join dirpath (Py.drop_last 4 x)) (w_fs w') = Raise e.
Proof.
  induction l as [|x l IH]; intros w e w' Hw Hnd Hfiles H; [discriminate|].
  rewrite for_each_cons in H. unfold bind in H.
  destruct (Hfiles x) as [dx Hx]; [by left|].
  destruct (Hw _ _ Hx) as [Hkey Hlen].
  apply Forall_app in Hkey as [_ Hname]. inversion Hname as [|? ? Hxn _]; subst.
  rewrite length_app in Hlen. cbn in Hlen.
  destruct (extract_archive unzip verbose dirpath x w) as [[[]|e0|] w1] eqn:E;
    [| |discriminate].
  - apply NoDup_cons in Hnd as [Hnotin Hnd].
    apply (IH w1 e w'); [|done| |done].
    + pose proof (safe_extract_archive unzip rank unzip_rank B verbose dirpath x Hxn
                    ltac:(lia) w Hw) as [_ Hw1].
      by rewrite E in Hw1.
    + intros y Hy. destruct (Hfiles y) as [dy Hdy]; [by right|].
      eapply (extract_archive_files_kept unzip verbose dirpath x w _ _ E); [|exact Hdy].
      rewrite components_join_name by done. intros Heq. apply app_inv_head in Heq.
      inversion Heq; subst. done.
  - inversion H; subst e0 w1.
    pose proof (extract_archive_raise_inv _ _ _ _ _ _ _ E) as Hmk.
    apply extract_archive_raise_world in E as [Hz ->].
    exists x. split; [done|]. split; [by eapply isfile_entry | done].
Qed.

(** An exception of the walk comes from line 192, at an archive of the
    tree below the folder. *)
Lemma walk_extract_raises_tied B verbose folder fuel : forall rel w e w',
  proper_key rel ->
  within B (w_fs w) ->
  List.length (FS.components (fold_left Py.path_join rel folder)) <= B ->
  B + 1 <= fuel + List.length (FS.components (fold_left Py.path_join rel folder)) ->
  walk_extract unzip fuel verbose (fold_left Py.path_join rel folder) w = (Raise e, w') ->
  extraction_directory_failure folder e w'.
Proof.
  induction fuel as [|fuel IH]; intros rel w e w' Hrel Hw Hlen Hfuel H; [lia|].
  set (dirpath := fold_left Py.path_join rel folder) in *.
  cbn [walk_extract] in H. unfold bind at 1 in H.
  destruct (FS.scandir (w_fs w) dirpath) as [[dirnames filenames]|] eqn:Hscan;
    [|discriminate].
  destruct (scandir_spec _ _ _ _ Hscan) as (Hdirs & Hfiles & Hnd_d & Hnd_f).
  unfold bind in H.
  destruct (for_each filenames (extract_archive unzip verbose dirpath) w)
    as [[[]|e0|] w1] eqn:Ef; [| |discriminate].
  - assert (within B (w_fs w1)) as Hw1.
    { assert (safe (within B) (for_each filenames (extract_archive unzip verbose dirpath)))
        as Hsafe.
      { apply safe_for_each. intros x Hx. apply Hfiles in Hx as [dx Hx].
        destruct (Hw _ _ Hx) as [Hkey Hb]. apply Forall_app in Hkey as [_ Hname].
        inversion Hname; subst. rewrite length_app in Hb. cbn in Hb.
        apply (safe_extract_archive unzip rank unzip_rank); [done | lia]. }
      destruct (Hsafe w Hw) as [_ Hw1]. by rewrite Ef in Hw1. }
    apply for_each_raise_inv in H as (l1 & d & l2 & w0 & Hl & Hrun & Hd).
    assert (forall d', d' ∈ dirnames ->
              Py.is_name d' = true /\ List.length (FS.components dirpath) + 1 <= B) as Hnames.
    { intros d' Hd'. apply Hdirs in Hd'. destruct (Hw _ _ Hd') as [Hkey Hb].
      apply Forall_app in Hkey as [_ Hname]. inversion Hname; subst.
      rewrite length_app in Hb. cbn in Hb. split; [done | lia]. }
    assert (within B (w_fs w0)) as Hw0.
    { assert (safe (within B)
                (for_each l1 (fun d => walk_extract unzip fuel verbose (Py.path_join dirpath d))))
        as Hsafe.
      { apply safe_for_each. intros d' Hd'.
        destruct (Hnames d') as [Hname Hb]; [subst; apply elem_of_app; by left|].
        apply (safe_walk_extract unzip rank unzip_rank);
          rewrite components_join_name, length_app by done; cbn; lia. }
      destruct (Hsafe w1 Hw1) as [_ Hw0]. by rewrite Hrun in Hw0. }
    destruct (Hnames d) as [Hname Hb].
    { subst. apply elem_of_app. right. by left. }
    apply (IH (rel ++ [d])%list w0 e w').
    + apply Forall_app. split; [done | by constructor].
    + done.
    + rewrite fold_left_app. cbn [fold_left]. fold dirpath.
      rewrite components_join_name, length_app by done. cbn. lia.
    + rewrite fold_left_app. cbn [fold_left]. fold dirpath.
      rewrite components_join_name, length_app by done. cbn. lia.
    + rewrite fold_left_app. cbn [fold_left]. exact Hd.
  - inversion H; subst e0 w1.
    destruct (files_loop_raises B verbose dirpath filenames w e w' Hw Hnd_f) as (x & Hz & Hf & Hmk);
      [by intros x Hx; apply Hfiles | done |].
    by exists rel, x.
Qed.

End WalkRaises.


(** ** An archive that holds itself *)

Lemma resolve_some s : FS.components s <> [] -> FS.resolve s = Some (FS.components s).
Proof.
  intros H. unfold FS.resolve. destruct (String.eqb s "") eqn:E; [|done].
  apply String.eqb_eq in E. by subst.
Qed.

Lemma mkdir_p_present p todo : forall fs above,
  todo <> [] ->
  (forall k, k `prefix_of` (rev above ++ todo)%list -> List.length above < List.length k ->
             fs !! k = Some FS.Dir) ->
  FS.mkdir_p true p fs above todo = Ok fs.
Proof.
  induction todo as [|s r IH]; intros fs above Hne Hdirs; [done|]. cbn [FS.mkdir_p].
  assert (rev above ++ s :: r = rev (s :: above) ++ r)%list as Hpath.
  { cbn [rev]. by rewrite <- app_assoc. }
  rewrite Hdirs.
  - destruct r as [|s' r']; [done|]. apply IH; [done|].
    intros k Hk Hlen. apply Hdirs; [by rewrite Hpath | cbn in Hlen; lia].
  - rewrite Hpath. by apply prefix_app_r.
  - rewrite length_rev. cbn. lia.
Qed.

Lemma mkdir_p_leaf ok p leaf todo : forall fs above,
  (forall k, k `prefix_of` (rev above ++ todo)%list -> List.length above < List.length k ->
             fs !! k = Some FS.Dir) ->
  fs !! (rev above ++ todo ++ [leaf])%list = None ->
  FS.mkdir_p ok p fs above (todo ++ [leaf])
  = Ok (<[ (rev above ++ todo ++ [leaf])%list := FS.Dir ]> fs).
Proof.
  induction todo as [|s r IH]; intros fs above Hdirs Hnone.
  - cbn [app FS.mkdir_p]. cbn [app] in Hnone. cbn [rev]. by rewrite Hnone.
  - cbn [app FS.mkdir_p].
    assert (forall t, rev above ++ s :: t = rev (s :: above) ++ t)%list as Hpath.
    { intros t. cbn [rev]. by rewrite <- app_assoc. }
    rewrite Hdirs.
    + assert (FS.mkdir_p ok p fs (s :: above) (r ++ [leaf])
              = Ok (<[ (rev (s :: above) ++ r ++ [leaf])%list := FS.Dir ]> fs)) as Hrec.
      { apply IH.
        * intros k Hk Hlen. apply Hdirs; [by rewrite Hpath | cbn in Hlen; lia].
        * by rewrite <- Hpath. }
      rewrite (Hpath (r ++ [leaf])%list). by destruct r.
    + rewrite Hpath. by apply prefix_app_r.
    + rewrite length_rev. cbn. lia.
Qed.

Lemma os_makedirs_present p w :
  FS.components p <> [] ->
  (forall k, k <> [] -> k `prefix_of` FS.components p -> w_fs w !! k = Some FS.Dir) ->
  exists w', os_makedirs p true w = (Ok tt, w') /\ w_fs w' = w_fs w.
Proof.
  intros Hne Hdirs. unfold os_makedirs, lift_fs, FS.makedirs.
  rewrite resolve_some by done.
  destruct (FS.components p) as [|s r] eqn:E; [done|].
  rewrite mkdir_p_present; [by eexists| done |].
  intros k Hk Hlen. apply Hdirs; [intros ->; cbn in Hlen; lia | done].
Qed.

Lemma os_makedirs_leaf ok p (P : list string) leaf w :
  FS.components p = (P ++ [leaf])%list ->
  (forall k, k <> [] -> k `prefix_of` P -> w_fs w !! k = Some FS.Dir) ->
  w_fs w !! (P ++ [leaf])%list = None ->
  exists w', os_makedirs p ok w = (Ok tt, w') /\
             w_fs w' = <[ (P ++ [leaf])%list := FS.Dir ]> (w_fs w).
Proof.
  intros Hc Hdirs Hnone. unfold os_makedirs, lift_fs, FS.makedirs.
  rewrite resolve_some by (rewrite Hc; by destruct P).
  rewrite Hc.
  pose proof (mkdir_p_leaf ok p leaf P (w_fs w) []) as H. cbn [rev app] in H.
  destruct (P ++ [leaf])%list as [|s r] eqn:E; [by destruct P|].
  rewrite H; [by eexists | | done].
  intros k Hk Hlen. apply Hdirs; [intros ->; cbn in Hlen; lia | done].
Qed.

Lemma endswith_join_name d x :
  Py.is_name x = true -> Py.endswith (Py.path_join d x) "/" = false.
Proof.
  intros Hx. apply is_name_inv in Hx as (Hne & _ & _ & Hsep).
  assert (x <> "") as Hx by (intros ->; done).
  unfold Py.path_join. rewrite startswith_no_sep by done.
  destruct (_ || _).
  - rewrite endswith_app by done. by apply endswith_sep_no_sep.
  - rewrite endswith_app; [|by destruct x | done]. cbn [Py.endswith].
    rewrite append_cons, append_nil. cbn [Py.endswith String.eqb].
    rewrite endswith_sep_no_sep by done. by destruct x.
Qed.

Lemma write_file_entry d x data (P : list string) w :
  Py.is_name x = true ->
  FS.components d = P -> P <> [] ->
  w_fs w !! P = Some FS.Dir ->
  w_fs w !! (P ++ [x])%list = None ->
  exists w', write_file (Py.path_join d x) data w = (Ok tt, w') /\
             w_fs w' = <[ (P ++ [x])%list := FS.File data ]> (w_fs w).
Proof.
  intros Hx Hd Hne Hdir Hnone. rewrite write_file_run. unfold FS.write_file.
  rewrite endswith_join_name by done.
  pose proof (components_join_name d x Hx) as Hc. rewrite Hd in Hc.
  rewrite resolve_some by (rewrite Hc; by destruct P). rewrite Hc.
  destruct P as [|s' r']; [done|]. cbn [app].
  change (s' :: r' ++ [x])%list with ((s' :: r') ++ [x])%list.
  rewrite removelast_last. cbn [FS.lookup]. rewrite Hdir, Hnone. by eexists.
Qed.

Lemma exists_key (fs : FS.t) p (k : list string) :
  FS.components p = k -> k <> [] ->
  FS.exists_ fs p = match fs !! k with Some _ => true | None => false end.
Proof.
  intros <- Hne. unfold FS.exists_. rewrite resolve_some by done.
  by destruct (FS.components p).
Qed.

Lemma isdir_key (fs : FS.t) p (k : list string) :
  FS.components p = k -> k <> [] ->
  FS.isdir fs p = match fs !! k with Some FS.Dir => true | _ => false end.
Proof.
  intros <- Hne. unfold FS.isdir. rewrite resolve_some by done.
  by destruct (FS.components p).
Qed.

Lemma ZipFile_key unzip p (k : list string) w data members :
  FS.components p = k -> k <> [] ->
  w_fs w !! k = Some (FS.File data) -> unzip data = Some members ->
  ZipFile unzip p w = (Ok members, w).
Proof.
  intros <- Hne Hk Hu. unfold ZipFile. rewrite resolve_some by done.
  destruct (FS.components p); [done|]. cbn [FS.lookup]. by rewrite Hk, Hu.
Qed.

Lemma remove_key (fs : FS.t) p (k : list string) data :
  FS.components p = k -> k <> [] -> fs !! k = Some (FS.File data) ->
  FS.remove p fs = Ok (delete k fs).
Proof.
  intros <- Hne Hk. unfold FS.remove. rewrite resolve_some by done.
  destruct (FS.components p); [done|]. by rewrite Hk.
Qed.

Lemma singleton_list {A} (l : list A) a :
  NoDup l -> (forall y, y ∈ l <-> y = a) -> l = [a].
Proof.
  intros Hnd H. destruct l as [|x l].
  - assert (a ∈ @nil A) as Ha by (by apply H). by apply elem_of_nil in Ha.
  - assert (x = a) as -> by (apply H; left).
    destruct l as [|y l]; [done|].
    assert (y = a) as -> by (apply H; right; left).
    apply NoDup_cons in Hnd as [Hnotin _]. exfalso. apply Hnotin. left.
Qed.

Lemma last_differs {A} (P : list A) a b (r : list A) :
  a <> b -> (P ++ [a])%list `prefix_of` (P ++ b :: r)%list -> False.
Proof.
  intros Hab [t Ht]. rewrite <- app_assoc in Ht. apply app_inv_head in Ht.
  cbn in Ht. congruence.
Qed.

Lemma quine_listing dirpath fs :
  quine_at dirpath fs -> FS.scandir fs dirpath = Some (["x"], ["x.zip"]).
Proof.
  intros (Hne & Habove & Hx & Hzip & Hrest).
  destruct (FS.scandir fs dirpath) as [[dirnames filenames]|] eqn:Hscan.
  - destruct (scandir_spec _ _ _ _ Hscan) as (Hdirs & Hfiles & Hnd_d & Hnd_f).
    assert (forall y n, fs !! (FS.components dirpath ++ [y])%list = Some n ->
                        y = "x" \/ y = "x.zip") as Hnames.
    { intros y n Hy. destruct (decide (y = "x")) as [|Hy1]; [by left|].
      destruct (decide (y = "x.zip")) as [|Hy2]; [by right|].
      rewrite Hrest in Hy; [done | by apply prefix_app_r | | |].
      - intros Heq. apply (f_equal (@List.length string)) in Heq.
        rewrite length_app in Heq. cbn in Heq. lia.
      - intros Heq. apply app_inv_head in Heq. congruence.
      - intros Heq. apply app_inv_head in Heq. congruence. }
    f_equal. f_equal.
    + apply singleton_list; [done|]. intros y. rewrite Hdirs. split.
      * intros Hy. destruct (Hnames _ _ Hy) as [->| ->]; [done | congruence].
      * by intros ->.
    + apply singleton_list; [done|]. intros y. rewrite Hfiles. split.
      * intros [d Hy]. destruct (Hnames _ _ Hy) as [->| ->]; [congruence | done].
      * intros ->. eauto.
  - exfalso. apply scandir_none in Hscan as [Hnd| ->]; [|done].
    apply Hnd. destruct (FS.components dirpath) as [|s r] eqn:E; [done|].
    cbn [FS.lookup]. by apply Habove.
Qed.

Lemma quine_step verbose dirpath w :
  quine_at dirpath (w_fs w) ->
  exists w',
    extract_archive quine_unzip verbose dirpath "x.zip" w = (Ok tt, w') /\
    quine_at (Py.path_join dirpath "x") (w_fs w').
Proof.
  intros (Hne & Habove & Hx & Hzip & Hrest).
  set (P := FS.components dirpath) in *.
  assert (Py.is_name "x" = true) as Nx by reflexivity.
  assert (Py.is_name "x.zip" = true) as Nz by reflexivity.
  pose proof (components_join_name dirpath "x" Nx) as Cx. fold P in Cx.
  pose proof (components_join_name dirpath "x.zip" Nz) as Cz. fold P in Cz.
  set (to := Py.path_join dirpath "x") in *.
  assert (forall k, k <> [] -> k `prefix_of` (P ++ ["x"])%list -> w_fs w !! k = Some FS.Dir)
    as Habove'.
  { intros k Hk Hpre. destruct (prefix_app_cases _ _ _ Hpre) as [Hp|(b & -> & Hb)].
    - by apply Habove.
    - destruct b as [|b0 b]; [rewrite app_nil_r; by apply Habove|].
      apply prefix_cons_inv_1 in Hb as Hb0. subst b0.
      apply prefix_cons_inv_2, prefix_nil_inv in Hb. by subst b. }
  assert (forall a, (P ++ ["x"]) ++ [a] <> P ++ ["x.zip"])%list as Hlen1.
  { intros a Heq. apply (f_equal (@List.length string)) in Heq.
    rewrite !length_app in Heq. cbn in Heq. lia. }
  assert (forall a, w_fs w !! ((P ++ ["x"]) ++ [a])%list = None) as Hdeep.
  { intros a. apply Hrest.
    - rewrite <- app_assoc. by apply prefix_app_r.
    - intros Heq. apply (f_equal (@List.length string)) in Heq.
      rewrite !length_app in Heq. cbn in Heq. lia.
    - intros Heq. apply (f_equal (@List.length string)) in Heq.
      rewrite !length_app in Heq. cbn in Heq. lia.
    - apply Hlen1. }
  (* line 192 *)
  destruct (os_makedirs_present to w) as (w1 & Hmk & Hfs1).
  { rewrite Cx. by destruct P. }
  { by rewrite Cx. }
  (* the directory member *)
  destruct (os_makedirs_leaf false (Py.path_join to "x") (P ++ ["x"])%list "x" w1)
    as (w2 & Hm1 & Hfs2).
  { by rewrite components_join_name, Cx. }
  { by rewrite Hfs1. }
  { by rewrite Hfs1. }
  (* the file member *)
  destruct (write_file_entry to "x.zip" "PK:quine" (P ++ ["x"])%list w2)
    as (w3 & Hm2 & Hfs3); [done | done | by destruct P | | |].
  { rewrite Hfs2, Hfs1, lookup_insert_ne; [done|].
    intros Heq. apply (f_equal (@List.length string)) in Heq.
    rewrite !length_app in Heq. cbn in Heq. lia. }
  { rewrite Hfs2, Hfs1, lookup_insert_ne; [done|].
    intros Heq. apply app_inv_head in Heq. congruence. }
  set (fs' := delete (P ++ ["x.zip"])%list (w_fs w3)).
  assert (forall k, fs' !! k =
            if decide (k = (P ++ ["x.zip"])%list) then None
            else if decide (k = ((P ++ ["x"]) ++ ["x.zip"])%list)
                 then Some (FS.File "PK:quine")
                 else if decide (k = ((P ++ ["x"]) ++ ["x"])%list) then Some FS.Dir
                      else w_fs w !! k) as Hfs'.
  { intros k. unfold fs'. rewrite Hfs3, Hfs2, Hfs1.
    destruct (decide (k = (P ++ ["x.zip"])%list)) as [->|H1]; [by rewrite lookup_delete_eq|].
    rewrite lookup_delete_ne by done.
    destruct (decide (k = ((P ++ ["x"]) ++ ["x.zip"])%list)) as [->|H2];
      [by rewrite lookup_insert_eq|].
    rewrite lookup_insert_ne by done.
    destruct (decide (k = ((P ++ ["x"]) ++ ["x"])%list)) as [->|H3];
      [by rewrite lookup_insert_eq|].
    by rewrite lookup_insert_ne. }
  exists (if verbose
          then log (EPrint ("Unzipped and deleted " +:+ Py.path_join dirpath "x.zip"))
                 (set_fs fs' w3)
          else set_fs fs' w3).
  split.
  - unfold extract_archive.
    change (Py.endswith (Py.lower "x.zip") ".zip") with true. cbn match.
    change (Py.drop_last 4 "x.zip") with "x". fold to.
    erewrite bind_run by exact Hmk. unfold try_except.
    assert (unzip_into quine_unzip (Py.path_join dirpath "x.zip") to w1 = (Ok tt, w3)) as Hun.
    { unfold unzip_into.
      erewrite bind_run
        by (eapply (ZipFile_key quine_unzip _ _ w1 "PK:quine");
            [exact Cz | by destruct P | by rewrite Hfs1 | reflexivity]).
      unfold bind at 1. cbn [testzip List.find zm_crc_ok negb fmap option_fmap option_map].
      unfold ret at 1. unfold extractall. rewrite !for_each_cons, for_each_nil.
      assert (forall w0, w_fs w0 !! (P ++ ["x"])%list = Some FS.Dir ->
                os_path_exists (Py.path_join to (Py.join_with "/" [])) w0 = (Ok true, w0)) as Hup.
      { intros w0 Hw0. unfold os_path_exists.
        pose proof (components_join to [] ltac:(constructor)) as Hc. rewrite app_nil_r, Cx in Hc.
        rewrite (exists_key _ _ _ Hc) by (by destruct P). by rewrite Hw0. }
      unfold bind at 1. unfold extract_member at 1.
      change (arc_components (zm_name (ZMember "x/" "" true))) with ["x"].
      cbn [removelast]. unfold bind at 1. rewrite Hup by (by rewrite Hfs1).
      cbn [negb]. unfold bind at 1, ret at 1.
      change (Py.endswith (zm_name (ZMember "x/" "" true)) "/") with true. cbn match.
      unfold member_target.
      change (arc_components (zm_name (ZMember "x/" "" true))) with ["x"].
      change (Py.join_with "/" ["x"]) with "x".
      unfold bind at 1.
      rewrite (isdir_key _ (Py.path_join to "x") ((P ++ ["x"]) ++ ["x"])%list)
        by (by rewrite ?components_join_name, ?Cx by done; destruct P).
      rewrite Hfs1, Hdeep. rewrite Hm1.
      unfold bind at 1. unfold extract_member at 1.
      change (arc_components (zm_name (ZMember "x.zip" "PK:quine" true))) with ["x.zip"].
      cbn [removelast]. unfold bind at 1. rewrite Hup.
      2:{ rewrite Hfs2, Hfs1, lookup_insert_ne; [done|].
          intros Heq. apply (f_equal (@List.length string)) in Heq.
          rewrite !length_app in Heq. cbn in Heq. lia. }
      cbn [negb]. unfold bind at 1, ret at 1.
      change (Py.endswith (zm_name (ZMember "x.zip" "PK:quine" true)) "/") with false.
      cbn match. unfold member_target.
      change (arc_components (zm_name (ZMember "x.zip" "PK:quine" true))) with ["x.zip"].
      change (Py.join_with "/" ["x.zip"]) with "x.zip". cbn [zm_data zm_crc_ok].
      unfold bind at 1. rewrite Hm2. reflexivity. }
    erewrite bind_run by exact Hun.
    assert (os_remove (Py.path_join dirpath "x.zip") w3 = (Ok tt, set_fs fs' w3)) as Hrm.
    { unfold os_remove, lift_fs.
      rewrite (remove_key _ _ _ "PK:quine" Cz); [done | by destruct P |].
      rewrite Hfs3, lookup_insert_ne by (intros Heq; by apply Hlen1 in Heq).
      rewrite Hfs2, lookup_insert_ne by (intros Heq; by apply Hlen1 in Heq).
      by rewrite Hfs1, Hzip. }
    erewrite bind_run by exact Hrm. by destruct verbose.
  - assert (w_fs (if verbose
                  then log (EPrint ("Unzipped and deleted " +:+ Py.path_join dirpath "x.zip"))
                         (set_fs fs' w3)
                  else set_fs fs' w3) = fs') as -> by (by destruct verbose).
    unfold quine_at. cbn zeta. rewrite Cx.
    split; [by destruct P|]. split; [|split; [|split]].
    + intros k Hk Hpre. rewrite Hfs'.
      destruct (decide _) as [->|_].
      { exfalso. by apply (last_differs P "x.zip" "x" []) in Hpre. }
      destruct (decide _) as [->|_].
      { apply prefix_length in Hpre. rewrite !length_app in Hpre. cbn in Hpre. lia. }
      destruct (decide _) as [->|_].
      { apply prefix_length in Hpre. rewrite !length_app in Hpre. cbn in Hpre. lia. }
      by apply Habove'.
    + rewrite Hfs'. destruct (decide _) as [Heq|_]; [by apply Hlen1 in Heq|].
      destruct (decide _) as [Heq|_]; [apply app_inv_head in Heq; congruence|].
      by destruct (decide _).
    + rewrite Hfs'. destruct (decide _) as [Heq|_]; [by apply Hlen1 in Heq|].
      by destruct (decide _).
    + intros k Hpre H1 H2 H3. rewrite Hfs'.
      destruct (decide _) as [_|Hnz]; [done|].
      destruct (decide _) as [|_]; [done|].
      destruct (decide _) as [|_]; [done|].
      apply Hrest; [| | done | done].
      * etransitivity; [|exact Hpre]. by apply prefix_app_r.
      * intros ->. apply (prefix_longer _ _ Hpre). rewrite length_app. cbn. lia.
Qed.

Lemma quine_walk verbose fuel : forall dirpath w,
  quine_at dirpath (w_fs w) ->
  fst (walk_extract quine_unzip fuel verbose dirpath w) = OutOfFuel.
Proof.
  induction fuel as [|fuel IH]; intros dirpath w Hq; [reflexivity|].
  cbn [walk_extract]. unfold bind at 1. rewrite (quine_listing _ _ Hq).
  destruct (quine_step verbose dirpath w Hq) as (w' & Hrun & Hq').
  rewrite !for_each_cons, !for_each_nil. unfold bind at 1. unfold bind at 1.
  rewrite Hrun. unfold ret at 1. unfold bind at 1.
  specialize (IH _ _ Hq').
  by destruct (walk_extract quine_unzip fuel verbose (Py.path_join dirpath "x") w')
    as [[[]|e|] w2].
Qed.

Lemma quine_downloaded :
  quine_at "dir" (w_fs (downloaded_tree quine_unzip (storing quine_storage))).
Proof.
  assert (w_fs (downloaded_tree quine_unzip (storing quine_storage))
          = <[ ["dir"; "x"] := FS.Dir ]>
              (<[ ["dir"; "x.zip"] := FS.File "PK:quine" ]> (<[ ["dir"] := FS.Dir ]> ∅)))
    as -> by (vm_compute; reflexivity).
  unfold quine_at. change (FS.components "dir") with ["dir"]. cbn zeta.
  split; [done|]. split; [|split; [|split]].
  - intros k Hk Hpre. destruct k as [|s k]; [done|].
    apply prefix_cons_inv_1 in Hpre as Hs. subst s.
    apply prefix_cons_inv_2, prefix_nil_inv in Hpre. subst k. reflexivity.
  - reflexivity.
  - reflexivity.
  - intros k Hpre H1 H2 H3. by rewrite !lookup_insert_ne, lookup_empty.
Qed.

(** With an archive that holds itself next to a folder of its name the
    walk goes deeper and deeper: whatever the depth allowed, the fetch
    does not come to an end. *)
Lemma osf_fetch_quine_never_ends fuel :
  fst (osf_fetch false quine_unzip fuel "" "dir" "un5ct" None true true
         (storing quine_storage)) = OutOfFuel.
Proof.
  destruct (osf_fetch_then_walk quine_unzip 0 fuel "" "dir" "un5ct" None true
              (storing quine_storage) "dir"
              (downloaded_tree quine_unzip (storing quine_storage))) as [_ ->].
  { vm_compute. reflexivity. }
  unfold bind.
  pose proof (quine_walk true fuel "dir" _ quine_downloaded) as H.
  by destruct (walk_extract quine_unzip fuel true "dir" _) as [[[]|e|] w2].
Qed.

(** ** Concrete runs of the Remote-Tree Fetcher *)




